(** * PageSaving: the in-page save orchestration of the Zotero connector

    A shallow embedding of [src/common/inject/pageSaving.js].  The object
    [PageSaving] holds two mutable fields, [sessionDetails] and
    [translators]; its methods are asynchronous glue around collaborators
    that live elsewhere (the translation engine, the item saver, the
    messaging facade, the connector client).

    The embedding is sequential: every [await] is a plain call whose outcome
    is read from a [World] record, every message and every call to a
    collaborator is appended to a trace of [Event]s, and an exception is the
    [Throw] outcome of a small state/trace/exception monad.  Interleaving of
    two calls of [PageSaving] during an [await] is outside the model. *)

From Stdlib Require Import String Ascii List ZArith Bool Lia.
Import ListNotations.
Open Scope string_scope.

Set Warnings "-register-all".

(** ** JavaScript data *)

(** Values that are sent in message payloads or handed to collaborators. *)
Inductive JSVal : Type :=
| JUndefined
| JNull
| JBool (b : bool)
| JNum (n : Z)
| JStr (s : string)
| JArr (elts : list JSVal)
| JObj (props : list (string * JSVal)).

(** [e.value] of an error coming from the connector client. *)
Inductive ErrorValue : Type :=
| NoValue
| ValueLibraryEditable (libraryEditable : option bool).

(** A thrown JavaScript value: what [e.toString()], [e.status] and
    [e.value] give. *)
Record JSError : Type := mkJSError {
  e_toString : string;
  e_status : option Z;
  e_value : ErrorValue
}.

(** [new Error(msg)] *)
Definition Error (msg : string) : JSError :=
  {| e_toString := "Error: " ++ msg; e_status := None; e_value := NoValue |}.

(** The engine's [TypeError] for a member access on [undefined] or a call
    of something that is no function. *)
Definition TypeError (msg : string) : JSError :=
  {| e_toString := "TypeError: " ++ msg; e_status := None; e_value := NoValue |}.

(** Translator descriptor. *)
Record Translator : Type := mkTranslator {
  translatorID : string;
  label : string;
  itemType : string
}.

(** The [options] object of a save action. *)
Record Options : Type := mkOptions {
  note : option string;
  resave : bool;
  fallbackOnFailure : bool;
  snapshot : option bool
}.

(** [options = {}] *)
Definition no_options : Options :=
  {| note := None; resave := false; fallbackOnFailure := false; snapshot := None |}.

(** [sessionDetails]: [{}] or an object with some of the properties
    [id], [url], [translatorID], [saveOptions]. *)
Record SessionDetails : Type := mkSession {
  sd_id : option string;
  sd_url : option string;
  sd_translatorID : option string;
  sd_saveOptions : option Options
}.

(** [{}] *)
Definition empty_session : SessionDetails :=
  {| sd_id := None; sd_url := None; sd_translatorID := None; sd_saveOptions := None |}.

(** The mutable fields of the [PageSaving] object. *)
Record PageSaving : Type := mkPageSaving {
  sessionDetails : SessionDetails;
  translators : list Translator
}.

(** [let PageSaving = { sessionDetails: {}, translators: [], ... }] *)
Definition PageSaving_initial : PageSaving :=
  {| sessionDetails := empty_session; translators := [] |}.

(** [item.notes]: absent, an array of notes, or the object [{note: ...}]
    that [_processNote] stores. *)
Inductive Notes : Type :=
| NotesAbsent
| NotesArray (notes : list string)
| NotesObject (n : string).

Record Item : Type := mkItem {
  item_id : JSVal;
  item_itemType : string;
  item_title : string;
  item_notes : Notes
}.

Record Attachment : Type := mkAttachment {
  att_id : JSVal;
  att_linkMode : option string;
  att_contentType : option string;
  att_mimeType : option string;
  att_title : string;
  att_parentItem : JSVal
}.

(** [proxy] as handed to the item saver: what the engine returned, or that
    value wrapped by [new Zotero.Proxy(proxy)]. *)
Inductive ProxyVal : Type :=
| RawProxy (p : JSVal)
| NewProxy (p : JSVal).

(** The object the client answers to [saveSnapshot] / [saveSingleFile]. *)
Record SaveResult : Type := mkSaveResult {
  res_saveSingleFile : bool;
  res_attachments : option (list string)   (* titles of [result.attachments] *)
}.

(** What a method of [PageSaving] returns. *)
Inductive Ret : Type :=
| RetUndefined
| RetExternal (v : JSVal)
| RetSnapshot (r : option SaveResult).

(** ** Outcomes and events *)

Inductive Outcome (A : Type) : Type :=
| Return (a : A)
| Throw (e : JSError).
Arguments Return {A} a.
Arguments Throw {A} e.

(** How the translation engine drives the handlers of [translateAndSave]. *)
Inductive TranslateCallback : Type :=
| CbSelect (items : JSVal)
           (selectedCollection : Outcome (option bool))
           (returnItems : option (list (string * string)))
| CbItemSaving (item : Item)
| CbTranslatorFallback (oldTranslator newTranslator : Translator).

(** How the item saver drives the handlers of [translateAndSave]. *)
Inductive SaverCallback : Type :=
| CbAttachmentProgress (attachment : Attachment) (progress : JSVal)
| CbItemsSaved.

(** Everything the code does to the outside, in program order. *)
Inductive Event : Type :=
| sendMessage (name : string) (payload : JSVal)
| setTimeout_sendMessage (delay : Z) (name : string) (payload : JSVal)
| logError (e : JSError)
| Promise_delay (ms : Z)
| VirtualOffscreenTranslate_create
| new_Translate_Web
| setDocument (multiple : option bool)
| TranslateWeb_detect
| Connector_Browser_onPDFFrame (href : string) (instance : JSVal)
| Connector_Browser_onTranslators
    (ts : list Translator) (instance : JSVal) (contentType : string)
| TranslateWeb_translate (ts : list Translator)
| translate_getProxy
| ItemSaver_saveItems
    (sessionID : string) (baseURI : string) (proxy : ProxyVal) (items : list Item)
| Connector_callMethod (method : string) (data : JSVal)
| Connector_callMethodWithCookies (method : string) (data : JSVal)
| Connector_saveSingleFile (options : JSVal) (data : JSVal)
| Connector_Browser_onSelect (items : JSVal)
| Inject_onSafariSelect (items : JSVal)
| Inject_checkActionToServer
| Connector_Browser_isIncognito
| SingleFile_retrievePageData
| Translate_ItemSaver_saveAsWebpage.

(** ** The world outside [PageSaving]

    The document, the build flags and the answer of every collaborator.  A
    method of [PageSaving] calls each collaborator at most once, so one answer
    per collaborator describes a run. *)
Record World : Type := mkWorld {
  (* document *)
  location_href : string;
  document_title : string;
  document_contentType : string;
  document_referrer : string;
  document_cookie : option string;      (* [None]: reading it throws *)
  document_innerHTML : string;
  (* globals *)
  isManifestV3 : bool;
  isSafari : bool;
  isChromium : bool;
  isBrowserExt : bool;
  isTopWindow : bool;
  instanceID : JSVal;
  (* pure helpers of the Zotero namespace *)
  getImageSrc : string -> string;
  getString : string -> string;
  getExtensionURL : string -> string;
  cleanTags : string -> string;
  packString : string -> string;
  (* answers of the collaborators *)
  randomString : string;
  checkActionToServer : bool;
  offscreen_create : option JSError;    (* [Some e]: [create()] rejects *)
  detect : Outcome (list Translator);
  onPDFFrame : Outcome JSVal;          (* how the returned promise settles *)
  translate_callbacks : list TranslateCallback;
  translate : Outcome (list Item * JSVal);
  getProxy : JSVal;
  saveItems_callbacks : list SaverCallback;
  saveItems : Outcome JSVal;
  isIncognito : bool;
  saveSnapshot : Outcome (option SaveResult);
  retrievePageData : Outcome string;
  saveSingleFile : Outcome (option SaveResult);
  itemSaver_saveAsWebpage : Outcome (list Item)
}.

(** ** Truthiness and loose equality, at the types used here *)

Definition truthy_string (s : string) : bool :=
  negb (String.eqb s "").

Definition truthy_opt_string (o : option string) : bool :=
  match o with
  | Some s => truthy_string s
  | None => false
  end.

Definition truthy_opt_bool (o : option bool) : bool :=
  match o with
  | Some b => b
  | None => false
  end.

(** [a == b] where [a] is a string and [b] a string or [undefined]. *)
Definition loose_eq (a : string) (b : option string) : bool :=
  match b with
  | Some s => String.eqb a s
  | None => false
  end.

Definition truthy_JSVal (v : JSVal) : bool :=
  match v with
  | JUndefined | JNull => false
  | JBool b => b
  | JNum n => negb (Z.eqb n 0)
  | JStr s => truthy_string s
  | JArr _ | JObj _ => true
  end.

Definition JS_of_opt_string (o : option string) : JSVal :=
  match o with
  | Some s => JStr s
  | None => JUndefined
  end.

(** ** The monad of a method body: state, trace and exceptions *)

Definition M (A : Type) : Type :=
  PageSaving -> Outcome A * PageSaving * list Event.

Definition ret {A} (a : A) : M A :=
  fun s => (Return a, s, []).

Definition throw {A} (e : JSError) : M A :=
  fun s => (Throw e, s, []).

Definition bind {A B} (m : M A) (k : A -> M B) : M B :=
  fun s =>
    match m s with
    | (Return a, s1, t1) =>
        match k a s1 with
        | (r, s2, t2) => (r, s2, (t1 ++ t2)%list)
        end
    | (Throw e, s1, t1) => (Throw e, s1, t1)
    end.

(** [try { m } catch (e) { handler e }] *)
Definition try_catch {A} (m : M A) (handler : JSError -> M A) : M A :=
  fun s =>
    match m s with
    | (Return a, s1, t1) => (Return a, s1, t1)
    | (Throw e, s1, t1) =>
        match handler e s1 with
        | (r, s2, t2) => (r, s2, (t1 ++ t2)%list)
        end
    end.

Definition get : M PageSaving :=
  fun s => (Return s, s, []).

Definition emit (ev : Event) : M unit :=
  fun s => (Return tt, s, [ev]).

(** An [await] on a collaborator: the call is recorded, the answer is the
    world's. *)
Definition await {A} (ev : Event) (answer : Outcome A) : M A :=
  fun s => (answer, s, [ev]).

(** A result that is already there: the value of a synchronous call, or a
    promise that settles without a further call. *)
Definition lift {A} (o : Outcome A) : M A :=
  fun s => (o, s, []).

Definition set_sessionDetails (sd : SessionDetails) : M unit :=
  fun s => (Return tt, {| sessionDetails := sd; translators := translators s |}, []).

Definition set_translators (ts : list Translator) : M unit :=
  fun s => (Return tt, {| sessionDetails := sessionDetails s; translators := ts |}, []).

Declare Scope js_scope.
Delimit Scope js_scope with js.
Notation "x <- m ;; k" := (bind m (fun x => k))
  (at level 61, m at next level, right associativity) : js_scope.
Notation "m ;; k" := (bind m (fun _ => k))
  (at level 61, right associativity) : js_scope.
Open Scope js_scope.

(** Projections of a run. *)
Definition outcome_of {A} (r : Outcome A * PageSaving * list Event) : Outcome A :=
  fst (fst r).
Definition state_of {A} (r : Outcome A * PageSaving * list Event) : PageSaving :=
  snd (fst r).
Definition trace_of {A} (r : Outcome A * PageSaving * list Event) : list Event :=
  snd r.

(** ** Module-level helpers of pageSaving.js *)

(** Translators whose failures on a rate-limited site get their own message. *)
Definition SITE_ACCESS_LIMIT_TRANSLATORS : list string :=
  [ "57a00950-f0d1-4b41-b6ba-44ff0fc30289" (* GoogleScholar *) ].

(** [Set.prototype.has] *)
Definition has (set : list string) (x : string) : bool :=
  existsb (String.eqb x) set.

(** [Array.prototype.findIndex]; [None] stands for [-1]. *)
Fixpoint findIndex {A} (p : A -> bool) (l : list A) : option nat :=
  match l with
  | [] => None
  | x :: rest =>
      if p x then Some 0%nat
      else match findIndex p rest with
           | Some i => Some (S i)
           | None => None
           end
  end.

(** [arr[i]] where [i] is the result of [findIndex]: [arr[-1]] is
    [undefined]. *)
Definition index {A} (l : list A) (i : option nat) : option A :=
  match i with
  | Some n => nth_error l n
  | None => None
  end.

(** [arr.slice(i)] where [i] is the result of [findIndex]: [slice(-1)] is
    the last element alone. *)
Definition slice_from {A} (l : list A) (i : option nat) : list A :=
  match i with
  | Some n => skipn n l
  | None => skipn (length l - 1) l
  end.

(** Lines 485-489: the translators handed to [translateAndSave]: the selected
    one and those after it, or the selected one alone when there is no
    fallback on failure. *)
Definition selected_translators (all : list Translator)
    (translatorIndex : option nat) (options : Options) : list Translator :=
  let ts := slice_from all translatorIndex in
  if negb (fallbackOnFailure options) then firstn 1 ts else ts.

(** ['webpage' + (snapshot ? 'WithSnapshot' : '')], the translator ID under
    which a page is saved without a translator. *)
Definition webpage_translatorID (withSnapshot : bool) : string :=
  "webpage" ++ (if withSnapshot then "WithSnapshot" else "").

(** [arr.at(-1)] *)
Definition at_last {A} (l : list A) : option A :=
  nth_error l (length l - 1).

Definition is_nonempty {A} (l : list A) : bool :=
  match l with
  | [] => false
  | _ :: _ => true
  end.

Definition is_digit (c : ascii) : bool :=
  let n := nat_of_ascii c in
  (48 <=? n)%nat && (n <=? 57)%nat.

(** Matches [prefix] at the start of [s] and gives the rest. *)
Fixpoint strip_prefix (prefix s : string) : option string :=
  match prefix with
  | EmptyString => Some s
  | String p prefix' =>
      match s with
      | EmptyString => None
      | String c s' =>
          if Ascii.eqb p c then strip_prefix prefix' s' else None
      end
  end.

(** [[0-9]{3}] at the start of [s]. *)
Definition three_digits (s : string) : option string :=
  match s with
  | String a (String b (String c _)) =>
      if is_digit a && is_digit b && is_digit c
      then Some (String a (String b (String c EmptyString)))
      else None
  | _ => None
  end.

(** [/status code ([0-9]{3})/] tried at the start of [s]. *)
Definition status_code_here (s : string) : option string :=
  match strip_prefix "status code " s with
  | Some rest => three_digits rest
  | None => None
  end.

(** [errorMessage.match(/status code ([0-9]{3})/)]: the capture group of the
    leftmost match, [None] when [match] gives [null].  (The pattern is ASCII,
    so matching on bytes and on UTF-16 code units agree.) *)
Fixpoint match_status_code (errorMessage : string) : option string :=
  match status_code_here errorMessage with
  | Some code => Some code
  | None =>
      match errorMessage with
      | EmptyString => None
      | String _ rest => match_status_code rest
      end
  end.

(** Lines 510-513: [statusCode] stays [''] when [match(...)[1]] throws. *)
Definition statusCode_of (errorMessage : string) : string :=
  match match_status_code errorMessage with
  | Some code => code
  | None => ""
  end.

Definition opt_string_eqb (o : option string) (s : string) : bool :=
  match o with
  | Some x => String.eqb x s
  | None => false
  end.

(** [attachment.contentType || attachment.mimeType] *)
Definition contentType_or_mimeType (attachment : Attachment) : option string :=
  if truthy_opt_string (att_contentType attachment)
  then att_contentType attachment
  else att_mimeType attachment.

Section PageSaving.

Variable w : World.

Definition determineAttachmentIcon (attachment : Attachment) : string :=
  if opt_string_eqb (att_linkMode attachment) "linked_url"
  then getImageSrc w "attachment-web-link"
  else
    let contentType := contentType_or_mimeType attachment in
    getImageSrc w
      (if opt_string_eqb contentType "application/pdf"
       then "attachment-pdf" else "attachment-snapshot").

Definition determineAttachmentType (attachment : Attachment) : string :=
  if opt_string_eqb (att_linkMode attachment) "linked_url"
  then getString w "itemType_link"
  else
    let contentType := contentType_or_mimeType attachment in
    if opt_string_eqb contentType "application/pdf" then getString w "itemType_pdf"
    else if opt_string_eqb contentType "application/epub+zip" then getString w "itemType_epub"
    else if opt_string_eqb contentType "text/html" then getString w "itemType_snapshot"
    else getString w "itemType_attachment".

(** ** Methods of [PageSaving] *)

Definition _initTranslate (itemType : option string) : M unit :=
  (if isManifestV3 w then
     try_catch
       (await VirtualOffscreenTranslate_create
          (match offscreen_create w with
           | Some e => Throw e
           | None => Return tt
           end))
       (fun e =>
          emit (logError
                  (Error ("Inject: Initializing translate failed at "
                          ++ location_href w))) ;;
          emit (logError e) ;;
          throw e)
   else emit new_Translate_Web) ;;
  if isManifestV3 w
  then emit (setDocument (Some (opt_string_eqb itemType "multiple")))
  else emit (setDocument None).

(** Lines 113-122 of [onPageLoad]: detection and its report.  The result
    is what the [try] block hands out: [undefined], or, from line 118, the
    promise of [onPDFFrame].  That promise is returned without [await], so it
    settles only after the block is left: [Return v] and [Throw e] stand for
    a promise that fulfils with [v] or rejects with [e]. *)
Definition onPageLoad_detect : M (Outcome Ret) :=
  _initTranslate None ;;
  ts <- await TranslateWeb_detect (detect w) ;;
  if negb (is_nonempty ts) && isSafari w
     && (negb (isTopWindow w)
         && String.eqb (document_contentType w) "application/pdf")
  then
    emit (Connector_Browser_onPDFFrame (location_href w) (instanceID w)) ;;
    ret (match onPDFFrame w with
         | Return v => Return (RetExternal v)
         | Throw e => Throw e
         end)
  else
    set_translators ts ;;
    emit (Connector_Browser_onTranslators ts (instanceID w) (document_contentType w)) ;;
    ret (Return RetUndefined).

(** [onPageLoad] settles as what its [try] block returned does: the
    rejection of a returned promise is past the [catch] of line 123. *)
Definition onPageLoad (force : bool) : M Ret :=
  if String.eqb (location_href w) "about:blank" then ret RetUndefined
  else
    set_sessionDetails empty_session ;;
    returned <-
      try_catch
        (this <- get ;;
         if is_nonempty (translators this) then
           if force then set_translators [] ;; onPageLoad_detect
           else ret (Return RetUndefined)
         else onPageLoad_detect)
        (fun e => emit (logError e) ;; ret (Return RetUndefined)) ;;
    lift returned.

Definition _initSession (tID : string) (saveOptions : Options) : M string :=
  let sessionID := randomString w in
  set_sessionDetails
    {| sd_id := Some sessionID;
       sd_url := Some (location_href w);
       sd_translatorID := Some tID;
       sd_saveOptions := Some saveOptions |} ;;
  ret sessionID.

Definition _clearSession : M unit :=
  set_sessionDetails empty_session.

Definition _shouldReopenProgressWindow
    (this : PageSaving) (tID : string) (options : Options)
    (itemType : option string) : bool :=
  truthy_opt_string (sd_id (sessionDetails this))
  && loose_eq (location_href w) (sd_url (sessionDetails this))
  && loose_eq tID (sd_translatorID (sessionDetails this))
  && negb (opt_string_eqb itemType "multiple")
  && negb (truthy_opt_string (note options))
  && negb (resave options).

Definition _processNote (this : PageSaving) (items : list Item)
    : Outcome (list Item) :=
  match sd_saveOptions (sessionDetails this) with
  | Some saveOptions =>
      match note saveOptions, items with
      | Some n, [item] =>
          if truthy_string n then
            match item_notes item with
            | NotesArray notes =>
                Return [ {| item_id := item_id item;
                            item_itemType := item_itemType item;
                            item_title := item_title item;
                            item_notes := NotesArray (notes ++ [n])%list |} ]
            | NotesObject _ =>
                Throw (TypeError "items[0].notes.push is not a function")
            | NotesAbsent =>
                Return [ {| item_id := item_id item;
                            item_itemType := item_itemType item;
                            item_title := item_title item;
                            item_notes := NotesObject n |} ]
            end
          else Return items
      | _, _ => Return items
      end
  | None => Return items
  end.

(** *** translateAndSave and its handlers *)

(** The handlers' local counters [itemsTotal] and [itemsSaved]. *)
Record Counters : Type := mkCounters {
  itemsTotal : Z;
  itemsSaved : Z
}.

(** [onSelect]: closes the progress window, asks the client for the selected
    collection, shows the selection dialog and reopens the progress window when
    items were chosen. *)
Definition onSelect (this : PageSaving) (c : Counters) (items : JSVal)
    (selectedCollection : Outcome (option bool))
    (returnItems : option (list (string * string))) : list Event * Counters :=
  let ask :=
    [ sendMessage "progressWindow.close" JNull;
      Connector_callMethod "getSelectedCollection" (JObj []) ] in
  let dialog :=
    if isBrowserExt w then Connector_Browser_onSelect items
    else Inject_onSafariSelect items in
  let chosen :=
    match returnItems with
    | Some ((_ :: _) as selected) =>
        let sessionID := sd_id (sessionDetails this) in
        ([ sendMessage "progressWindow.show" (JArr [JS_of_opt_string sessionID]) ],
         {| itemsTotal := Z.of_nat (length selected); itemsSaved := 0 |})
    | _ => ([], c)
    end in
  match selectedCollection with
  | Return (Some false) => (ask, c)
  | Return _ => ((ask ++ dialog :: fst chosen)%list, snd chosen)
  | Throw e =>
      let logged :=
        match e_status e with
        | Some 0%Z => []
        | _ => [ logError e ]
        end in
      ((ask ++ logged ++ dialog :: fst chosen)%list, snd chosen)
  end.

Definition onItemSaving (sessionID : string) (c : Counters) (item : Item)
    : list Event * Counters :=
  let saved := (itemsSaved c + 1)%Z in
  ([ sendMessage "progressWindow.itemProgress"
       (JObj [ ("sessionID", JStr sessionID);
               ("id", item_id item);
               ("iconSrc", JStr (getImageSrc w (item_itemType item)));
               ("title", JStr (item_title item));
               ("itemsLoaded",
                if (itemsTotal c <=? saved)%Z then JNum saved else JBool false);
               ("itemType", JStr (item_itemType item)) ]) ],
   {| itemsTotal := itemsTotal c; itemsSaved := saved |}).

Definition onTranslatorFallback (oldTranslator newTranslator : Translator)
    : list Event :=
  [ sendMessage "progressWindow.error"
      (JArr [ JStr "fallback"; JStr (label oldTranslator);
              JStr (label newTranslator) ]) ].

(** [onItemsSaved]: one message per saved item and per note.  [for ... of]
    over the [{note: ...}] object of [_processNote] throws, which ends the
    handler. *)
Fixpoint onItemsSaved (sessionID : string) (total : nat) (items : list Item)
    : list Event :=
  match items with
  | [] => []
  | item :: rest =>
      sendMessage "progressWindow.itemProgress"
        (JObj [ ("sessionID", JStr sessionID);
                ("id", item_id item);
                ("iconSrc", JStr (getImageSrc w (item_itemType item)));
                ("title", JStr (item_title item));
                ("progress", JNum 100);
                ("itemsLoaded", JNum (Z.of_nat total));
                ("itemType", JStr (item_itemType item)) ])
      :: match item_notes item with
         | NotesAbsent => onItemsSaved sessionID total rest
         | NotesArray notes =>
             (map (fun n =>
                     sendMessage "progressWindow.itemProgress"
                       (JObj [ ("sessionID", JStr sessionID);
                               ("id", JNull);
                               ("iconSrc",
                                JStr (getExtensionURL w "images/treeitem-note.png"));
                               ("title", JStr (cleanTags w n));
                               ("parentItem", item_id item);
                               ("progress", JNum 100);
                               ("itemType", JStr (getString w "itemType_note")) ]))
                  notes
              ++ onItemsSaved sessionID total rest)%list
         | NotesObject _ => []
         end
  end.

Definition onAttachmentProgress (sessionID : string) (attachment : Attachment)
    (progress : JSVal) : list Event :=
  [ sendMessage "progressWindow.itemProgress"
      (JObj [ ("sessionID", JStr sessionID);
              ("id", att_id attachment);
              ("iconSrc", JStr (determineAttachmentIcon attachment));
              ("title", JStr (att_title attachment));
              ("parentItem", att_parentItem attachment);
              ("progress", progress);
              ("itemType", JStr (determineAttachmentType attachment)) ]) ].

(** The engine calling the translate handlers, in its order. *)
Fixpoint run_translate_callbacks (this : PageSaving) (sessionID : string)
    (c : Counters) (cbs : list TranslateCallback) : list Event * Counters :=
  match cbs with
  | [] => ([], c)
  | cb :: rest =>
      let '(evs, c1) :=
        match cb with
        | CbSelect items selectedCollection returnItems =>
            onSelect this c items selectedCollection returnItems
        | CbItemSaving item => onItemSaving sessionID c item
        | CbTranslatorFallback oldT newT => (onTranslatorFallback oldT newT, c)
        end in
      let '(evs', c2) := run_translate_callbacks this sessionID c1 rest in
      ((evs ++ evs')%list, c2)
  end.

(** The item saver calling its handlers, in its order. *)
Definition run_saver_callbacks (sessionID : string) (items : list Item)
    (cbs : list SaverCallback) : list Event :=
  flat_map
    (fun cb =>
       match cb with
       | CbAttachmentProgress attachment progress =>
           onAttachmentProgress sessionID attachment progress
       | CbItemsSaved => onItemsSaved sessionID (length items) items
       end)
    cbs.

Definition emit_all (evs : list Event) : M unit :=
  fun s => (Return tt, s, evs).

Definition translateAndSave (sessionID : string) (ts : list Translator)
    : M JSVal :=
  _initTranslate None ;;
  this <- get ;;
  emit (TranslateWeb_translate ts) ;;
  emit_all
    (fst (run_translate_callbacks this sessionID
            {| itemsTotal := 0; itemsSaved := 0 |} (translate_callbacks w))) ;;
  translated <- lift (translate w) ;;
  let '(items, proxy) := translated in
  proxy <- (if isManifestV3 w then
              emit translate_getProxy ;;
              ret (if truthy_JSVal (getProxy w)
                   then NewProxy (getProxy w) else RawProxy (getProxy w))
            else ret (RawProxy proxy)) ;;
  this <- get ;;
  items <- lift (_processNote this items) ;;
  emit (ItemSaver_saveItems sessionID (location_href w) proxy items) ;;
  emit_all (run_saver_callbacks sessionID items (saveItems_callbacks w)) ;;
  lift (saveItems w).

(** *** saveAsWebpage *)

(** The destructured argument [{ sessionID, title, snapshot }]; [None] is a
    property that is absent or [undefined]. *)
Record SaveAsWebpageArgs : Type := mkSaveAsWebpageArgs {
  arg_sessionID : option string;
  arg_title : option string;
  arg_snapshot : option bool
}.

(** [delete obj[key]] *)
Definition delete_key (key : string) (props : list (string * JSVal))
    : list (string * JSVal) :=
  filter (fun p => negb (String.eqb (fst p) key)) props.

(** [progressItem] of [saveAsWebpage], with its [title] and [progress]. *)
Definition progressItem (sessionID title : string) (progress : JSVal) : JSVal :=
  JObj [ ("sessionID", JStr sessionID);
         ("id", JNum 2);
         ("iconSrc", JStr (getImageSrc w "attachment-snapshot"));
         ("title", JStr title);
         ("parentItem", JNum 1);
         ("progress", progress);
         ("itemType", JStr (getString w "itemType_snapshot"));
         ("itemsLoaded", JNum 1) ].

(** Lines 354-415: the [try] block of [saveAsWebpage]. *)
Definition saveAsWebpage_try (sessionID title tID image : string)
    (data : list (string * JSVal)) (pdf : bool) : M Ret :=
  result <- await (Connector_callMethodWithCookies "saveSnapshot" (JObj data))
                  (saveSnapshot w) ;;
  emit (sendMessage "progressWindow.sessionCreated"
          (JObj [ ("sessionID", JStr sessionID) ])) ;;
  emit (sendMessage "progressWindow.itemProgress"
          (JObj [ ("sessionID", JStr sessionID);
                  ("id", JNum 1);
                  ("iconSrc", JStr (getImageSrc w image));
                  ("title", JStr title);
                  ("parentItem", JBool false);
                  ("progress", JNum 100);
                  ("itemsLoaded", JNum 1) ])) ;;
  result <-
    (if negb pdf
        && match result with
           | Some r => res_saveSingleFile r
           | None => false
           end
     then
       emit (sendMessage "progressWindow.itemProgress"
               (progressItem sessionID "Snapshot" (JNum 0))) ;;
       data <-
         try_catch
           (content <- await SingleFile_retrievePageData (retrievePageData w) ;;
            ret (data ++ [ ("snapshotContent", JStr (packString w content)) ])%list)
           (fun _ =>
              emit (sendMessage "progressWindow.itemProgress"
                      (progressItem sessionID "Snapshot" (JBool false))) ;;
              ret data) ;;
       result <-
         await (Connector_saveSingleFile
                  (JObj [ ("method", JStr "saveSingleFile");
                          ("headers",
                           JObj [ ("Content-Type", JStr "application/json") ]) ])
                  (JObj data))
               (saveSingleFile w) ;;
       emit (sendMessage "progressWindow.itemProgress"
               (progressItem sessionID "Snapshot" (JNum 100))) ;;
       ret result
     else ret result) ;;
  emit_all
    (match result with
     | Some {| res_attachments := Some attachments |} =>
         map (fun attachment_title =>
                sendMessage "progressWindow.itemProgress"
                  (progressItem sessionID attachment_title (JNum 100)))
             attachments
     | _ => []
     end) ;;
  emit (sendMessage "progressWindow.done" (JArr [ JBool true ])) ;;
  this <- get ;;
  set_sessionDetails
    {| sd_id := Some sessionID;
       sd_url := Some (location_href w);
       sd_translatorID := Some tID;
       sd_saveOptions := sd_saveOptions (sessionDetails this) |} ;;
  ret (RetSnapshot result).

(** Lines 416-448: the [catch] block of [saveAsWebpage]. *)
Definition saveAsWebpage_catch (title image : string) (e : JSError) : M Ret :=
  match e_status e with
  | Some 0%Z =>
      (* Client unavailable *)
      if negb (String.eqb (document_contentType w) "application/pdf") then
        items <- await Translate_ItemSaver_saveAsWebpage
                       (itemSaver_saveAsWebpage w) ;;
        (if is_nonempty items then
           emit (sendMessage "progressWindow.itemProgress"
                   (JObj [ ("id", JStr title);
                           ("iconSrc", JStr (getImageSrc w image));
                           ("title", JStr title);
                           ("parentItem", JBool false);
                           ("progress", JNum 100) ]))
         else ret tt) ;;
        emit (sendMessage "progressWindow.done" (JArr [ JBool true ])) ;;
        ret RetUndefined
      else
        emit (sendMessage "progressWindow.done"
                (JArr [ JBool false; JStr "clientRequired" ])) ;;
        throw e
  | _ =>
      (match e_value e with
       | ValueLibraryEditable (Some false) => ret tt
       | _ =>
           emit (sendMessage "progressWindow.done"
                   (JArr [ JBool false; JStr "unexpectedError" ]))
       end) ;;
      throw e
  end.

Definition saveAsWebpage (args : SaveAsWebpageArgs) : M Ret :=
  let title :=
    match arg_title args with
    | Some t => t
    | None => document_title w
    end in
  let saveSnapshot :=
    match arg_snapshot args with
    | Some b => b
    | None => true
    end in
  let tID := webpage_translatorID saveSnapshot in
  match arg_sessionID args with
  | Some sessionID =>
      if negb (truthy_string sessionID)
      then throw (Error "Trying to save as webpage without session ID")
      else
        let cookie := document_cookie w in
        let data :=
          [ ("sessionID", JStr sessionID);
            ("url", JStr (location_href w));
            ("referrer", JStr (document_referrer w));
            ("cookie", JS_of_opt_string cookie);
            ("title", JStr title);
            ("html", JStr (document_innerHTML w));
            ("skipSnapshot", JBool (negb saveSnapshot));
            ("singleFile", JBool true) ] in
        incognito <-
          (if isChromium w
           then await Connector_Browser_isIncognito (Return (isIncognito w))
           else ret false) ;;
        let data := if incognito then delete_key "singleFile" data else data in
        let pdf := String.eqb (document_contentType w) "application/pdf" in
        let data := if pdf then (data ++ [ ("pdf", JBool true) ])%list else data in
        let image := if pdf then "attachment-pdf" else "webpage" in
        emit (sendMessage "progressWindow.show" (JArr [ JStr sessionID ])) ;;
        emit (sendMessage "progressWindow.itemProgress"
                (JObj [ ("sessionID", JStr sessionID);
                        ("id", JNum 1);
                        ("iconSrc", JStr (getImageSrc w image));
                        ("title", JStr title) ])) ;;
        try_catch
          (saveAsWebpage_try sessionID title tID image data pdf)
          (saveAsWebpage_catch title image)
  | None => throw (Error "Trying to save as webpage without session ID")
  end.

(** *** The entry points *)

(** Lines 500-522: the failure report of [onTranslate] when no webpage
    fallback is taken. *)
Definition onTranslate_failed (translator : Translator) (errorMessage : string)
    : M Ret :=
  (* Clear session details on failure, so another save click tries again *)
  _clearSession ;;
  emit (Promise_delay 500) ;;
  let isAccessLimitingTranslator :=
    has SITE_ACCESS_LIMIT_TRANSLATORS (translatorID translator) in
  let statusCode := statusCode_of errorMessage in
  let isHTTPErrorForbidden := String.eqb statusCode "403" in
  let isHTTPErrorTooManyRequests := String.eqb statusCode "429" in
  (if (isAccessLimitingTranslator && isHTTPErrorForbidden)
      || isHTTPErrorTooManyRequests
   then emit (sendMessage "progressWindow.done"
                (JArr [ JBool false; JStr "siteAccessLimits";
                        JStr (label translator) ]))
   else emit (sendMessage "progressWindow.done" (JArr [ JBool false ]))) ;;
  ret RetUndefined.

(** Lines 469-523: the save of [onTranslate] under the session
    [sessionID] that [_initSession] has just stored. *)
Definition onTranslate_save (options : Options)
    (translatorIndex : option nat) (translator : Translator)
    (sessionID : string) : M Ret :=
  let delay := if String.eqb (itemType translator) "multiple" then 100%Z else 0%Z in
  emit (setTimeout_sendMessage delay "progressWindow.show"
          (JArr [ JStr sessionID; JNull; JBool false ])) ;;
  try_catch
    (this <- get ;;
     let ts := selected_translators (translators this) translatorIndex options in
     items <- translateAndSave sessionID ts ;;
     emit (sendMessage "progressWindow.done" (JArr [ JBool true ])) ;;
     ret (RetExternal items))
    (fun e =>
       emit (logError e) ;;
       let errorMessage := e_toString e in
       if negb (String.eqb (itemType translator) "multiple")
          && fallbackOnFailure options
       then
         this <- get ;;
         match at_last (translators this) with
         | Some last =>
             emit (sendMessage "progressWindow.error"
                     (JArr [ JStr "fallback"; JStr (label last);
                             JStr "Save as Webpage" ])) ;;
             saveAsWebpage {| arg_sessionID := Some sessionID;
                              arg_title := None;
                              arg_snapshot := Some true |}
         | None => throw (TypeError "this.translators.at(...) is undefined")
         end
       else onTranslate_failed translator errorMessage).

Definition onTranslate (tID : string) (options : Options) : M Ret :=
  result <- await Inject_checkActionToServer (Return (checkActionToServer w)) ;;
  if negb result then ret RetUndefined
  else
    this <- get ;;
    let translatorIndex :=
      findIndex (fun t => String.eqb (translatorID t) tID) (translators this) in
    match index (translators this) translatorIndex with
    | Some translator =>
        (* In some cases, we just reopen the popup instead of saving again *)
        if _shouldReopenProgressWindow this tID options (Some (itemType translator))
        then
          emit (sendMessage "progressWindow.show"
                  (JArr [ JS_of_opt_string (sd_id (sessionDetails this)) ])) ;;
          ret RetUndefined
        else
          sessionID <- _initSession tID options ;;
          onTranslate_save options translatorIndex translator sessionID
    | None => throw (TypeError "translator is undefined")
    end.

Definition onSaveAsWebpage (title : option string) (options : Options) : M Ret :=
  let title :=
    match title with
    | Some t => t
    | None => document_title w
    end in
  result <- await Inject_checkActionToServer (Return (checkActionToServer w)) ;;
  if negb result then ret RetUndefined
  else
    let tID := webpage_translatorID (truthy_opt_bool (snapshot options)) in
    this <- get ;;
    (* In some cases, we just reopen the popup instead of saving again *)
    if _shouldReopenProgressWindow this tID options None
    then
      emit (sendMessage "progressWindow.show"
              (JArr [ JS_of_opt_string (sd_id (sessionDetails this)) ])) ;;
      ret RetUndefined
    else
      sessionID <- _initSession tID options ;;
      saveAsWebpage {| arg_sessionID := Some sessionID;
                       arg_title := Some title;
                       arg_snapshot := snapshot options |}.

End PageSaving.

(** ** The properties under study, in the words of the specification *)

(** A [sessionDetails] that holds a session: the properties that identify a
    save are all present. *)
Definition holds_session (sd : SessionDetails) : Prop :=
  exists id url tID,
    sd_id sd = Some id /\ sd_url sd = Some url /\ sd_translatorID sd = Some tID.

(** "Either empty or exactly one session". *)
Definition session_invariant (s : PageSaving) : Prop :=
  sessionDetails s = empty_session \/ holds_session (sessionDetails s).

(** The session that a save action on [tID] with [saveOptions] creates. *)
Definition created_session (w : World) (tID : string) (saveOptions : Options)
    : SessionDetails :=
  {| sd_id := Some (randomString w);
     sd_url := Some (location_href w);
     sd_translatorID := Some tID;
     sd_saveOptions := Some saveOptions |}.

Definition with_session (s : PageSaving) (sd : SessionDetails) : PageSaving :=
  {| sessionDetails := sd; translators := translators s |}.

(** The conditions under which the progress window is said to be reopened:
    a session exists, same page, same translator, not a multiple page, no
    note and no resave in the options. *)
Definition reopen_conditions (w : World) (s : PageSaving) (tID : string)
    (options : Options) (itemType : option string) : Prop :=
  (exists id, sd_id (sessionDetails s) = Some id /\ id <> "")
  /\ sd_url (sessionDetails s) = Some (location_href w)
  /\ sd_translatorID (sessionDetails s) = Some tID
  /\ itemType <> Some "multiple"
  /\ truthy_opt_string (note options) = false
  /\ resave options = false.

(** "[progressWindow.show] is sent with the stored session id and no new
    session is created", after the [checkActionToServer] check. *)
Definition reopened (s : PageSaving) : Outcome Ret * PageSaving * list Event :=
  (Return RetUndefined, s,
   [ Inject_checkActionToServer;
     sendMessage "progressWindow.show"
       (JArr [ JS_of_opt_string (sd_id (sessionDetails s)) ]) ]).

(** A run with one more event in front of its trace. *)
Definition after_event {A} (ev : Event)
    (r : Outcome A * PageSaving * list Event) : Outcome A * PageSaving * list Event :=
  (outcome_of r, state_of r, ev :: trace_of r).

(** The failures reported as site-access limits: a translator of
    [SITE_ACCESS_LIMIT_TRANSLATORS] with status code 403, or any translator
    with status code 429. *)
Definition site_access_limited (translator : Translator) (e : JSError) : Prop :=
  (In (translatorID translator) SITE_ACCESS_LIMIT_TRANSLATORS
   /\ statusCode_of (e_toString e) = "403")
  \/ statusCode_of (e_toString e) = "429".

(** [msg] contains [text]. *)
Definition contains_text (msg text : string) : Prop :=
  exists before after, msg = before ++ text ++ after.

(** [msg] contains the text [status code ] followed by [code]. *)
Definition contains_status_code (msg code : string) : Prop :=
  exists before after, msg = before ++ "status code " ++ code ++ after.

(** What the [catch] block of [onTranslate] does with the error [e]. *)
Definition onTranslate_catch_run (w : World) (options : Options)
    (translator : Translator) (sessionID : string) (e : JSError)
    (s : PageSaving) : Outcome Ret * PageSaving * list Event :=
  if negb (String.eqb (itemType translator) "multiple")
     && fallbackOnFailure options
  then
    match at_last (translators s) with
    | Some last =>
        after_event
          (sendMessage "progressWindow.error"
             (JArr [ JStr "fallback"; JStr (label last);
                     JStr "Save as Webpage" ]))
          (saveAsWebpage w
             {| arg_sessionID := Some sessionID; arg_title := None;
                arg_snapshot := Some true |} s)
    | None => (Throw (TypeError "this.translators.at(...) is undefined"), s, [])
    end
  else onTranslate_failed translator (e_toString e) s.

(** ** Example pages *)

Module Examples.

Definition scholar : Translator :=
  {| translatorID := "57a00950-f0d1-4b41-b6ba-44ff0fc30289";
     label := "Google Scholar";
     itemType := "journalArticle" |}.

Definition embedded : Translator :=
  {| translatorID := "951c027d-74ac-47d4-a107-9c3069ab7b48";
     label := "Embedded Metadata";
     itemType := "webpage" |}.

Definition http_error (code : string) : JSError :=
  {| e_toString := "Error: HTTP GET failed with status code " ++ code;
     e_status := None;
     e_value := NoValue |}.

(** A thrown error whose [toString()] is [msg]. *)
Definition failure (msg : string) : JSError :=
  {| e_toString := msg; e_status := None; e_value := NoValue |}.

Definition server_error : JSError :=
  {| e_toString := "Error: Internal Server Error";
     e_status := Some 500%Z;
     e_value := NoValue |}.

(** A browser-extension page (Firefox, manifest V2) at [href]. *)
Definition page (href : string) (check : bool)
    (detected : Outcome (list Translator))
    (translated : Outcome (list Item * JSVal))
    (snapshot_answer : Outcome (option SaveResult)) : World :=
  {| location_href := href;
     document_title := "An article";
     document_contentType := "text/html";
     document_referrer := "";
     document_cookie := Some "";
     document_innerHTML := "<head></head><body></body>";
     isManifestV3 := false;
     isSafari := false;
     isChromium := false;
     isBrowserExt := true;
     isTopWindow := true;
     instanceID := JNum 1;
     getImageSrc := fun name => "images/" ++ name ++ ".png";
     getString := fun name => name;
     getExtensionURL := fun path => "moz-extension://zotero/" ++ path;
     cleanTags := fun text => text;
     packString := fun text => text;
     randomString := "Xk3vQ9aZ";
     checkActionToServer := check;
     offscreen_create := None;
     detect := detected;
     onPDFFrame := Return JUndefined;
     translate_callbacks := [];
     translate := translated;
     getProxy := JUndefined;
     saveItems_callbacks := [];
     saveItems := Return JUndefined;
     isIncognito := false;
     saveSnapshot := snapshot_answer;
     retrievePageData := Return "<html></html>";
     saveSingleFile := Return None;
     itemSaver_saveAsWebpage := Return [] |}.

Definition article_url : string := "https://example.org/article".

(** A state in which [scholar] saved [article_url] under session "abcd1234". *)
Definition saved_once : PageSaving :=
  {| sessionDetails :=
       {| sd_id := Some "abcd1234";
          sd_url := Some article_url;
          sd_translatorID := Some (translatorID scholar);
          sd_saveOptions := Some no_options |};
     translators := [ scholar; embedded ] |}.

Definition detected_only : PageSaving :=
  {| sessionDetails := empty_session; translators := [ scholar; embedded ] |}.

Definition fallback_options : Options :=
  {| note := None; resave := false; fallbackOnFailure := true; snapshot := None |}.

End Examples.

(** ** Further notions for the properties of the code *)

(** Started in [s0], [m] finishes with an outcome and a state that satisfy
    [Q]. *)
Definition finishes {A} (s0 : PageSaving) (m : M A)
    (Q : Outcome A -> PageSaving -> Prop) : Prop :=
  Q (outcome_of (m s0)) (state_of (m s0)).

(** [obj[key]] on the properties of an object literal. *)
Fixpoint property (key : string) (props : list (string * JSVal))
    : option JSVal :=
  match props with
  | [] => None
  | (k, v) :: rest => if String.eqb k key then Some v else property key rest
  end.

(** The payloads of the [progressWindow.done] messages of a trace. *)
Fixpoint done_messages (trace : list Event) : list JSVal :=
  match trace with
  | [] => []
  | sendMessage name payload :: rest =>
      if String.eqb name "progressWindow.done"
      then payload :: done_messages rest
      else done_messages rest
  | _ :: rest => done_messages rest
  end.

(** Any event but a [progressWindow.done] message. *)
Definition not_done (ev : Event) : Prop :=
  match ev with
  | sendMessage name _ => name <> "progressWindow.done"
  | _ => True
  end.

(** Every run of [m] ends with an outcome and with [progressWindow.done]
    messages that satisfy [Q]. *)
Definition reports {A} (m : M A) (Q : Outcome A -> list JSVal -> Prop) : Prop :=
  forall s, Q (outcome_of (m s)) (done_messages (trace_of (m s))).

(** What may be said of the end of a save: one [done [true]] when the call
    returns, and when it throws nothing or one of the two failure reports of
    [saveAsWebpage]. *)
Definition saved_or_failed {A} (o : Outcome A) (d : list JSVal) : Prop :=
  match o with
  | Return _ => d = [ JArr [ JBool true ] ]
  | Throw _ =>
      d = [] \/ d = [ JArr [ JBool false; JStr "clientRequired" ] ]
      \/ d = [ JArr [ JBool false; JStr "unexpectedError" ] ]
  end.

(** A call of SingleFile or of the client's [saveSingleFile]. *)
Definition is_SingleFile_event (ev : Event) : Prop :=
  match ev with
  | SingleFile_retrievePageData | Connector_saveSingleFile _ _ => True
  | _ => False
  end.

(** ** More example pages *)

Module Pages.

(** [w] on another platform and document type. *)
Definition on_platform (w : World)
    (manifestV3 safari chromium topWindow incognito : bool)
    (contentType : string) : World :=
  {| location_href := location_href w;
     document_title := document_title w;
     document_contentType := contentType;
     document_referrer := document_referrer w;
     document_cookie := document_cookie w;
     document_innerHTML := document_innerHTML w;
     isManifestV3 := manifestV3;
     isSafari := safari;
     isChromium := chromium;
     isBrowserExt := isBrowserExt w;
     isTopWindow := topWindow;
     instanceID := instanceID w;
     getImageSrc := getImageSrc w;
     getString := getString w;
     getExtensionURL := getExtensionURL w;
     cleanTags := cleanTags w;
     packString := packString w;
     randomString := randomString w;
     checkActionToServer := checkActionToServer w;
     offscreen_create := offscreen_create w;
     detect := detect w;
     onPDFFrame := onPDFFrame w;
     translate_callbacks := translate_callbacks w;
     translate := translate w;
     getProxy := getProxy w;
     saveItems_callbacks := saveItems_callbacks w;
     saveItems := saveItems w;
     isIncognito := incognito;
     saveSnapshot := saveSnapshot w;
     retrievePageData := retrievePageData w;
     saveSingleFile := saveSingleFile w;
     itemSaver_saveAsWebpage := itemSaver_saveAsWebpage w |}.

(** [w] with other answers of SingleFile, of the client's [saveSingleFile] and
    of the server-side item saver. *)
Definition with_client (w : World) (pageData : Outcome string)
    (singleFile : Outcome (option SaveResult))
    (server : Outcome (list Item)) : World :=
  {| location_href := location_href w;
     document_title := document_title w;
     document_contentType := document_contentType w;
     document_referrer := document_referrer w;
     document_cookie := document_cookie w;
     document_innerHTML := document_innerHTML w;
     isManifestV3 := isManifestV3 w;
     isSafari := isSafari w;
     isChromium := isChromium w;
     isBrowserExt := isBrowserExt w;
     isTopWindow := isTopWindow w;
     instanceID := instanceID w;
     getImageSrc := getImageSrc w;
     getString := getString w;
     getExtensionURL := getExtensionURL w;
     cleanTags := cleanTags w;
     packString := packString w;
     randomString := randomString w;
     checkActionToServer := checkActionToServer w;
     offscreen_create := offscreen_create w;
     detect := detect w;
     onPDFFrame := onPDFFrame w;
     translate_callbacks := translate_callbacks w;
     translate := translate w;
     getProxy := getProxy w;
     saveItems_callbacks := saveItems_callbacks w;
     saveItems := saveItems w;
     isIncognito := isIncognito w;
     saveSnapshot := saveSnapshot w;
     retrievePageData := pageData;
     saveSingleFile := singleFile;
     itemSaver_saveAsWebpage := server |}.

(** [w] with another behaviour of the translation engine and the item
    saver. *)
Definition with_engine (w : World) (create : option JSError)
    (callbacks : list TranslateCallback) (proxy : JSVal)
    (saver_callbacks : list SaverCallback) (saved : Outcome JSVal) : World :=
  {| location_href := location_href w;
     document_title := document_title w;
     document_contentType := document_contentType w;
     document_referrer := document_referrer w;
     document_cookie := document_cookie w;
     document_innerHTML := document_innerHTML w;
     isManifestV3 := isManifestV3 w;
     isSafari := isSafari w;
     isChromium := isChromium w;
     isBrowserExt := isBrowserExt w;
     isTopWindow := isTopWindow w;
     instanceID := instanceID w;
     getImageSrc := getImageSrc w;
     getString := getString w;
     getExtensionURL := getExtensionURL w;
     cleanTags := cleanTags w;
     packString := packString w;
     randomString := randomString w;
     checkActionToServer := checkActionToServer w;
     offscreen_create := create;
     detect := detect w;
     onPDFFrame := onPDFFrame w;
     translate_callbacks := callbacks;
     translate := translate w;
     getProxy := proxy;
     saveItems_callbacks := saver_callbacks;
     saveItems := saved;
     isIncognito := isIncognito w;
     saveSnapshot := saveSnapshot w;
     retrievePageData := retrievePageData w;
     saveSingleFile := saveSingleFile w;
     itemSaver_saveAsWebpage := itemSaver_saveAsWebpage w |}.

(** A page on which every collaborator answers without error. *)
Definition article : World :=
  Examples.page Examples.article_url true (Return [ Examples.embedded ])
    (Return ([], JUndefined)) (Return None).

(** The same page while the client rejects [saveSnapshot] with [e]. *)
Definition article_rejected (e : JSError) : World :=
  Examples.page Examples.article_url true (Return [ Examples.embedded ])
    (Return ([], JUndefined)) (Throw e).

(** The target library cannot be edited. *)
Definition read_only : JSError :=
  {| e_toString := "Error: Library not editable";
     e_status := Some 500%Z;
     e_value := ValueLibraryEditable (Some false) |}.

Definition session_args (sessionID : string) : SaveAsWebpageArgs :=
  {| arg_sessionID := Some sessionID; arg_title := None; arg_snapshot := None |}.

Definition book : Item :=
  {| item_id := JStr "B1"; item_itemType := "book"; item_title := "A book";
     item_notes := NotesAbsent |}.

Definition annotated_book : Item :=
  {| item_id := JStr "B2"; item_itemType := "book"; item_title := "Another book";
     item_notes := NotesArray [ "first note" ] |}.

(** The client wants a SingleFile snapshot, SingleFile fails, and the
    client then stores its own snapshot. *)
Definition singleFile_fails : World :=
  with_client
    (Examples.page Examples.article_url true (Return [])
       (Return ([], JUndefined))
       (Return (Some {| res_saveSingleFile := true;
                        res_attachments := None |})))
    (Throw (Examples.failure "Error: SingleFile failed"))
    (Return (Some {| res_saveSingleFile := false;
                     res_attachments := Some [ "Snapshot" ] |}))
    (Return []).

(** The engine saves [book] and [annotated_book]; the item saver then reports
    the saved items. *)
Definition two_books : World :=
  with_engine
    (Examples.page Examples.article_url true (Return [])
       (Return ([ book; annotated_book ], JUndefined)) (Return None))
    None [ CbItemSaving book; CbItemSaving annotated_book ] JUndefined
    [ CbItemsSaved ] (Return (JStr "saved")).

(** Options of "Create Zotero Item and Note from Selection". *)
Definition with_note : Options :=
  {| note := Some "selected text"; resave := false;
     fallbackOnFailure := false; snapshot := None |}.

Definition noting : PageSaving :=
  {| sessionDetails :=
       {| sd_id := Some "abcd1234";
          sd_url := Some Examples.article_url;
          sd_translatorID := Some (translatorID Examples.embedded);
          sd_saveOptions := Some with_note |};
     translators := [ Examples.embedded ] |}.

(** Translation fails on the article; the client then saves it as a
    webpage. *)
Definition untranslatable : World :=
  Examples.page Examples.article_url true (Return [ Examples.scholar ])
    (Throw Examples.server_error) (Return None).

(** A PDF shown in a frame on Safari, where no translator is detected. *)
Definition safari_pdf_frame : World :=
  on_platform
    (Examples.page "https://example.org/paper.pdf" true (Return [])
       (Return ([], JUndefined)) (Return None))
    false true false false false "application/pdf".

(** The same frame when the promise of [onPDFFrame] rejects with [e]. *)
Definition rejected_pdf_frame (e : JSError) : World :=
  {| location_href := location_href safari_pdf_frame;
     document_title := document_title safari_pdf_frame;
     document_contentType := document_contentType safari_pdf_frame;
     document_referrer := document_referrer safari_pdf_frame;
     document_cookie := document_cookie safari_pdf_frame;
     document_innerHTML := document_innerHTML safari_pdf_frame;
     isManifestV3 := isManifestV3 safari_pdf_frame;
     isSafari := isSafari safari_pdf_frame;
     isChromium := isChromium safari_pdf_frame;
     isBrowserExt := isBrowserExt safari_pdf_frame;
     isTopWindow := isTopWindow safari_pdf_frame;
     instanceID := instanceID safari_pdf_frame;
     getImageSrc := getImageSrc safari_pdf_frame;
     getString := getString safari_pdf_frame;
     getExtensionURL := getExtensionURL safari_pdf_frame;
     cleanTags := cleanTags safari_pdf_frame;
     packString := packString safari_pdf_frame;
     randomString := randomString safari_pdf_frame;
     checkActionToServer := checkActionToServer safari_pdf_frame;
     offscreen_create := offscreen_create safari_pdf_frame;
     detect := detect safari_pdf_frame;
     onPDFFrame := Throw e;
     translate_callbacks := translate_callbacks safari_pdf_frame;
     translate := translate safari_pdf_frame;
     getProxy := getProxy safari_pdf_frame;
     saveItems_callbacks := saveItems_callbacks safari_pdf_frame;
     saveItems := saveItems safari_pdf_frame;
     isIncognito := isIncognito safari_pdf_frame;
     saveSnapshot := saveSnapshot safari_pdf_frame;
     retrievePageData := retrievePageData safari_pdf_frame;
     saveSingleFile := saveSingleFile safari_pdf_frame;
     itemSaver_saveAsWebpage := itemSaver_saveAsWebpage safari_pdf_frame |}.

End Pages.

(** Lines 318-337: the [data] of the [saveSnapshot] request. *)
Definition saveSnapshot_data (w : World) (sessionID title : string)
    (saveSnapshot : bool) : list (string * JSVal) :=
  let data :=
    [ ("sessionID", JStr sessionID);
      ("url", JStr (location_href w));
      ("referrer", JStr (document_referrer w));
      ("cookie", JS_of_opt_string (document_cookie w));
      ("title", JStr title);
      ("html", JStr (document_innerHTML w));
      ("skipSnapshot", JBool (negb saveSnapshot));
      ("singleFile", JBool true) ] in
  let data :=
    if isChromium w && isIncognito w then delete_key "singleFile" data
    else data in
  if String.eqb (document_contentType w) "application/pdf"
  then (data ++ [ ("pdf", JBool true) ])%list
  else data.

(** What the handlers of [translateAndSave] may do under the session
    [sessionID]: send an [itemProgress] message that carries that session ID,
    close or show the progress window or report a translator fallback, log an
    error, ask the client for the selected collection, or show the selection
    dialog. *)
Definition handler_event (sessionID : string) (ev : Event) : Prop :=
  match ev with
  | sendMessage name (JObj props) =>
      name = "progressWindow.itemProgress"
      /\ property "sessionID" props = Some (JStr sessionID)
  | sendMessage name _ =>
      name = "progressWindow.close" \/ name = "progressWindow.show"
      \/ name = "progressWindow.error"
  | logError _ | Connector_callMethod _ _
  | Connector_Browser_onSelect _ | Inject_onSafariSelect _ => True
  | _ => False
  end.

(** The translate object is created without error. *)
Definition translate_is_created (w : World) : Prop :=
  isManifestV3 w = true -> offscreen_create w = None.

(** [onPageLoad] reaches line 118: detection runs, finds no translator, and
    the document is a PDF in a frame on Safari. *)
Definition hands_to_onPDFFrame (w : World) (force : bool) (s : PageSaving)
    : Prop :=
  location_href w <> "about:blank"
  /\ (translators s = [] \/ force = true)
  /\ translate_is_created w
  /\ detect w = Return []
  /\ isSafari w = true
  /\ isTopWindow w = false
  /\ document_contentType w = "application/pdf".

(** [payload.itemsLoaded] of a message. *)
Definition itemsLoaded_of (ev : Event) : option JSVal :=
  match ev with
  | sendMessage _ (JObj props) => property "itemsLoaded" props
  | _ => None
  end.

(** The message of [onItemsSaved] for the note [n] of the item [parent]. *)
Definition note_message (w : World) (sessionID : string) (parent : JSVal)
    (n : string) : Event :=
  sendMessage "progressWindow.itemProgress"
    (JObj [ ("sessionID", JStr sessionID);
            ("id", JNull);
            ("iconSrc", JStr (getExtensionURL w "images/treeitem-note.png"));
            ("title", JStr (cleanTags w n));
            ("parentItem", parent);
            ("progress", JNum 100);
            ("itemType", JStr (getString w "itemType_note")) ]).

(** A message about a child of another item: it has a [parentItem]. *)
Definition is_child_message (ev : Event) : Prop :=
  match ev with
  | sendMessage _ (JObj props) => property "parentItem" props <> None
  | _ => False
  end.


(** ** Reasoning about runs *)

(** [m] leaves the fields of [PageSaving] as they are. *)
Definition keeps_state {A} (m : M A) : Prop :=
  forall s, state_of (m s) = s.

(** [m] preserves the state predicate [I], whether it returns or throws. *)
Definition preserves {A} (I : PageSaving -> Prop) (m : M A) : Prop :=
  forall s, I s -> I (state_of (m s)).

(** From a state that satisfies [P], whenever [m] returns [a] the final state
    satisfies [Q a]. *)
Definition on_return {A} (P : PageSaving -> Prop) (m : M A)
    (Q : A -> PageSaving -> Prop) : Prop :=
  forall s a, P s -> outcome_of (m s) = Return a -> Q a (state_of (m s)).

(** Every event of every run of [m] satisfies [P]. *)
Definition emits_only {A} (P : Event -> Prop) (m : M A) : Prop :=
  forall s ev, In ev (trace_of (m s)) -> P ev.


(** What [translateAndSave] and its handlers may do: anything but ask the
    client to save the page as a webpage or report the save as done. *)
Definition translateAndSave_event (ev : Event) : Prop :=
  match ev with
  | sendMessage name _ => name <> "progressWindow.done"
  | Connector_callMethodWithCookies _ _ => False
  | _ => True
  end.

Section RunLemmas.

Context {A B : Type}.

Lemma keeps_state_ret (a : A) : keeps_state (ret a).
Proof. intro s. reflexivity. Qed.

Lemma keeps_state_throw (e : JSError) : keeps_state (@throw A e).
Proof. intro s. reflexivity. Qed.

Lemma keeps_state_lift (o : Outcome A) : keeps_state (lift o).
Proof. intro s. reflexivity. Qed.

Lemma keeps_state_await (ev : Event) (o : Outcome A) : keeps_state (await ev o).
Proof. intro s. reflexivity. Qed.

Lemma keeps_state_bind (m : M A) (k : A -> M B) :
  keeps_state m -> (forall a, keeps_state (k a)) -> keeps_state (bind m k).
Proof.
  intros Hm Hk s. unfold bind, state_of.
  specialize (Hm s). unfold state_of in Hm.
  destruct (m s) as [[[a | e] s1] t1]; simpl in *; subst s1.
  - specialize (Hk a s). unfold state_of in Hk.
    destruct (k a s) as [[r s2] t2]; simpl in *. assumption.
  - reflexivity.
Qed.

Lemma keeps_state_try_catch (m : M A) (h : JSError -> M A) :
  keeps_state m -> (forall e, keeps_state (h e)) -> keeps_state (try_catch m h).
Proof.
  intros Hm Hh s. unfold try_catch, state_of.
  specialize (Hm s). unfold state_of in Hm.
  destruct (m s) as [[[a | e] s1] t1]; simpl in *; subst s1.
  - reflexivity.
  - specialize (Hh e s). unfold state_of in Hh.
    destruct (h e s) as [[r s2] t2]; simpl in *. assumption.
Qed.

Lemma keeps_state_preserves (I : PageSaving -> Prop) (m : M A) :
  keeps_state m -> preserves I m.
Proof. intros Hm s HI. rewrite Hm. assumption. Qed.

Lemma preserves_bind (I : PageSaving -> Prop) (m : M A) (k : A -> M B) :
  preserves I m -> (forall a, preserves I (k a)) -> preserves I (bind m k).
Proof.
  intros Hm Hk s HI. unfold bind, state_of.
  specialize (Hm s HI). unfold state_of in Hm.
  destruct (m s) as [[[a | e] s1] t1]; simpl in *.
  - specialize (Hk a s1 Hm). unfold state_of in Hk.
    destruct (k a s1) as [[r s2] t2]; simpl in *. assumption.
  - assumption.
Qed.

Lemma preserves_try_catch (I : PageSaving -> Prop) (m : M A) (h : JSError -> M A) :
  preserves I m -> (forall e, preserves I (h e)) -> preserves I (try_catch m h).
Proof.
  intros Hm Hh s HI. unfold try_catch, state_of.
  specialize (Hm s HI). unfold state_of in Hm.
  destruct (m s) as [[[a | e] s1] t1]; simpl in *.
  - assumption.
  - specialize (Hh e s1 Hm). unfold state_of in Hh.
    destruct (h e s1) as [[r s2] t2]; simpl in *. assumption.
Qed.

End RunLemmas.

Lemma keeps_state_get : keeps_state get.
Proof. intro s. reflexivity. Qed.

Lemma keeps_state_emit (ev : Event) : keeps_state (emit ev).
Proof. intro s. reflexivity. Qed.

Lemma keeps_state_emit_all (evs : list Event) : keeps_state (emit_all evs).
Proof. intro s. reflexivity. Qed.

(** A predicate on [sessionDetails] alone survives a change of the
    translator list. *)
Lemma preserves_set_translators (P : SessionDetails -> Prop) (ts : list Translator) :
  preserves (fun s => P (sessionDetails s)) (set_translators ts).
Proof. intros s HP. exact HP. Qed.

(** One step of a proof that a method body keeps the state. *)
Ltac keeps_step :=
  match goal with
  | |- keeps_state (bind _ _) => apply keeps_state_bind; [ | intro ]
  | |- keeps_state (try_catch _ _) => apply keeps_state_try_catch; [ | intro ]
  | |- keeps_state (ret _) => apply keeps_state_ret
  | |- keeps_state (throw _) => apply keeps_state_throw
  | |- keeps_state (lift _) => apply keeps_state_lift
  | |- keeps_state (await _ _) => apply keeps_state_await
  | |- keeps_state get => apply keeps_state_get
  | |- keeps_state (emit _) => apply keeps_state_emit
  | |- keeps_state (emit_all _) => apply keeps_state_emit_all
  | |- keeps_state (if ?b then _ else _) => destruct b
  | |- keeps_state (match ?x with _ => _ end) => destruct x
  end.

Lemma _initTranslate_keeps_state (w : World) (itemType : option string) :
  keeps_state (_initTranslate w itemType).
Proof. unfold _initTranslate. repeat keeps_step. Qed.

Lemma translateAndSave_keeps_state (w : World) (sessionID : string)
    (ts : list Translator) :
  keeps_state (translateAndSave w sessionID ts).
Proof.
  unfold translateAndSave.
  repeat first [ apply _initTranslate_keeps_state | keeps_step ].
Qed.

(** One step of a proof that a method body preserves an invariant. *)
Ltac preserves_step :=
  match goal with
  | |- preserves _ (bind _ _) => apply preserves_bind; [ | intro ]
  | |- preserves _ (try_catch _ _) => apply preserves_try_catch; [ | intro ]
  | |- preserves _ (if ?b then _ else _) => destruct b
  | |- preserves _ (match ?x with _ => _ end) => destruct x
  | |- preserves _ _ =>
      apply keeps_state_preserves;
      solve [ repeat first [ apply _initTranslate_keeps_state
                           | apply translateAndSave_keeps_state
                           | keeps_step ] ]
  end.

Lemma bind_set_sessionDetails {A} (sd : SessionDetails) (k : unit -> M A)
    (s : PageSaving) :
  bind (set_sessionDetails sd) k s = k tt (with_session s sd).
Proof.
  unfold bind, set_sessionDetails, with_session.
  destruct (k tt _) as [[r s2] t2]. reflexivity.
Qed.

Lemma onPageLoad_detect_preserves (w : World) (P : SessionDetails -> Prop) :
  preserves (fun s => P (sessionDetails s)) (onPageLoad_detect w).
Proof.
  unfold onPageLoad_detect.
  repeat first [ apply preserves_set_translators | preserves_step ].
Qed.

Lemma session_invariant_set (s : PageSaving) (id url tID : string)
    (saveOptions : option Options) :
  session_invariant
    (with_session s {| sd_id := Some id; sd_url := Some url;
                       sd_translatorID := Some tID;
                       sd_saveOptions := saveOptions |}).
Proof. right. exists id, url, tID. repeat split. Qed.

Lemma _initSession_run (w : World) (tID : string) (saveOptions : Options)
    (s : PageSaving) :
  _initSession w tID saveOptions s
  = (Return (randomString w),
     with_session s (created_session w tID saveOptions), []).
Proof. reflexivity. Qed.

Lemma _initSession_invariant (w : World) (tID : string) (saveOptions : Options) :
  preserves session_invariant (_initSession w tID saveOptions).
Proof.
  intros s _. rewrite _initSession_run. apply session_invariant_set.
Qed.

Lemma _clearSession_invariant : preserves session_invariant _clearSession.
Proof. intros s _. left. reflexivity. Qed.

Lemma set_translators_invariant (ts : list Translator) :
  preserves session_invariant (set_translators ts).
Proof. intros s H. exact H. Qed.

Lemma saveAsWebpage_invariant (w : World) (args : SaveAsWebpageArgs) :
  preserves session_invariant (saveAsWebpage w args).
Proof.
  unfold saveAsWebpage, saveAsWebpage_try, saveAsWebpage_catch.
  repeat first
    [ match goal with
      | |- preserves _ (set_sessionDetails _) =>
          intros s0 _; apply session_invariant_set
      end
    | preserves_step ].
Qed.

Lemma onTranslate_invariant (w : World) (tID : string) (options : Options) :
  preserves session_invariant (onTranslate w tID options).
Proof.
  unfold onTranslate, onTranslate_save, onTranslate_failed.
  repeat first
    [ apply _initSession_invariant
    | apply _clearSession_invariant
    | apply saveAsWebpage_invariant
    | preserves_step ].
Qed.

Lemma onSaveAsWebpage_invariant (w : World) (title : option string)
    (options : Options) :
  preserves session_invariant (onSaveAsWebpage w title options).
Proof.
  unfold onSaveAsWebpage.
  repeat first
    [ apply _initSession_invariant
    | apply saveAsWebpage_invariant
    | preserves_step ].
Qed.

Lemma onPageLoad_invariant (w : World) (force : bool) :
  preserves session_invariant (onPageLoad w force).
Proof.
  unfold onPageLoad.
  destruct (String.eqb (location_href w) "about:blank").
  - intros s H. exact H.
  - apply preserves_bind.
    + intros s _. left. reflexivity.
    + intros _.
      repeat first
        [ apply (onPageLoad_detect_preserves w
                   (fun sd => sd = empty_session \/ holds_session sd))
        | apply set_translators_invariant
        | preserves_step ].
Qed.

(** ** The claims *)

(** C9. When the document location is [about:blank], [onPageLoad] returns
    at once: no detection runs (the trace is empty) and neither
    [sessionDetails] nor the cached translators change, so the session is not
    cleared. *)
Theorem onPageLoad_about_blank (w : World) (force : bool) (s : PageSaving) :
  location_href w = "about:blank" ->
  onPageLoad w force s = (Return RetUndefined, s, []).
Proof.
  intro Hblank. unfold onPageLoad. rewrite Hblank. reflexivity.
Qed.

Lemma onPageLoad_about_blank_witness :
  location_href
    (Examples.page "about:blank" true (Return [ Examples.scholar ])
       (Return ([], JUndefined)) (Return None)) = "about:blank"
  /\ onPageLoad
       (Examples.page "about:blank" true (Return [ Examples.scholar ])
          (Return ([], JUndefined)) (Return None))
       true Examples.saved_once
     = (Return RetUndefined, Examples.saved_once, []).
Proof.
  split; [ reflexivity | apply onPageLoad_about_blank; reflexivity ].
Defined.

(** C5. On a page that is not [about:blank], [onPageLoad] resets
    [sessionDetails] to the empty session first: the session is empty when
    it finishes, whatever [force] is and whatever detection answers or
    throws, and nothing in the run depends on the session that was
    stored. *)
Theorem onPageLoad_resets_session (w : World) (force : bool) (s : PageSaving) :
  location_href w <> "about:blank" ->
  sessionDetails (state_of (onPageLoad w force s)) = empty_session
  /\ onPageLoad w force s = onPageLoad w force (with_session s empty_session).
Proof.
  intro Hpage. apply String.eqb_neq in Hpage.
  unfold onPageLoad. rewrite Hpage.
  rewrite !bind_set_sessionDetails. split.
  - apply (@preserves_bind (Outcome Ret) Ret
             (fun s => sessionDetails s = empty_session)).
    + apply preserves_try_catch.
      * repeat first
          [ apply (onPageLoad_detect_preserves w (fun sd => sd = empty_session))
          | apply (preserves_set_translators (fun sd => sd = empty_session))
          | preserves_step ].
      * intro e. repeat preserves_step.
    + intro returned. repeat preserves_step.
    + reflexivity.
  - reflexivity.
Qed.

Lemma onPageLoad_resets_session_witness :
  location_href
    (Examples.page Examples.article_url true (Throw Examples.server_error)
       (Return ([], JUndefined)) (Return None)) <> "about:blank"
  /\ sessionDetails
       (state_of
          (onPageLoad
             (Examples.page Examples.article_url true
                (Throw Examples.server_error) (Return ([], JUndefined))
                (Return None))
             true Examples.saved_once)) = empty_session.
Proof.
  split.
  - discriminate.
  - apply onPageLoad_resets_session. discriminate.
Defined.

(** C8. [saveAsWebpage] with a falsy [sessionID] (absent or the empty
    string) throws before any message is sent or the connector client is
    contacted (the trace is empty), and the state is unchanged. *)
Theorem saveAsWebpage_without_sessionID (w : World) (args : SaveAsWebpageArgs)
    (s : PageSaving) :
  truthy_opt_string (arg_sessionID args) = false ->
  saveAsWebpage w args s
  = (Throw (Error "Trying to save as webpage without session ID"), s, []).
Proof.
  intro Hfalsy. unfold saveAsWebpage.
  destruct (arg_sessionID args) as [sessionID | ]; simpl in Hfalsy.
  - rewrite Hfalsy. reflexivity.
  - reflexivity.
Qed.

Lemma saveAsWebpage_without_sessionID_witness :
  truthy_opt_string
    (arg_sessionID {| arg_sessionID := Some ""; arg_title := None;
                      arg_snapshot := None |}) = false
  /\ saveAsWebpage
       (Examples.page Examples.article_url true (Return [])
          (Return ([], JUndefined)) (Return None))
       {| arg_sessionID := Some ""; arg_title := None; arg_snapshot := None |}
       Examples.saved_once
     = (Throw (Error "Trying to save as webpage without session ID"),
        Examples.saved_once, []).
Proof.
  split; [ reflexivity | apply saveAsWebpage_without_sessionID; reflexivity ].
Defined.

(** C7. At most one session per page: [sessionDetails] is empty or holds one
    session.  The initial object satisfies this, every operation of
    [PageSaving] preserves it, and [_initSession] puts the created session in
    place of whatever was stored. *)
Theorem one_session_per_page (w : World) (s : PageSaving) :
  session_invariant s ->
  session_invariant PageSaving_initial
  /\ (forall force, session_invariant (state_of (onPageLoad w force s)))
  /\ (forall tID options,
        session_invariant (state_of (onTranslate w tID options s)))
  /\ (forall title options,
        session_invariant (state_of (onSaveAsWebpage w title options s)))
  /\ (forall args, session_invariant (state_of (saveAsWebpage w args s)))
  /\ (forall tID saveOptions,
        session_invariant (state_of (_initSession w tID saveOptions s))
        /\ sessionDetails (state_of (_initSession w tID saveOptions s))
           = created_session w tID saveOptions)
  /\ session_invariant (state_of (_clearSession s)).
Proof.
  intro Hinv. repeat split.
  - left. reflexivity.
  - intro force. apply onPageLoad_invariant, Hinv.
  - intros tID options. apply onTranslate_invariant, Hinv.
  - intros title options. apply onSaveAsWebpage_invariant, Hinv.
  - intro args. apply saveAsWebpage_invariant, Hinv.
  - apply _initSession_invariant, Hinv.
  - apply _clearSession_invariant, Hinv.
Qed.

(** C3. The translator list is cached until a forced refresh.  On a page that
    is not [about:blank]: with a non-empty list and a falsy [force],
    [onPageLoad] returns without running detection (the trace is empty) and
    the list is unchanged; with a truthy [force] the run does not depend on the
    cached list, it starts by creating the translate object for a new
    detection, and the list then holds the translators that detection
    returned (it is left empty when detection throws). *)
Theorem onPageLoad_translator_cache (w : World) (s : PageSaving) :
  location_href w <> "about:blank" ->
  (translators s <> [] ->
   onPageLoad w false s
   = (Return RetUndefined, with_session s empty_session, []))
  /\ (forall cached,
        onPageLoad w true
          {| sessionDetails := sessionDetails s; translators := cached |}
        = onPageLoad w true
            {| sessionDetails := sessionDetails s; translators := [] |})
  /\ (forall detected,
        (isManifestV3 w = true -> offscreen_create w = None) ->
        detect w = Return detected ->
        translators (state_of (onPageLoad w true s)) = detected
        /\ In TranslateWeb_detect (trace_of (onPageLoad w true s)))
  /\ (forall e,
        detect w = Throw e
        \/ (isManifestV3 w = true /\ offscreen_create w = Some e) ->
        translators (state_of (onPageLoad w true s)) = [])
  /\ (exists rest,
        trace_of (onPageLoad w true s)
        = (if isManifestV3 w then VirtualOffscreenTranslate_create
           else new_Translate_Web) :: rest).
Proof.
  intro Hpage. apply String.eqb_neq in Hpage.
  split; [ | split; [ | split; [ | split ] ] ].
  - intro Hcached. unfold onPageLoad. rewrite Hpage.
    rewrite bind_set_sessionDetails.
    destruct s as [sd [ | t ts ]]; [ contradiction | reflexivity ].
  - intro cached. unfold onPageLoad. rewrite Hpage.
    rewrite !bind_set_sessionDetails.
    destruct cached as [ | t ts ]; [ reflexivity | ].
    unfold try_catch, bind, get, with_session, set_translators. simpl.
    destruct (onPageLoad_detect w _) as [[[r | e] s1] t1]; reflexivity.
  - intros detected Hinit Hdetect.
    unfold onPageLoad. rewrite Hpage. rewrite bind_set_sessionDetails.
    unfold onPageLoad_detect, _initTranslate, try_catch, bind, await, emit,
      ret, throw, get, set_translators, with_session, state_of, trace_of.
    rewrite Hdetect.
    destruct (isManifestV3 w); [ rewrite (Hinit eq_refl) | ];
      destruct s as [sd [ | t ts ]]; simpl;
      destruct detected as [ | d ds ]; simpl;
      destruct (isSafari w), (isTopWindow w),
        (String.eqb (document_contentType w) "application/pdf");
      simpl; split; auto 10.
  - intros e Hfails.
    unfold onPageLoad. rewrite Hpage. rewrite bind_set_sessionDetails.
    unfold onPageLoad_detect, _initTranslate, try_catch, bind, await, emit,
      ret, throw, get, set_translators, with_session, state_of, trace_of.
    destruct Hfails as [Hdetect | [Hv3 Hcreate]].
    + rewrite Hdetect.
      destruct (isManifestV3 w); [ destruct (offscreen_create w) | ];
        destruct s as [sd [ | t ts ]]; reflexivity.
    + rewrite Hv3, Hcreate.
      destruct s as [sd [ | t ts ]]; reflexivity.
  - unfold onPageLoad. rewrite Hpage. rewrite bind_set_sessionDetails.
    unfold onPageLoad_detect, _initTranslate, try_catch, bind, await, emit,
      ret, throw, get, set_translators, with_session, state_of, trace_of.
    destruct (isManifestV3 w); [ destruct (offscreen_create w) | ];
      destruct s as [sd [ | t ts ]]; simpl;
      try (destruct (detect w) as [[ | d ds ] | e]; simpl;
           try (destruct (isSafari w), (isTopWindow w),
                  (String.eqb (document_contentType w) "application/pdf");
                simpl));
      eexists; reflexivity.
Qed.

Lemma one_session_per_page_witness :
  session_invariant Examples.saved_once
  /\ session_invariant
       (state_of
          (onTranslate
             (Examples.page Examples.article_url true (Return [])
                (Throw (Examples.http_error "429")) (Return None))
             (translatorID Examples.embedded) no_options Examples.saved_once)).
Proof.
  assert (Hinv : session_invariant Examples.saved_once).
  { right. exists "abcd1234", Examples.article_url,
      (translatorID Examples.scholar). repeat split. }
  split; [ exact Hinv | ].
  apply (one_session_per_page
           (Examples.page Examples.article_url true (Return [])
              (Throw (Examples.http_error "429")) (Return None))
           Examples.saved_once Hinv).
Defined.

Lemma onPageLoad_translator_cache_witness :
  location_href
    (Examples.page Examples.article_url true (Return [ Examples.embedded ])
       (Return ([], JUndefined)) (Return None)) <> "about:blank"
  /\ translators Examples.saved_once <> []
  /\ onPageLoad
       (Examples.page Examples.article_url true (Return [ Examples.embedded ])
          (Return ([], JUndefined)) (Return None))
       false Examples.saved_once
     = (Return RetUndefined,
        with_session Examples.saved_once empty_session, [])
  /\ translators
       (state_of
          (onPageLoad
             (Examples.page Examples.article_url true
                (Return [ Examples.embedded ]) (Return ([], JUndefined))
                (Return None))
             true Examples.saved_once)) = [ Examples.embedded ].
Proof.
  assert (Hpage :
    location_href
      (Examples.page Examples.article_url true (Return [ Examples.embedded ])
         (Return ([], JUndefined)) (Return None)) <> "about:blank")
    by discriminate.
  destruct (onPageLoad_translator_cache _ Examples.saved_once Hpage)
    as (Hcached & _ & Hforced & _ & _).
  split; [ exact Hpage | ].
  split; [ discriminate | ].
  split.
  - apply Hcached. discriminate.
  - apply (Hforced [ Examples.embedded ]).
    + discriminate.
    + reflexivity.
Defined.

(** *** What [_shouldReopenProgressWindow] decides *)

Lemma truthy_opt_string_iff (o : option string) :
  truthy_opt_string o = true <-> exists x, o = Some x /\ x <> "".
Proof.
  destruct o as [x | ]; simpl; unfold truthy_string.
  - rewrite negb_true_iff, String.eqb_neq. split.
    + intro H. exists x. split; [ reflexivity | exact H ].
    + intros (y & Hy & Hne). injection Hy as ->. exact Hne.
  - split; [ discriminate | ]. intros (y & Hy & _). discriminate.
Qed.

Lemma loose_eq_iff (a : string) (b : option string) :
  loose_eq a b = true <-> b = Some a.
Proof.
  destruct b as [x | ]; simpl.
  - rewrite String.eqb_eq. split; [ intros ->; reflexivity | ].
    intro H. injection H as ->. reflexivity.
  - split; discriminate.
Qed.

Lemma opt_string_neq_iff (o : option string) (x : string) :
  negb (opt_string_eqb o x) = true <-> o <> Some x.
Proof.
  rewrite negb_true_iff. destruct o as [y | ]; simpl.
  - rewrite String.eqb_neq. split.
    + intros Hne H. injection H as ->. apply Hne. reflexivity.
    + intros Hne ->. apply Hne. reflexivity.
  - split; [ discriminate | reflexivity ].
Qed.

Lemma _shouldReopenProgressWindow_iff (w : World) (s : PageSaving)
    (tID : string) (options : Options) (itemType : option string) :
  _shouldReopenProgressWindow w s tID options itemType = true
  <-> reopen_conditions w s tID options itemType.
Proof.
  unfold _shouldReopenProgressWindow, reopen_conditions.
  rewrite !andb_true_iff, truthy_opt_string_iff, !loose_eq_iff,
    opt_string_neq_iff, !negb_true_iff.
  tauto.
Qed.

(** *** The two entry points, once [checkActionToServer] lets them pass *)

Lemma onTranslate_run (w : World) (tID : string) (options : Options)
    (s : PageSaving) (translator : Translator) :
  checkActionToServer w = true ->
  index (translators s)
    (findIndex (fun t => String.eqb (translatorID t) tID) (translators s))
  = Some translator ->
  onTranslate w tID options s
  = if _shouldReopenProgressWindow w s tID options (Some (itemType translator))
    then reopened s
    else
      after_event Inject_checkActionToServer
        (onTranslate_save w options
           (findIndex (fun t => String.eqb (translatorID t) tID) (translators s))
           translator (randomString w)
           (with_session s (created_session w tID options))).
Proof.
  intros Hcheck Hfound.
  unfold onTranslate, bind at 1, await. rewrite Hcheck. simpl.
  unfold bind at 1, get. simpl. rewrite Hfound.
  destruct (_shouldReopenProgressWindow w s tID options _).
  - reflexivity.
  - unfold bind at 1. rewrite _initSession_run. simpl.
    unfold after_event, outcome_of, state_of, trace_of.
    destruct (onTranslate_save _ _ _ _ _ _) as [[r s2] t2]. reflexivity.
Qed.

Lemma onSaveAsWebpage_run (w : World) (title : option string)
    (options : Options) (s : PageSaving) :
  checkActionToServer w = true ->
  onSaveAsWebpage w title options s
  = let tID := webpage_translatorID (truthy_opt_bool (snapshot options)) in
    if _shouldReopenProgressWindow w s tID options None
    then reopened s
    else
      after_event Inject_checkActionToServer
        (saveAsWebpage w
           {| arg_sessionID := Some (randomString w);
              arg_title :=
                Some (match title with
                      | Some t => t
                      | None => document_title w
                      end);
              arg_snapshot := snapshot options |}
           (with_session s (created_session w tID options))).
Proof.
  intro Hcheck.
  unfold onSaveAsWebpage, bind at 1, await. rewrite Hcheck. simpl.
  unfold bind at 1, get. simpl.
  destruct (_shouldReopenProgressWindow w s _ options None).
  - reflexivity.
  - unfold bind at 1. rewrite _initSession_run. simpl.
    unfold after_event, outcome_of, state_of, trace_of.
    destruct (saveAsWebpage _ _ _) as [[r s2] t2]. reflexivity.
Qed.

(** The save of [onTranslate] first schedules the progress window of the new
    session. *)
Lemma onTranslate_save_first_event (w : World) (options : Options)
    (translatorIndex : option nat) (translator : Translator)
    (sessionID : string) (s : PageSaving) :
  exists delay rest,
    trace_of (onTranslate_save w options translatorIndex translator sessionID s)
    = setTimeout_sendMessage delay "progressWindow.show"
        (JArr [ JStr sessionID; JNull; JBool false ]) :: rest.
Proof.
  unfold onTranslate_save, bind at 1, emit.
  destruct (try_catch _ _ s) as [[r s2] t2]. simpl.
  eexists. eexists. reflexivity.
Qed.

(** A run of [saveAsWebpage] is never the bare reopening of the progress
    window: it throws at once, asks for the incognito state, or sends at least
    two messages. *)
Lemma saveAsWebpage_is_not_reopen (w : World) (args : SaveAsWebpageArgs)
    (s s' : PageSaving) (payload : JSVal) :
  saveAsWebpage w args s
  <> (Return RetUndefined, s', [ sendMessage "progressWindow.show" payload ]).
Proof.
  unfold saveAsWebpage.
  destruct (arg_sessionID args) as [sessionID | ]; [ | discriminate ].
  destruct (negb (truthy_string sessionID)); [ discriminate | ].
  unfold bind at 1.
  destruct (isChromium w).
  - unfold await. destruct (bind _ _ s) as [[r s2] t2]. discriminate.
  - unfold ret. unfold bind at 1, emit. unfold bind at 1.
    destruct (try_catch _ _ s) as [[r s2] t2]. discriminate.
Qed.

(** C1, as amended.  In every call of [onTranslate] that passes the
    [checkActionToServer] check and whose translator is in the list, and in
    every call of [onSaveAsWebpage] that passes the check, the progress window
    is reopened ([progressWindow.show] with the stored session id, state
    unchanged) if and only if a session exists, the document URL is the
    session's, the translator ID is the session's, the translator's item type
    is not 'multiple' and the options carry neither a note nor resave; in all
    other such calls a new session is created and the save runs under it.
    A call that does not pass the check returns at once: nothing is reopened,
    created or saved. *)
Theorem reopen_or_save_again (w : World) (s : PageSaving) :
  (checkActionToServer w = false ->
   (forall tID options,
      onTranslate w tID options s
      = (Return RetUndefined, s, [ Inject_checkActionToServer ]))
   /\ (forall title options,
         onSaveAsWebpage w title options s
         = (Return RetUndefined, s, [ Inject_checkActionToServer ])))
  /\ (checkActionToServer w = true ->
  (forall tID options translator,
     index (translators s)
       (findIndex (fun t => String.eqb (translatorID t) tID) (translators s))
     = Some translator ->
     (reopen_conditions w s tID options (Some (itemType translator))
      <-> onTranslate w tID options s = reopened s)
     /\ (~ reopen_conditions w s tID options (Some (itemType translator)) ->
         onTranslate w tID options s
         = after_event Inject_checkActionToServer
             (onTranslate_save w options
                (findIndex (fun t => String.eqb (translatorID t) tID)
                   (translators s))
                translator (randomString w)
                (with_session s (created_session w tID options)))))
  /\ (forall title options,
        (reopen_conditions w s
           (webpage_translatorID (truthy_opt_bool (snapshot options)))
           options None
         <-> onSaveAsWebpage w title options s = reopened s)
        /\ (~ reopen_conditions w s
                (webpage_translatorID (truthy_opt_bool (snapshot options)))
                options None ->
            onSaveAsWebpage w title options s
            = after_event Inject_checkActionToServer
                (saveAsWebpage w
                   {| arg_sessionID := Some (randomString w);
                      arg_title :=
                        Some (match title with
                              | Some t => t
                              | None => document_title w
                              end);
                      arg_snapshot := snapshot options |}
                   (with_session s
                      (created_session w
                         (webpage_translatorID
                            (truthy_opt_bool (snapshot options)))
                         options)))))).
Proof.
  split.
  { intro Hclosed. split.
    - intros tID options. unfold onTranslate, bind, await.
      rewrite Hclosed. reflexivity.
    - intros title options. unfold onSaveAsWebpage, bind, await.
      rewrite Hclosed. reflexivity. }
  intro Hcheck. split.
  - intros tID options translator Hfound.
    rewrite (onTranslate_run w tID options s translator Hcheck Hfound).
    rewrite <- _shouldReopenProgressWindow_iff.
    destruct (_shouldReopenProgressWindow w s tID options _).
    + split; [ split; reflexivity | intro H; exfalso; apply H; reflexivity ].
    + split; [ split; [ discriminate | ] | reflexivity ].
      intro Hrun. exfalso.
      destruct (onTranslate_save_first_event w options
                  (findIndex (fun t => String.eqb (translatorID t) tID)
                     (translators s))
                  translator (randomString w)
                  (with_session s (created_session w tID options)))
        as (delay & rest & Htrace).
      unfold after_event, reopened in Hrun. rewrite Htrace in Hrun.
      discriminate.
  - intros title options.
    rewrite (onSaveAsWebpage_run w title options s Hcheck). cbv zeta.
    rewrite <- _shouldReopenProgressWindow_iff.
    destruct (_shouldReopenProgressWindow w s _ options None).
    + split; [ split; reflexivity | intro H; exfalso; apply H; reflexivity ].
    + split; [ split; [ discriminate | ] | reflexivity ].
      intro Hrun. exfalso.
      unfold after_event, reopened in Hrun.
      injection Hrun as Hout Hstate Htrace.
      eapply saveAsWebpage_is_not_reopen.
      rewrite (surjective_pairing (saveAsWebpage _ _ _)).
      rewrite (surjective_pairing (fst (saveAsWebpage _ _ _))).
      unfold outcome_of, state_of, trace_of in *.
      rewrite Hout, Htrace. reflexivity.
Qed.

Lemma reopen_or_save_again_witness :
  checkActionToServer
    (Examples.page Examples.article_url true (Return [])
       (Return ([], JUndefined)) (Return None)) = true
  /\ onTranslate
       (Examples.page Examples.article_url true (Return [])
          (Return ([], JUndefined)) (Return None))
       (translatorID Examples.scholar) no_options Examples.saved_once
     = reopened Examples.saved_once.
Proof.
  split; [ reflexivity | ].
  destruct (reopen_or_save_again
              (Examples.page Examples.article_url true (Return [])
                 (Return ([], JUndefined)) (Return None))
              Examples.saved_once) as [_ Hopen].
  destruct (Hopen eq_refl) as [Htranslate _].
  destruct (Htranslate (translatorID Examples.scholar) no_options
              Examples.scholar eq_refl) as [Hreopen _].
  apply Hreopen. repeat split.
  - exists "abcd1234". split; [ reflexivity | discriminate ].
  - discriminate.
Defined.

(** C1, as stated, fails at the [checkActionToServer] check: with a falsy
    answer the conditions for reopening hold and yet nothing is reopened, and
    with [resave] set the conditions fail and yet no session is created and
    nothing is saved. *)
Lemma reopen_blocked_by_checkActionToServer :
  reopen_conditions
    (Examples.page Examples.article_url false (Return [])
       (Return ([], JUndefined)) (Return None))
    Examples.saved_once (translatorID Examples.scholar) no_options
    (Some (itemType Examples.scholar))
  /\ onTranslate
       (Examples.page Examples.article_url false (Return [])
          (Return ([], JUndefined)) (Return None))
       (translatorID Examples.scholar) no_options Examples.saved_once
     = (Return RetUndefined, Examples.saved_once, [ Inject_checkActionToServer ])
  /\ onTranslate
       (Examples.page Examples.article_url false (Return [])
          (Return ([], JUndefined)) (Return None))
       (translatorID Examples.scholar) no_options Examples.saved_once
     <> reopened Examples.saved_once
  /\ ~ reopen_conditions
         (Examples.page Examples.article_url false (Return [])
            (Return ([], JUndefined)) (Return None))
         Examples.saved_once (translatorID Examples.scholar)
         {| note := None; resave := true; fallbackOnFailure := false;
            snapshot := None |}
         (Some (itemType Examples.scholar))
  /\ onTranslate
       (Examples.page Examples.article_url false (Return [])
          (Return ([], JUndefined)) (Return None))
       (translatorID Examples.scholar)
       {| note := None; resave := true; fallbackOnFailure := false;
          snapshot := None |}
       Examples.saved_once
     = (Return RetUndefined, Examples.saved_once, [ Inject_checkActionToServer ]).
Proof.
  split; [ | split; [ | split; [ | split ] ] ].
  - repeat split.
    + exists "abcd1234". split; [ reflexivity | discriminate ].
    + discriminate.
  - reflexivity.
  - discriminate.
  - intros (_ & _ & _ & _ & _ & Hresave). discriminate.
  - reflexivity.
Qed.

(** *** The save of [onTranslate] in terms of [translateAndSave] *)

Lemma onTranslate_failed_run (translator : Translator)
    (errorMessage : string) (s : PageSaving) :
  onTranslate_failed translator errorMessage s
  = (Return RetUndefined, with_session s empty_session,
     [ Promise_delay 500;
       sendMessage "progressWindow.done"
         (if (has SITE_ACCESS_LIMIT_TRANSLATORS (translatorID translator)
              && String.eqb (statusCode_of errorMessage) "403")
             || String.eqb (statusCode_of errorMessage) "429"
          then JArr [ JBool false; JStr "siteAccessLimits";
                      JStr (label translator) ]
          else JArr [ JBool false ]) ]).
Proof.
  unfold onTranslate_failed.
  destruct ((has SITE_ACCESS_LIMIT_TRANSLATORS (translatorID translator)
             && String.eqb (statusCode_of errorMessage) "403")
            || String.eqb (statusCode_of errorMessage) "429");
    reflexivity.
Qed.

Lemma onTranslate_save_run (w : World) (options : Options)
    (translatorIndex : option nat) (translator : Translator)
    (sessionID : string) (s : PageSaving) :
  onTranslate_save w options translatorIndex translator sessionID s
  = let show :=
      setTimeout_sendMessage
        (if String.eqb (itemType translator) "multiple" then 100%Z else 0%Z)
        "progressWindow.show" (JArr [ JStr sessionID; JNull; JBool false ]) in
    let run :=
      translateAndSave w sessionID
        (selected_translators (translators s) translatorIndex options) s in
    match outcome_of run with
    | Return items =>
        (Return (RetExternal items), s,
         show :: trace_of run
              ++ [ sendMessage "progressWindow.done" (JArr [ JBool true ]) ])%list
    | Throw e =>
        let caught := onTranslate_catch_run w options translator sessionID e s in
        (outcome_of caught, state_of caught,
         show :: trace_of run ++ logError e :: trace_of caught)%list
    end.
Proof.
  cbv zeta. unfold onTranslate_save.
  unfold bind at 1, emit.
  unfold try_catch. unfold bind at 1, get. unfold bind at 1.
  pose proof (translateAndSave_keeps_state w sessionID
                (selected_translators (translators s) translatorIndex options) s)
    as Hkeeps.
  unfold outcome_of, state_of, trace_of in *.
  destruct (translateAndSave w sessionID _ s) as [[[items | e] s1] tr];
    simpl in Hkeeps; subst s1; simpl.
  - rewrite ?app_nil_r. reflexivity.
  - unfold onTranslate_catch_run.
    unfold bind at 1, emit.
    destruct (negb (String.eqb (itemType translator) "multiple")
              && fallbackOnFailure options).
    + unfold bind at 1, get.
      destruct (at_last (translators s)) as [last | ].
      * unfold bind at 1, emit, after_event, outcome_of, state_of, trace_of.
        destruct (saveAsWebpage w _ s) as [[r s2] t2]. simpl.
        rewrite ?app_nil_r. reflexivity.
      * simpl. rewrite ?app_nil_r. reflexivity.
    + destruct (onTranslate_failed translator (e_toString e) s)
        as [[r s2] t2].
      simpl. rewrite ?app_nil_r. reflexivity.
Qed.

(** *** Facts about the selected translator *)

Lemma index_found {A} (l : list A) (i : option nat) (x : A) :
  index l i = Some x -> exists n, i = Some n /\ nth_error l n = Some x.
Proof.
  destruct i as [n | ]; simpl; [ | discriminate ].
  intro H. exists n. split; [ reflexivity | exact H ].
Qed.


Lemma at_last_nonempty {A} (l : list A) (n : nat) (x : A) :
  nth_error l n = Some x -> exists last, at_last l = Some last.
Proof.
  intro H. unfold at_last.
  destruct (nth_error l (length l - 1)) as [last | ] eqn:Hlast.
  - exists last. reflexivity.
  - apply nth_error_None in Hlast.
    assert (n < length l)%nat by (apply nth_error_Some; congruence).
    lia.
Qed.


Lemma has_iff (set : list string) (x : string) :
  has set x = true <-> In x set.
Proof.
  unfold has. rewrite existsb_exists. split.
  - intros (y & Hin & Heq). apply String.eqb_eq in Heq. subst y. exact Hin.
  - intro Hin. exists x. split; [ exact Hin | apply String.eqb_refl ].
Qed.

(** *** What a run sends *)

Section EmitLemmas.

Context {A B : Type} (P : Event -> Prop).

Lemma emits_only_ret (a : A) : emits_only P (ret a).
Proof. intros s ev []. Qed.

Lemma emits_only_throw (e : JSError) : emits_only P (@throw A e).
Proof. intros s ev []. Qed.

Lemma emits_only_lift (o : Outcome A) : emits_only P (lift o).
Proof. intros s ev []. Qed.

Lemma emits_only_await (ev : Event) (o : Outcome A) :
  P ev -> emits_only P (await ev o).
Proof. intros HP s ev' [<- | []]. exact HP. Qed.

Lemma emits_only_bind (m : M A) (k : A -> M B) :
  emits_only P m -> (forall a, emits_only P (k a)) -> emits_only P (bind m k).
Proof.
  intros Hm Hk s ev. unfold bind, trace_of.
  specialize (Hm s ev). unfold trace_of in Hm.
  destruct (m s) as [[[a | e] s1] t1]; simpl in *.
  - specialize (Hk a s1 ev). unfold trace_of in Hk.
    destruct (k a s1) as [[r s2] t2]; simpl in *.
    intro Hin. apply in_app_or in Hin. tauto.
  - exact Hm.
Qed.

Lemma emits_only_try_catch (m : M A) (h : JSError -> M A) :
  emits_only P m -> (forall e, emits_only P (h e)) ->
  emits_only P (try_catch m h).
Proof.
  intros Hm Hh s ev. unfold try_catch, trace_of.
  specialize (Hm s ev). unfold trace_of in Hm.
  destruct (m s) as [[[a | e] s1] t1]; simpl in *.
  - exact Hm.
  - specialize (Hh e s1 ev). unfold trace_of in Hh.
    destruct (h e s1) as [[r s2] t2]; simpl in *.
    intro Hin. apply in_app_or in Hin. tauto.
Qed.

End EmitLemmas.

Lemma emits_only_get (P : Event -> Prop) : emits_only P get.
Proof. intros s ev []. Qed.

Lemma emits_only_emit (P : Event -> Prop) (ev : Event) :
  P ev -> emits_only P (emit ev).
Proof. intros HP s ev' [<- | []]. exact HP. Qed.

Lemma emits_only_emit_all (P : Event -> Prop) (evs : list Event) :
  (forall ev, In ev evs -> P ev) -> emits_only P (emit_all evs).
Proof. intros HP s ev Hin. apply HP. exact Hin. Qed.

(** Closes [translateAndSave_event ev] for an event that is written out. *)
Ltac engine_event :=
  simpl; first [ exact I | discriminate ].

(** Closes [In ev l -> translateAndSave_event ev] for a list [l] that is
    written out. *)
Ltac engine_events :=
  let Hin := fresh "Hin" in
  let Heq := fresh "Heq" in
  intros Hin; simpl in Hin;
  repeat (destruct Hin as [Heq | Hin]; [ subst; engine_event | ]);
  destruct Hin.

Lemma onSelect_sends (w : World) (this : PageSaving) (c : Counters)
    (items : JSVal) (selectedCollection : Outcome (option bool))
    (returnItems : option (list (string * string))) (ev : Event) :
  In ev (fst (onSelect w this c items selectedCollection returnItems)) ->
  translateAndSave_event ev.
Proof.
  unfold onSelect.
  destruct selectedCollection as [[[ | ] | ] | e];
    destruct returnItems as [[ | chosen rest ] | ];
    destruct (isBrowserExt w);
    try (destruct (e_status e) as [[ | p | p ] | ]);
    engine_events.
Qed.

Lemma onItemsSaved_sends (w : World) (sessionID : string) (total : nat)
    (items : list Item) (ev : Event) :
  In ev (onItemsSaved w sessionID total items) -> translateAndSave_event ev.
Proof.
  induction items as [ | item rest IH ]; simpl; [ intros [] | ].
  intros [<- | Hin]; [ engine_event | ].
  destruct (item_notes item) as [ | notes | n ].
  - apply IH. exact Hin.
  - apply in_app_or in Hin. destruct Hin as [Hin | Hin].
    + apply in_map_iff in Hin. destruct Hin as (n & <- & _). engine_event.
    + apply IH. exact Hin.
  - destruct Hin.
Qed.

Lemma run_translate_callbacks_sends (w : World) (this : PageSaving)
    (sessionID : string) (cbs : list TranslateCallback) (c : Counters)
    (ev : Event) :
  In ev (fst (run_translate_callbacks w this sessionID c cbs)) ->
  translateAndSave_event ev.
Proof.
  revert c. induction cbs as [ | cb rest IH ]; intro c; simpl; [ intros [] | ].
  destruct cb as [items selectedCollection returnItems | item | oldT newT].
  - pose proof (onSelect_sends w this c items selectedCollection returnItems ev)
      as Hhere.
    destruct (onSelect w this c items selectedCollection returnItems)
      as [evs c1].
    specialize (IH c1).
    destruct (run_translate_callbacks w this sessionID c1 rest) as [evs' c2].
    simpl in *. intro Hin. apply in_app_or in Hin. tauto.
  - specialize (IH {| itemsTotal := itemsTotal c;
                      itemsSaved := (itemsSaved c + 1)%Z |}).
    simpl.
    destruct (run_translate_callbacks w this sessionID _ rest) as [evs' c2].
    simpl in *. intros [<- | Hin]; [ engine_event | apply IH; exact Hin ].
  - specialize (IH c).
    destruct (run_translate_callbacks w this sessionID c rest) as [evs' c2].
    simpl in *. intros [<- | Hin]; [ engine_event | apply IH; exact Hin ].
Qed.

Lemma run_saver_callbacks_sends (w : World) (sessionID : string)
    (items : list Item) (cbs : list SaverCallback) (ev : Event) :
  In ev (run_saver_callbacks w sessionID items cbs) ->
  translateAndSave_event ev.
Proof.
  unfold run_saver_callbacks. rewrite in_flat_map.
  intros ([attachment progress | ] & _ & Hin).
  - revert Hin. unfold onAttachmentProgress. engine_events.
  - apply (onItemsSaved_sends w sessionID (length items) items). exact Hin.
Qed.

(** One step of a proof about the events of a method body. *)
Ltac emits_step :=
  match goal with
  | |- emits_only _ (bind _ _) => apply emits_only_bind; [ | intro ]
  | |- emits_only _ (try_catch _ _) => apply emits_only_try_catch; [ | intro ]
  | |- emits_only _ (ret _) => apply emits_only_ret
  | |- emits_only _ (throw _) => apply emits_only_throw
  | |- emits_only _ (lift _) => apply emits_only_lift
  | |- emits_only _ get => apply emits_only_get
  | |- emits_only _ (await _ _) => apply emits_only_await; engine_event
  | |- emits_only _ (emit _) => apply emits_only_emit; engine_event
  | |- emits_only _ (if ?b then _ else _) => destruct b
  | |- emits_only _ (match ?x with _ => _ end) => destruct x
  end.

(** [translateAndSave] never asks the client to save the page as a webpage
    and never reports the save as done. *)
Lemma translateAndSave_sends (w : World) (sessionID : string)
    (ts : list Translator) :
  emits_only translateAndSave_event (translateAndSave w sessionID ts).
Proof.
  unfold translateAndSave, _initTranslate.
  repeat first
    [ emits_step
    | apply emits_only_emit_all; intro ev;
      first [ apply run_translate_callbacks_sends
            | apply run_saver_callbacks_sends ] ].
Qed.




(** *** The status code of an error message *)

Lemma match_status_code_unfold (errorMessage : string) :
  match_status_code errorMessage
  = match status_code_here errorMessage with
    | Some code => Some code
    | None =>
        match errorMessage with
        | EmptyString => None
        | String _ rest => match_status_code rest
        end
    end.
Proof. destruct errorMessage; reflexivity. Qed.

Lemma strip_prefix_app (prefix s rest : string) :
  strip_prefix prefix s = Some rest -> s = prefix ++ rest.
Proof.
  revert s. induction prefix as [ | p prefix IH ]; intros s H; simpl in *.
  - injection H as ->. reflexivity.
  - destruct s as [ | c s ]; [ discriminate | ].
    destruct (Ascii.eqb p c) eqn:Hpc; [ | discriminate ].
    apply Ascii.eqb_eq in Hpc. subst c.
    rewrite (IH s H). reflexivity.
Qed.

Lemma three_digits_app (s code : string) :
  three_digits s = Some code -> exists after, s = code ++ after.
Proof.
  unfold three_digits.
  destruct s as [ | a [ | b [ | c rest ] ] ]; try discriminate.
  destruct (is_digit a && is_digit b && is_digit c); [ | discriminate ].
  intro H. injection H as <-. exists rest. reflexivity.
Qed.

(** The code that the pattern captures stands in the message, after the words
    "status code ". *)
Lemma match_status_code_contained (errorMessage code : string) :
  match_status_code errorMessage = Some code ->
  contains_status_code errorMessage code.
Proof.
  induction errorMessage as [ | c rest IH ];
    rewrite match_status_code_unfold;
    unfold status_code_here.
  - simpl. discriminate.
  - destruct (strip_prefix "status code " (String c rest)) as [tail | ] eqn:Hpre.
    + destruct (three_digits tail) as [found | ] eqn:Hdigits.
      * intro H. injection H as ->.
        apply strip_prefix_app in Hpre.
        destruct (three_digits_app _ _ Hdigits) as (after & ->).
        exists "", after. exact Hpre.
      * intro H. destruct (IH H) as (before & after & ->).
        exists (String c before), after. reflexivity.
    + intro H. destruct (IH H) as (before & after & ->).
      exists (String c before), after. reflexivity.
Qed.

Lemma statusCode_of_contained (errorMessage code : string) :
  statusCode_of errorMessage = code -> code <> "" ->
  contains_status_code errorMessage code.
Proof.
  unfold statusCode_of.
  destruct (match_status_code errorMessage) as [found | ] eqn:Hmatch.
  - intros <- _. apply match_status_code_contained. exact Hmatch.
  - intros <- Hne. contradiction Hne. reflexivity.
Qed.

Example statusCode_of_scholar_error :
  statusCode_of
    "Error: HTTP GET https://scholar.google.com/scholar failed with status code 429"
  = "429".
Proof. reflexivity. Qed.

Example statusCode_of_leftmost :
  statusCode_of "Error: status code 500 (retry gave status code 429)" = "500".
Proof. reflexivity. Qed.

Example statusCode_of_absent :
  statusCode_of "Error: Translation failed" = "".
Proof. reflexivity. Qed.

Lemma site_access_limited_iff (translator : Translator) (e : JSError) :
  (has SITE_ACCESS_LIMIT_TRANSLATORS (translatorID translator)
   && String.eqb (statusCode_of (e_toString e)) "403")
  || String.eqb (statusCode_of (e_toString e)) "429" = true
  <-> site_access_limited translator e.
Proof.
  unfold site_access_limited.
  rewrite orb_true_iff, andb_true_iff, has_iff, !String.eqb_eq. tauto.
Qed.

(** C10, as amended.  When [translateAndSave] throws inside [onTranslate]
    and no webpage fallback is taken (the item type is 'multiple' or
    [fallbackOnFailure] is not set), the session is cleared and the run ends
    with one [progressWindow.done] message.  That message reports
    'siteAccessLimits' (with the translator's label) if and only if the
    translator is in [SITE_ACCESS_LIMIT_TRANSLATORS] and the status code of
    the error message is 403, or the status code of the error message is 429;
    otherwise it is the plain failure [[false]].  The status code of a message
    is the three digits after the leftmost "status code " that three digits
    follow, as the pattern [status code ([0-9]{3})] captures them. *)
Theorem site_access_limits_report (w : World) (s : PageSaving) (tID : string)
    (options : Options) (translator : Translator) (e : JSError) :
  checkActionToServer w = true ->
  index (translators s)
    (findIndex (fun t => String.eqb (translatorID t) tID) (translators s))
  = Some translator ->
  _shouldReopenProgressWindow w s tID options (Some (itemType translator))
  = false ->
  itemType translator = "multiple" \/ fallbackOnFailure options = false ->
  outcome_of
    (translateAndSave w (randomString w)
       (selected_translators (translators s)
          (findIndex (fun t => String.eqb (translatorID t) tID) (translators s))
          options)
       (with_session s (created_session w tID options)))
  = Throw e ->
  exists before done_message,
    onTranslate w tID options s
    = (Return RetUndefined, with_session s empty_session,
       (before ++ [ sendMessage "progressWindow.done" done_message ])%list)
    /\ (forall payload,
          ~ In (sendMessage "progressWindow.done" payload) before)
    /\ (site_access_limited translator e
        <-> done_message
            = JArr [ JBool false; JStr "siteAccessLimits";
                     JStr (label translator) ])
    /\ (~ site_access_limited translator e
        <-> done_message = JArr [ JBool false ]).
Proof.
  intros Hcheck Hfound Hnew Hnofallback Hthrown.
  rewrite (onTranslate_run w tID options s translator Hcheck Hfound), Hnew.
  rewrite onTranslate_save_run. cbv zeta.
  change (translators (with_session s (created_session w tID options)))
    with (translators s).
  rewrite Hthrown. unfold onTranslate_catch_run.
  assert (Hbranch :
    negb (String.eqb (itemType translator) "multiple")
    && fallbackOnFailure options = false).
  { destruct Hnofallback as [-> | ->];
      [ reflexivity | apply andb_false_r ]. }
  rewrite Hbranch, onTranslate_failed_run.
  pose proof (site_access_limited_iff translator e) as Hlimited.
  pose proof (translateAndSave_sends w (randomString w)
                (selected_translators (translators s)
                   (findIndex (fun t => String.eqb (translatorID t) tID)
                      (translators s))
                   options)
                (with_session s (created_session w tID options)))
    as Hsends.
  exists
    (Inject_checkActionToServer
     :: setTimeout_sendMessage
          (if String.eqb (itemType translator) "multiple" then 100%Z else 0%Z)
          "progressWindow.show"
          (JArr [ JStr (randomString w); JNull; JBool false ])
     :: trace_of
          (translateAndSave w (randomString w)
             (selected_translators (translators s)
                (findIndex (fun t => String.eqb (translatorID t) tID)
                   (translators s))
                options)
             (with_session s (created_session w tID options)))
     ++ [ logError e; Promise_delay 500 ])%list.
  exists
    (if (has SITE_ACCESS_LIMIT_TRANSLATORS (translatorID translator)
         && String.eqb (statusCode_of (e_toString e)) "403")
        || String.eqb (statusCode_of (e_toString e)) "429"
     then JArr [ JBool false; JStr "siteAccessLimits"; JStr (label translator) ]
     else JArr [ JBool false ]).
  split; [ | split; [ | split ] ].
  - unfold after_event, outcome_of at 1, state_of at 1, trace_of at 1.
    simpl. rewrite <- app_assoc. reflexivity.
  - intros payload [Heq | [Heq | Hin]]; try discriminate.
    apply in_app_or in Hin.
    destruct Hin as [Hin | [Heq | [Heq | []]]]; try discriminate.
    apply Hsends in Hin. apply Hin. reflexivity.
  - destruct ((has SITE_ACCESS_LIMIT_TRANSLATORS (translatorID translator)
               && String.eqb (statusCode_of (e_toString e)) "403")
              || String.eqb (statusCode_of (e_toString e)) "429").
    + split; [ reflexivity | intros _; apply Hlimited; reflexivity ].
    + split; [ | discriminate ].
      intro H. apply Hlimited in H. discriminate.
  - destruct ((has SITE_ACCESS_LIMIT_TRANSLATORS (translatorID translator)
               && String.eqb (statusCode_of (e_toString e)) "403")
              || String.eqb (statusCode_of (e_toString e)) "429").
    + split; [ | discriminate ].
      intro H. exfalso. apply H, Hlimited. reflexivity.
    + split; [ reflexivity | ].
      intros _ H. apply Hlimited in H. discriminate.
Qed.

Lemma site_access_limits_report_witness :
  checkActionToServer
    (Examples.page Examples.article_url true (Return [])
       (Throw (Examples.http_error "403")) (Return None)) = true
  /\ fallbackOnFailure no_options = false
  /\ site_access_limited Examples.scholar (Examples.http_error "403")
  /\ exists before,
       onTranslate
         (Examples.page Examples.article_url true (Return [])
            (Throw (Examples.http_error "403")) (Return None))
         (translatorID Examples.scholar) no_options Examples.detected_only
       = (Return RetUndefined,
          with_session Examples.detected_only empty_session,
          (before
           ++ [ sendMessage "progressWindow.done"
                  (JArr [ JBool false; JStr "siteAccessLimits";
                          JStr "Google Scholar" ]) ])%list).
Proof.
  assert (Hlimited :
    site_access_limited Examples.scholar (Examples.http_error "403")).
  { left. split; [ left; reflexivity | reflexivity ]. }
  split; [ reflexivity | ].
  split; [ reflexivity | ].
  split; [ exact Hlimited | ].
  destruct (site_access_limits_report
              (Examples.page Examples.article_url true (Return [])
                 (Throw (Examples.http_error "403")) (Return None))
              Examples.detected_only (translatorID Examples.scholar)
              no_options Examples.scholar (Examples.http_error "403")
              eq_refl eq_refl eq_refl (or_intror eq_refl) eq_refl)
    as (before & done_message & Hrun & _ & Hreport & _).
  exists before. rewrite Hrun.
  apply Hreport in Hlimited. rewrite Hlimited. reflexivity.
Defined.

(** *** Failures of [saveAsWebpage] and the session *)

(** No run of [saveAsWebpage] empties a stored session: its only write to
    [sessionDetails] is the [Object.assign] after a successful save. *)
Lemma saveAsWebpage_never_clears (w : World) (args : SaveAsWebpageArgs) :
  preserves (fun s => sessionDetails s <> empty_session) (saveAsWebpage w args).
Proof.
  unfold saveAsWebpage, saveAsWebpage_try, saveAsWebpage_catch.
  repeat first
    [ match goal with
      | |- preserves _ (set_sessionDetails _) => intros s0 _; discriminate
      end
    | preserves_step ].
Qed.

(** Whatever [saveAsWebpage] does after [onSaveAsWebpage] has created the
    session, that session is not cleared. *)
Lemma onSaveAsWebpage_keeps_created_session (w : World) (title : option string)
    (options : Options) (s : PageSaving) :
  checkActionToServer w = true ->
  _shouldReopenProgressWindow w s
    (webpage_translatorID (truthy_opt_bool (snapshot options))) options None
  = false ->
  sessionDetails (state_of (onSaveAsWebpage w title options s))
  <> empty_session.
Proof.
  intros Hcheck Hnew.
  rewrite (onSaveAsWebpage_run w title options s Hcheck). cbv zeta.
  rewrite Hnew.
  apply (saveAsWebpage_never_clears w _
           (with_session s (created_session w _ options))).
  discriminate.
Qed.

(** A failure of [saveAsWebpage] is not among the cases in which the session
    is cleared.  The client rejects [saveSnapshot] with status 500 during
    [onSaveAsWebpage]: the call rethrows and the session that [_initSession]
    stored is still there, so the next click on the button merely reopens the
    progress window.  The same holds when [saveAsWebpage] runs as the fallback
    of a failed translation. *)
Lemma failed_snapshot_keeps_session :
  outcome_of
    (onSaveAsWebpage
       (Examples.page Examples.article_url true (Return [])
          (Return ([], JUndefined)) (Throw Examples.server_error))
       None no_options PageSaving_initial)
  = Throw Examples.server_error
  /\ sessionDetails
       (state_of
          (onSaveAsWebpage
             (Examples.page Examples.article_url true (Return [])
                (Return ([], JUndefined)) (Throw Examples.server_error))
             None no_options PageSaving_initial))
     = {| sd_id := Some "Xk3vQ9aZ";
          sd_url := Some Examples.article_url;
          sd_translatorID := Some "webpage";
          sd_saveOptions := Some no_options |}
  /\ sessionDetails
       (state_of
          (onSaveAsWebpage
             (Examples.page Examples.article_url true (Return [])
                (Return ([], JUndefined)) (Throw Examples.server_error))
             None no_options PageSaving_initial))
     <> empty_session
  /\ onSaveAsWebpage
       (Examples.page Examples.article_url true (Return [])
          (Return ([], JUndefined)) (Throw Examples.server_error))
       None no_options
       (state_of
          (onSaveAsWebpage
             (Examples.page Examples.article_url true (Return [])
                (Return ([], JUndefined)) (Throw Examples.server_error))
             None no_options PageSaving_initial))
     = reopened
         (state_of
            (onSaveAsWebpage
               (Examples.page Examples.article_url true (Return [])
                  (Return ([], JUndefined)) (Throw Examples.server_error))
               None no_options PageSaving_initial))
  /\ outcome_of
       (onTranslate
          (Examples.page Examples.article_url true (Return [])
             (Throw (Examples.http_error "500")) (Throw Examples.server_error))
          (translatorID Examples.scholar) Examples.fallback_options
          Examples.detected_only)
     = Throw Examples.server_error
  /\ sessionDetails
       (state_of
          (onTranslate
             (Examples.page Examples.article_url true (Return [])
                (Throw (Examples.http_error "500"))
                (Throw Examples.server_error))
             (translatorID Examples.scholar) Examples.fallback_options
             Examples.detected_only))
     = {| sd_id := Some "Xk3vQ9aZ";
          sd_url := Some Examples.article_url;
          sd_translatorID := Some (translatorID Examples.scholar);
          sd_saveOptions := Some Examples.fallback_options |}.
Proof.
  repeat split; try reflexivity. discriminate.
Qed.

(** *** What is stored when a method returns *)

Lemma on_return_bind_keeps {A B} (P : PageSaving -> Prop) (m : M A)
    (k : A -> M B) (Q : B -> PageSaving -> Prop) :
  keeps_state m -> (forall a, on_return P (k a) Q) -> on_return P (bind m k) Q.
Proof.
  intros Hm Hk s b HP. unfold bind, outcome_of, state_of.
  specialize (Hm s). unfold state_of in Hm.
  destruct (m s) as [[[a | e] s1] t1]; simpl in *; subst s1.
  - specialize (Hk a s b HP). unfold outcome_of, state_of in Hk.
    destruct (k a s) as [[r s2] t2]; simpl in *. exact Hk.
  - discriminate.
Qed.

Lemma on_return_try_catch {A} (P : PageSaving -> Prop) (m : M A)
    (h : JSError -> M A) (Q : A -> PageSaving -> Prop) :
  on_return P m Q -> (forall e, on_return (fun _ => True) (h e) Q) ->
  on_return P (try_catch m h) Q.
Proof.
  intros Hm Hh s a HP. unfold try_catch, outcome_of, state_of.
  specialize (Hm s a HP). unfold outcome_of, state_of in Hm.
  destruct (m s) as [[[a' | e] s1] t1]; simpl in *.
  - exact Hm.
  - specialize (Hh e s1 a I). unfold outcome_of, state_of in Hh.
    destruct (h e s1) as [[r s2] t2]; simpl in *. exact Hh.
Qed.

Lemma on_return_throw {A} (P : PageSaving -> Prop) (e : JSError)
    (Q : A -> PageSaving -> Prop) :
  on_return P (throw e) Q.
Proof. intros s a _ H. discriminate. Qed.

Lemma on_return_ret {A} (P : PageSaving -> Prop) (a : A)
    (Q : A -> PageSaving -> Prop) :
  (forall s, P s -> Q a s) -> on_return P (ret a) Q.
Proof. intros HQ s a' HP H. injection H as <-. apply HQ, HP. Qed.

Lemma on_return_bind_get {A} (s0 : PageSaving) (k : PageSaving -> M A)
    (Q : A -> PageSaving -> Prop) :
  on_return (fun s => s = s0) (k s0) Q ->
  on_return (fun s => s = s0) (bind get k) Q.
Proof.
  intros Hk s a ->. specialize (Hk s0 a eq_refl).
  unfold bind, get, outcome_of, state_of in *.
  destruct (k s0 s0) as [[r s2] t2]; simpl in *. exact Hk.
Qed.

(** One step of a proof about what a method body leaves when it returns. *)
Ltac on_return_step :=
  match goal with
  | |- on_return _ (throw _) _ => apply on_return_throw
  | |- on_return _ (ret _) _ => apply on_return_ret
  | |- on_return _ (try_catch _ _) _ =>
      apply on_return_try_catch; [ | intro ]
  | |- on_return _ (bind get _) _ => apply on_return_bind_get
  | |- on_return _ (bind _ _) _ =>
      apply on_return_bind_keeps;
      [ solve [ repeat keeps_step ] | intro ]
  | |- on_return _ (if ?b then _ else _) _ => destruct b
  | |- on_return _ (match ?x with _ => _ end) _ => destruct x
  end.

(** When [saveAsWebpage] returns the client's answer, the session is the one
    it was called under, with the URL of the page and the webpage translator
    ID; [saveOptions] is what was stored before. *)
Lemma saveAsWebpage_on_return (w : World) (args : SaveAsWebpageArgs)
    (s0 : PageSaving) :
  on_return (fun s => s = s0) (saveAsWebpage w args)
    (fun returned s' =>
       forall r, returned = RetSnapshot r ->
       exists sessionID,
         arg_sessionID args = Some sessionID
         /\ sessionDetails s'
            = {| sd_id := Some sessionID;
                 sd_url := Some (location_href w);
                 sd_translatorID :=
                   Some (webpage_translatorID
                           (match arg_snapshot args with
                            | Some b => b
                            | None => true
                            end));
                 sd_saveOptions := sd_saveOptions (sessionDetails s0) |}).
Proof.
  unfold saveAsWebpage, saveAsWebpage_try, saveAsWebpage_catch.
  destruct (arg_sessionID args) as [sessionID | ];
    repeat on_return_step;
    try (intros s _ r H; discriminate).
  all: intros s1 returned -> _ r _; exists sessionID; split; reflexivity.
Qed.

(** ** How a run finishes *)

Section FinishLemmas.

Context {A B : Type} (s0 : PageSaving).

Lemma finishes_ret (a : A) (Q : Outcome A -> PageSaving -> Prop) :
  Q (Return a) s0 -> finishes s0 (ret a) Q.
Proof. intro H. exact H. Qed.

Lemma finishes_throw (e : JSError) (Q : Outcome A -> PageSaving -> Prop) :
  Q (Throw e) s0 -> finishes s0 (throw e) Q.
Proof. intro H. exact H. Qed.

Lemma finishes_bind_keeps (m : M A) (k : A -> M B)
    (Q : Outcome B -> PageSaving -> Prop) :
  keeps_state m ->
  (forall e, Q (Throw e) s0) ->
  (forall a, finishes s0 (k a) Q) ->
  finishes s0 (bind m k) Q.
Proof.
  intros Hm Hthrow Hk. unfold finishes, bind, outcome_of, state_of.
  specialize (Hm s0). unfold state_of in Hm.
  destruct (m s0) as [[[a | e] s1] t1]; simpl in *; subst s1.
  - specialize (Hk a). unfold finishes, outcome_of, state_of in Hk.
    destruct (k a s0) as [[r s2] t2]; simpl in *. exact Hk.
  - apply Hthrow.
Qed.

Lemma finishes_bind_get (k : PageSaving -> M A)
    (Q : Outcome A -> PageSaving -> Prop) :
  finishes s0 (k s0) Q -> finishes s0 (bind get k) Q.
Proof.
  unfold finishes, bind, get, outcome_of, state_of.
  destruct (k s0 s0) as [[r s2] t2]; simpl. exact (fun H => H).
Qed.

Lemma finishes_try_catch (m : M A) (h : JSError -> M A)
    (Q : Outcome A -> PageSaving -> Prop) :
  finishes s0 m
    (fun o s' =>
       match o with
       | Return a => Q (Return a) s'
       | Throw _ => s' = s0
       end) ->
  (forall e, finishes s0 (h e) Q) ->
  finishes s0 (try_catch m h) Q.
Proof.
  intros Hm Hh. unfold finishes, try_catch, outcome_of, state_of in *.
  destruct (m s0) as [[[a | e] s1] t1]; simpl in *.
  - exact Hm.
  - subst s1. specialize (Hh e).
    destruct (h e s0) as [[r s2] t2]; simpl in *. exact Hh.
Qed.

End FinishLemmas.

(** One step of a proof about how a method body finishes. *)
Ltac finishes_step :=
  match goal with
  | |- finishes _ (throw _) _ => apply finishes_throw
  | |- finishes _ (ret _) _ => apply finishes_ret
  | |- finishes _ (try_catch _ _) _ =>
      apply finishes_try_catch; [ | intro ]
  | |- finishes _ (bind get _) _ => apply finishes_bind_get
  | |- finishes _ (bind _ _) _ =>
      apply finishes_bind_keeps;
      [ solve [ repeat keeps_step ] | intro | intro ]
  | |- finishes _ (if ?b then _ else _) _ => destruct b
  | |- finishes _ (match ?x with _ => _ end) _ => destruct x
  end.

(** [saveAsWebpage] leaves the state as it was unless it returns the
    client's answer. *)
Lemma saveAsWebpage_state_after (w : World) (args : SaveAsWebpageArgs)
    (s : PageSaving) :
  finishes s (saveAsWebpage w args)
    (fun o s' =>
       match o with
       | Return (RetSnapshot _) => True
       | _ => s' = s
       end).
Proof.
  unfold saveAsWebpage, saveAsWebpage_try, saveAsWebpage_catch.
  repeat first [ finishes_step | reflexivity | exact I ].
Qed.

(** The session that a run of [saveAsWebpage] under [sessionID] leaves
    behind: the [Object.assign] of lines 410-414 when it returns the client's
    answer, and otherwise the session that was stored before. *)
Lemma saveAsWebpage_session_after (w : World) (args : SaveAsWebpageArgs)
    (s : PageSaving) (sessionID : string) :
  arg_sessionID args = Some sessionID ->
  sessionDetails (state_of (saveAsWebpage w args s))
  = match outcome_of (saveAsWebpage w args s) with
    | Return (RetSnapshot _) =>
        {| sd_id := Some sessionID;
           sd_url := Some (location_href w);
           sd_translatorID :=
             Some (webpage_translatorID
                     (match arg_snapshot args with
                      | Some b => b
                      | None => true
                      end));
           sd_saveOptions := sd_saveOptions (sessionDetails s) |}
    | _ => sessionDetails s
    end.
Proof.
  intro Hid.
  pose proof (saveAsWebpage_state_after w args s) as Hkept.
  pose proof (saveAsWebpage_on_return w args s s) as Hreturned.
  unfold finishes in Hkept.
  destruct (outcome_of (saveAsWebpage w args s)) as [[ | v | r ] | e] eqn:Hout;
    try (rewrite Hkept; reflexivity).
  destruct (Hreturned (RetSnapshot r) eq_refl eq_refl r eq_refl)
    as (sessionID' & Hid' & Hstored).
  rewrite Hid in Hid'. injection Hid' as <-. exact Hstored.
Qed.

(** Once [translateAndSave] has thrown and the fallback is taken,
    [onTranslate] ends as the [saveAsWebpage] that it calls under the created
    session does: with its outcome and in its final state. *)
Lemma onTranslate_fallback_run (w : World) (s : PageSaving) (tID : string)
    (options : Options) (translator : Translator) (e : JSError) :
  checkActionToServer w = true ->
  index (translators s)
    (findIndex (fun t => String.eqb (translatorID t) tID) (translators s))
  = Some translator ->
  _shouldReopenProgressWindow w s tID options (Some (itemType translator))
  = false ->
  outcome_of
    (translateAndSave w (randomString w)
       (selected_translators (translators s)
          (findIndex (fun t => String.eqb (translatorID t) tID) (translators s))
          options)
       (with_session s (created_session w tID options)))
  = Throw e ->
  itemType translator <> "multiple" ->
  fallbackOnFailure options = true ->
  outcome_of (onTranslate w tID options s)
  = outcome_of
      (saveAsWebpage w
         {| arg_sessionID := Some (randomString w);
            arg_title := None;
            arg_snapshot := Some true |}
         (with_session s (created_session w tID options)))
  /\ state_of (onTranslate w tID options s)
     = state_of
         (saveAsWebpage w
            {| arg_sessionID := Some (randomString w);
               arg_title := None;
               arg_snapshot := Some true |}
            (with_session s (created_session w tID options))).
Proof.
  intros Hcheck Hfound Hnew Hthrown Hsingle Hfallback.
  rewrite (onTranslate_run w tID options s translator Hcheck Hfound), Hnew.
  rewrite onTranslate_save_run. cbv zeta.
  change (translators (with_session s (created_session w tID options)))
    with (translators s).
  rewrite Hthrown. unfold onTranslate_catch_run.
  apply String.eqb_neq in Hsingle. rewrite Hsingle, Hfallback. simpl.
  change (translators (with_session s (created_session w tID options)))
    with (translators s).
  destruct (index_found _ _ _ Hfound) as (n & _ & Hnth).
  destruct (at_last_nonempty _ _ _ Hnth) as (last & ->).
  split; reflexivity.
Qed.

(** C2, as amended.  When [translateAndSave] throws inside [onTranslate]
    and no webpage fallback is taken (the item type is 'multiple' or
    [fallbackOnFailure] is not set), the session is cleared: [onTranslate]
    returns and [sessionDetails] is empty.  When the fallback is taken,
    [onTranslate] does not clear the session: it ends as the [saveAsWebpage]
    that runs under the session does, and however that ends (it returns the
    client's answer, returns after a save through the server, or throws) a
    session is still stored; when the client's answer is returned it is the
    session with the id and the options it was created with, the document
    URL and the translator ID 'webpageWithSnapshot', and in every other case
    the session as it was created. *)
Theorem failed_translation_clears_session (w : World) (s : PageSaving)
    (tID : string) (options : Options) (translator : Translator)
    (e : JSError) :
  checkActionToServer w = true ->
  index (translators s)
    (findIndex (fun t => String.eqb (translatorID t) tID) (translators s))
  = Some translator ->
  _shouldReopenProgressWindow w s tID options (Some (itemType translator))
  = false ->
  outcome_of
    (translateAndSave w (randomString w)
       (selected_translators (translators s)
          (findIndex (fun t => String.eqb (translatorID t) tID) (translators s))
          options)
       (with_session s (created_session w tID options)))
  = Throw e ->
  (itemType translator = "multiple" \/ fallbackOnFailure options = false ->
   outcome_of (onTranslate w tID options s) = Return RetUndefined
   /\ sessionDetails (state_of (onTranslate w tID options s)) = empty_session)
  /\ (itemType translator <> "multiple" ->
      fallbackOnFailure options = true ->
      (outcome_of (onTranslate w tID options s)
       = outcome_of
           (saveAsWebpage w
              {| arg_sessionID := Some (randomString w);
                 arg_title := None;
                 arg_snapshot := Some true |}
              (with_session s (created_session w tID options)))
       /\ state_of (onTranslate w tID options s)
          = state_of
              (saveAsWebpage w
                 {| arg_sessionID := Some (randomString w);
                    arg_title := None;
                    arg_snapshot := Some true |}
                 (with_session s (created_session w tID options))))
      /\ sessionDetails (state_of (onTranslate w tID options s))
         <> empty_session
      /\ (forall r,
            outcome_of (onTranslate w tID options s) = Return (RetSnapshot r) ->
            sessionDetails (state_of (onTranslate w tID options s))
            = {| sd_id := Some (randomString w);
                 sd_url := Some (location_href w);
                 sd_translatorID := Some "webpageWithSnapshot";
                 sd_saveOptions := Some options |})
      /\ ((forall r,
             outcome_of (onTranslate w tID options s)
             <> Return (RetSnapshot r)) ->
          sessionDetails (state_of (onTranslate w tID options s))
          = created_session w tID options)).
Proof.
  intros Hcheck Hfound Hnew Hthrown. split.
  - intro Hnofallback.
    rewrite (onTranslate_run w tID options s translator Hcheck Hfound), Hnew.
    rewrite onTranslate_save_run. cbv zeta.
    change (translators (with_session s (created_session w tID options)))
      with (translators s).
    rewrite Hthrown. unfold onTranslate_catch_run.
    assert (Hbranch :
      negb (String.eqb (itemType translator) "multiple")
      && fallbackOnFailure options = false).
    { destruct Hnofallback as [-> | ->];
        [ reflexivity | apply andb_false_r ]. }
    rewrite Hbranch, onTranslate_failed_run. split; reflexivity.
  - intros Hsingle Hfallback.
    destruct (onTranslate_fallback_run w s tID options translator e
                Hcheck Hfound Hnew Hthrown Hsingle Hfallback)
      as [Hout Hstate].
    pose proof (saveAsWebpage_session_after w
                  {| arg_sessionID := Some (randomString w);
                     arg_title := None;
                     arg_snapshot := Some true |}
                  (with_session s (created_session w tID options))
                  (randomString w) eq_refl) as Hsession.
    rewrite <- Hstate, <- Hout in Hsession.
    split; [ split; [ exact Hout | exact Hstate ] | ].
    split; [ | split ].
    + rewrite Hsession.
      destruct (outcome_of (onTranslate w tID options s))
        as [[ | v | r ] | e']; discriminate.
    + intros r Hreturned. rewrite Hsession, Hreturned. reflexivity.
    + intro Hother. rewrite Hsession.
      destruct (outcome_of (onTranslate w tID options s))
        as [[ | v | r ] | e']; try reflexivity.
      contradiction (Hother r). reflexivity.
Qed.

Lemma failed_translation_clears_session_witness :
  sessionDetails
    (state_of
       (onTranslate
          (Examples.page Examples.article_url true (Return [])
             (Throw (Examples.http_error "500")) (Return None))
          (translatorID Examples.scholar)
          {| note := None; resave := true; fallbackOnFailure := false;
             snapshot := None |}
          Examples.saved_once))
  = empty_session
  /\ sessionDetails
       (state_of
          (onTranslate
             (Examples.page Examples.article_url true (Return [])
                (Throw (Examples.http_error "500"))
                (Throw Examples.server_error))
             (translatorID Examples.scholar) Examples.fallback_options
             Examples.detected_only))
     = created_session
         (Examples.page Examples.article_url true (Return [])
            (Throw (Examples.http_error "500"))
            (Throw Examples.server_error))
         (translatorID Examples.scholar) Examples.fallback_options.
Proof.
  split.
  - destruct (failed_translation_clears_session
                (Examples.page Examples.article_url true (Return [])
                   (Throw (Examples.http_error "500")) (Return None))
                Examples.saved_once (translatorID Examples.scholar)
                {| note := None; resave := true; fallbackOnFailure := false;
                   snapshot := None |}
                Examples.scholar (Examples.http_error "500")
                eq_refl eq_refl eq_refl eq_refl) as [Hcleared _].
    apply Hcleared. right. reflexivity.
  - destruct (failed_translation_clears_session
                (Examples.page Examples.article_url true (Return [])
                   (Throw (Examples.http_error "500"))
                   (Throw Examples.server_error))
                Examples.detected_only (translatorID Examples.scholar)
                Examples.fallback_options
                Examples.scholar (Examples.http_error "500")
                eq_refl eq_refl eq_refl eq_refl) as [_ Hkept].
    assert (Hsingle : itemType Examples.scholar <> "multiple")
      by discriminate.
    destruct (Hkept Hsingle eq_refl) as (_ & _ & _ & Hcreated).
    apply Hcreated. intros r Hreturned. discriminate Hreturned.
Defined.

(** C2, as stated, fails when the webpage fallback is taken:
    [translateAndSave] throws inside [onTranslate], the page is then saved as
    a webpage, and when [onTranslate] returns [sessionDetails] holds a
    session. *)
Lemma fallback_keeps_session :
  outcome_of
    (translateAndSave
       (Examples.page Examples.article_url true (Return [])
          (Throw (Examples.http_error "500")) (Return None))
       "Xk3vQ9aZ" [ Examples.scholar; Examples.embedded ]
       (with_session Examples.detected_only
          (created_session
             (Examples.page Examples.article_url true (Return [])
                (Throw (Examples.http_error "500")) (Return None))
             (translatorID Examples.scholar) Examples.fallback_options)))
  = Throw (Examples.http_error "500")
  /\ outcome_of
       (onTranslate
          (Examples.page Examples.article_url true (Return [])
             (Throw (Examples.http_error "500")) (Return None))
          (translatorID Examples.scholar) Examples.fallback_options
          Examples.detected_only)
     = Return (RetSnapshot None)
  /\ sessionDetails
       (state_of
          (onTranslate
             (Examples.page Examples.article_url true (Return [])
                (Throw (Examples.http_error "500")) (Return None))
             (translatorID Examples.scholar) Examples.fallback_options
             Examples.detected_only))
     = {| sd_id := Some "Xk3vQ9aZ";
          sd_url := Some Examples.article_url;
          sd_translatorID := Some "webpageWithSnapshot";
          sd_saveOptions := Some Examples.fallback_options |}
  /\ sessionDetails
       (state_of
          (onTranslate
             (Examples.page Examples.article_url true (Return [])
                (Throw (Examples.http_error "500")) (Return None))
             (translatorID Examples.scholar) Examples.fallback_options
             Examples.detected_only))
     <> empty_session.
Proof.
  repeat split; try reflexivity. discriminate.
Qed.

(** C6, as amended.  A session is created per save action with the four
    fields [id], [url], [translatorID], [saveOptions]: [_initSession] stores
    the id that [randomString] gave (and returns it), the document URL and its
    two arguments, and every run of [onTranslate] and [onSaveAsWebpage] that
    passes the check and does not reopen the progress window saves under that
    session.  When the save has ended the session is still stored as it was
    created, with two exceptions: once [saveAsWebpage] has returned the
    client's answer, lines 410-414 have set the translator ID to
    'webpageWithSnapshot' or, when its [snapshot] argument is [false], to
    'webpage', whatever translator ID the session was created with; and a
    translation that failed without webpage fallback has cleared the
    session. *)
Theorem save_creates_session (w : World) (s : PageSaving) :
  (forall tID saveOptions,
     _initSession w tID saveOptions s
     = (Return (randomString w),
        with_session s
          {| sd_id := Some (randomString w);
             sd_url := Some (location_href w);
             sd_translatorID := Some tID;
             sd_saveOptions := Some saveOptions |},
        []))
  /\ (forall tID options translator,
        checkActionToServer w = true ->
        index (translators s)
          (findIndex (fun t => String.eqb (translatorID t) tID) (translators s))
        = Some translator ->
        _shouldReopenProgressWindow w s tID options
          (Some (itemType translator)) = false ->
        onTranslate w tID options s
        = after_event Inject_checkActionToServer
            (onTranslate_save w options
               (findIndex (fun t => String.eqb (translatorID t) tID)
                  (translators s))
               translator (randomString w)
               (with_session s (created_session w tID options)))
        /\ match
             outcome_of
               (translateAndSave w (randomString w)
                  (selected_translators (translators s)
                     (findIndex (fun t => String.eqb (translatorID t) tID)
                        (translators s))
                     options)
                  (with_session s (created_session w tID options)))
           with
           | Return items =>
               outcome_of (onTranslate w tID options s)
               = Return (RetExternal items)
               /\ sessionDetails (state_of (onTranslate w tID options s))
                  = created_session w tID options
           | Throw _ =>
               if negb (String.eqb (itemType translator) "multiple")
                  && fallbackOnFailure options
               then
                 sessionDetails (state_of (onTranslate w tID options s))
                 = match outcome_of (onTranslate w tID options s) with
                   | Return (RetSnapshot _) =>
                       {| sd_id := Some (randomString w);
                          sd_url := Some (location_href w);
                          sd_translatorID := Some "webpageWithSnapshot";
                          sd_saveOptions := Some options |}
                   | _ => created_session w tID options
                   end
               else
                 sessionDetails (state_of (onTranslate w tID options s))
                 = empty_session
           end)
  /\ (forall title options,
        checkActionToServer w = true ->
        _shouldReopenProgressWindow w s
          (webpage_translatorID (truthy_opt_bool (snapshot options)))
          options None = false ->
        onSaveAsWebpage w title options s
        = after_event Inject_checkActionToServer
            (saveAsWebpage w
               {| arg_sessionID := Some (randomString w);
                  arg_title :=
                    Some (match title with
                          | Some t => t
                          | None => document_title w
                          end);
                  arg_snapshot := snapshot options |}
               (with_session s
                  (created_session w
                     (webpage_translatorID (truthy_opt_bool (snapshot options)))
                     options)))
        /\ sessionDetails (state_of (onSaveAsWebpage w title options s))
           = match outcome_of (onSaveAsWebpage w title options s) with
             | Return (RetSnapshot _) =>
                 {| sd_id := Some (randomString w);
                    sd_url := Some (location_href w);
                    sd_translatorID :=
                      Some (webpage_translatorID
                              (match snapshot options with
                               | Some b => b
                               | None => true
                               end));
                    sd_saveOptions := Some options |}
             | _ =>
                 created_session w
                   (webpage_translatorID (truthy_opt_bool (snapshot options)))
                   options
             end).
Proof.
  split; [ | split ].
  - intros tID saveOptions. reflexivity.
  - intros tID options translator Hcheck Hfound Hnew.
    split.
    { rewrite (onTranslate_run w tID options s translator Hcheck Hfound).
      rewrite Hnew. reflexivity. }
    destruct (outcome_of (translateAndSave w (randomString w) _ _))
      as [items | e] eqn:Hrun.
    + rewrite (onTranslate_run w tID options s translator Hcheck Hfound), Hnew.
      rewrite onTranslate_save_run. cbv zeta.
      change (translators (with_session s (created_session w tID options)))
        with (translators s).
      rewrite Hrun. split; reflexivity.
    + destruct (negb (String.eqb (itemType translator) "multiple")
                && fallbackOnFailure options) eqn:Hbranch.
      * apply andb_true_iff in Hbranch. destruct Hbranch as [Hsingle Hfallback].
        apply negb_true_iff, String.eqb_neq in Hsingle.
        destruct (onTranslate_fallback_run w s tID options translator e
                    Hcheck Hfound Hnew Hrun Hsingle Hfallback)
          as [Hout Hstate].
        rewrite Hout, Hstate.
        exact (saveAsWebpage_session_after w
                 {| arg_sessionID := Some (randomString w);
                    arg_title := None;
                    arg_snapshot := Some true |}
                 (with_session s (created_session w tID options))
                 (randomString w) eq_refl).
      * rewrite (onTranslate_run w tID options s translator Hcheck Hfound), Hnew.
        rewrite onTranslate_save_run. cbv zeta.
        change (translators (with_session s (created_session w tID options)))
          with (translators s).
        rewrite Hrun. unfold onTranslate_catch_run.
        rewrite Hbranch, onTranslate_failed_run. reflexivity.
  - intros title options Hcheck Hnew.
    rewrite (onSaveAsWebpage_run w title options s Hcheck). cbv zeta.
    rewrite Hnew. split; [ reflexivity | ].
    exact (saveAsWebpage_session_after w
             {| arg_sessionID := Some (randomString w);
                arg_title :=
                  Some (match title with
                        | Some t => t
                        | None => document_title w
                        end);
                arg_snapshot := snapshot options |}
             (with_session s
                (created_session w
                   (webpage_translatorID (truthy_opt_bool (snapshot options)))
                   options))
             (randomString w) eq_refl).
Qed.

Lemma save_creates_session_witness :
  sessionDetails
    (state_of
       (onTranslate Pages.article (translatorID Examples.embedded) no_options
          Examples.saved_once))
  = created_session Pages.article (translatorID Examples.embedded) no_options
  /\ sessionDetails
       (state_of
          (onSaveAsWebpage Pages.article None no_options
             Examples.detected_only))
     = {| sd_id := Some (randomString Pages.article);
          sd_url := Some (location_href Pages.article);
          sd_translatorID := Some "webpageWithSnapshot";
          sd_saveOptions := Some no_options |}.
Proof.
  split.
  - destruct (save_creates_session Pages.article Examples.saved_once)
      as (_ & Htranslate & _).
    destruct (Htranslate (translatorID Examples.embedded) no_options
                Examples.embedded eq_refl eq_refl eq_refl) as [_ Hsaved].
    exact (proj2 Hsaved).
  - destruct (save_creates_session Pages.article Examples.detected_only)
      as (_ & _ & Hwebpage).
    destruct (Hwebpage None no_options eq_refl eq_refl) as [_ Hsaved].
    exact Hsaved.
Defined.

(** C6, as stated, fails for the session that a save leaves behind when the
    page is saved as a webpage: [onTranslate] creates the session for the
    translator it was called with, translation fails, the fallback saves the
    page through the client, and the stored translator ID is then
    'webpageWithSnapshot', not the translator ID of the save action. *)
Lemma fallback_stores_webpage_translatorID :
  checkActionToServer Pages.untranslatable = true
  /\ _shouldReopenProgressWindow Pages.untranslatable Examples.detected_only
       (translatorID Examples.scholar) Examples.fallback_options
       (Some (itemType Examples.scholar)) = false
  /\ outcome_of
       (onTranslate Pages.untranslatable (translatorID Examples.scholar)
          Examples.fallback_options Examples.detected_only)
     = Return (RetSnapshot None)
  /\ sd_translatorID
       (sessionDetails
          (state_of
             (onTranslate Pages.untranslatable (translatorID Examples.scholar)
                Examples.fallback_options Examples.detected_only)))
     = Some "webpageWithSnapshot"
  /\ sd_translatorID
       (sessionDetails
          (state_of
             (onTranslate Pages.untranslatable (translatorID Examples.scholar)
                Examples.fallback_options Examples.detected_only)))
     <> Some (translatorID Examples.scholar).
Proof.
  repeat split; try reflexivity. discriminate.
Qed.

(** C10, as stated, fails for an error message that contains the status code
    429 where the pattern does not capture it: after another status code, or
    without the words "status code " before it.  The failure is then reported
    as a plain one. *)
Lemma status_code_not_captured :
  contains_status_code
    (e_toString
       (Examples.failure "Error: status code 500 (retry gave status code 429)"))
    "429"
  /\ last
       (trace_of
          (onTranslate
             (Examples.page Examples.article_url true (Return [])
                (Throw
                   (Examples.failure
                      "Error: status code 500 (retry gave status code 429)"))
                (Return None))
             (translatorID Examples.scholar) no_options
             Examples.detected_only))
       Inject_checkActionToServer
     = sendMessage "progressWindow.done" (JArr [ JBool false ])
  /\ contains_text
       (e_toString (Examples.failure "Error: HTTP 429 Too Many Requests"))
       "429"
  /\ last
       (trace_of
          (onTranslate
             (Examples.page Examples.article_url true (Return [])
                (Throw (Examples.failure "Error: HTTP 429 Too Many Requests"))
                (Return None))
             (translatorID Examples.scholar) no_options
             Examples.detected_only))
       Inject_checkActionToServer
     = sendMessage "progressWindow.done" (JArr [ JBool false ]).
Proof.
  split; [ | split; [ | split ] ].
  - exists "Error: status code 500 (retry gave ", ")". reflexivity.
  - reflexivity.
  - exists "Error: HTTP ", " Too Many Requests". reflexivity.
  - reflexivity.
Qed.


(** * Further properties of the code *)

(** [saveAsWebpage] writes to [PageSaving] only when it returns the client's
    answer: when it throws, or returns [undefined] after saving through the
    server, the session and the translator list are exactly as before. *)
Theorem saveAsWebpage_writes_only_on_success (w : World)
    (args : SaveAsWebpageArgs) (s : PageSaving) :
  (forall r, outcome_of (saveAsWebpage w args s) <> Return (RetSnapshot r)) ->
  state_of (saveAsWebpage w args s) = s.
Proof.
  pose proof (saveAsWebpage_state_after w args s) as Hfinish.
  unfold finishes in Hfinish. intro Hother.
  destruct (outcome_of (saveAsWebpage w args s)) as [[ | v | r ] | e];
    try exact Hfinish.
  contradiction (Hother r). reflexivity.
Qed.

Lemma saveAsWebpage_writes_only_on_success_witness :
  (forall r,
     outcome_of
       (saveAsWebpage (Pages.article_rejected Examples.server_error)
          (Pages.session_args "abcd1234") Examples.saved_once)
     <> Return (RetSnapshot r))
  /\ state_of
       (saveAsWebpage (Pages.article_rejected Examples.server_error)
          (Pages.session_args "abcd1234") Examples.saved_once)
     = Examples.saved_once.
Proof.
  assert (Hthrows : forall r,
    outcome_of
      (saveAsWebpage (Pages.article_rejected Examples.server_error)
         (Pages.session_args "abcd1234") Examples.saved_once)
    <> Return (RetSnapshot r)) by (intros r H; discriminate H).
  split; [ exact Hthrows | ].
  apply saveAsWebpage_writes_only_on_success. exact Hthrows.
Defined.

(** ** The catch block of [saveAsWebpage] *)

(** When the client rejects [saveSnapshot] with [e]: with status 0 (client
    unavailable) a page that is no PDF is saved through the server instead
    and [done [true]] is sent, a PDF is reported as 'clientRequired'; with any
    other status the failure is reported as 'unexpectedError', unless the
    error says that the library is not editable, in which case no [done]
    message is sent at all.  Except after a save through the server, [e]
    itself is rethrown. *)
Theorem saveAsWebpage_rejected_report (w : World) (args : SaveAsWebpageArgs)
    (s : PageSaving) (e : JSError) :
  truthy_opt_string (arg_sessionID args) = true ->
  saveSnapshot w = Throw e ->
  match e_status e with
  | Some 0%Z =>
      if String.eqb (document_contentType w) "application/pdf"
      then
        outcome_of (saveAsWebpage w args s) = Throw e
        /\ done_messages (trace_of (saveAsWebpage w args s))
           = [ JArr [ JBool false; JStr "clientRequired" ] ]
      else
        match itemSaver_saveAsWebpage w with
        | Return _ =>
            outcome_of (saveAsWebpage w args s) = Return RetUndefined
            /\ done_messages (trace_of (saveAsWebpage w args s))
               = [ JArr [ JBool true ] ]
        | Throw e' =>
            outcome_of (saveAsWebpage w args s) = Throw e'
            /\ done_messages (trace_of (saveAsWebpage w args s)) = []
        end
  | _ =>
      outcome_of (saveAsWebpage w args s) = Throw e
      /\ done_messages (trace_of (saveAsWebpage w args s))
         = match e_value e with
           | ValueLibraryEditable (Some false) => []
           | _ => [ JArr [ JBool false; JStr "unexpectedError" ] ]
           end
  end.
Proof.
  intros Hid Hrejected.
  unfold saveAsWebpage, saveAsWebpage_try, saveAsWebpage_catch.
  destruct (arg_sessionID args) as [sessionID | ]; [ | discriminate ].
  simpl in Hid. rewrite Hid. simpl negb. cbv iota.
  unfold bind, try_catch, await, emit, emit_all, ret, throw, get,
    outcome_of, state_of, trace_of.
  rewrite Hrejected.
  destruct (isChromium w); [ destruct (isIncognito w) | ];
    destruct (String.eqb (document_contentType w) "application/pdf");
    simpl;
    (destruct (e_status e) as [[ | p | p ] | ]; simpl;
     [ try (destruct (itemSaver_saveAsWebpage w) as [[ | i items ] | e']; simpl)
     | | | ];
     try (destruct (e_value e) as [ | [[ | ] | ]]; simpl);
     split; reflexivity).
Qed.

Lemma saveAsWebpage_rejected_report_witness :
  truthy_opt_string (arg_sessionID (Pages.session_args "abcd1234")) = true
  /\ saveSnapshot (Pages.article_rejected Pages.read_only)
     = Throw Pages.read_only
  /\ outcome_of
       (saveAsWebpage (Pages.article_rejected Pages.read_only)
          (Pages.session_args "abcd1234") PageSaving_initial)
     = Throw Pages.read_only
  /\ done_messages
       (trace_of
          (saveAsWebpage (Pages.article_rejected Pages.read_only)
             (Pages.session_args "abcd1234") PageSaving_initial))
     = [].
Proof.
  split; [ reflexivity | ]. split; [ reflexivity | ].
  exact (saveAsWebpage_rejected_report
           (Pages.article_rejected Pages.read_only)
           (Pages.session_args "abcd1234") PageSaving_initial
           Pages.read_only eq_refl eq_refl).
Defined.

(** ** The requests of [saveAsWebpage] *)

Lemma emits_only_emit_all_map {X} (P : Event -> Prop) (f : X -> Event)
    (l : list X) :
  (forall x, P (f x)) -> emits_only P (emit_all (map f l)).
Proof.
  intros HP. apply emits_only_emit_all. intros ev Hin.
  apply in_map_iff in Hin. destruct Hin as (x & <- & _). apply HP.
Qed.

Lemma emits_only_emit_all_nil (P : Event -> Prop) :
  emits_only P (emit_all []).
Proof. apply emits_only_emit_all. intros ev []. Qed.

(** One step of a proof about the events of a method body, the property of
    an event that is written out being closed by [close]. *)
Ltac emits_step_by close :=
  match goal with
  | |- emits_only _ (bind _ _) => apply emits_only_bind; [ | intro ]
  | |- emits_only _ (try_catch _ _) => apply emits_only_try_catch; [ | intro ]
  | |- emits_only _ (ret _) => apply emits_only_ret
  | |- emits_only _ (throw _) => apply emits_only_throw
  | |- emits_only _ (lift _) => apply emits_only_lift
  | |- emits_only _ get => apply emits_only_get
  | |- emits_only _ (set_sessionDetails _) => intros ? ? []
  | |- emits_only _ (await _ _) => apply emits_only_await; close
  | |- emits_only _ (emit _) => apply emits_only_emit; close
  | |- emits_only _ (emit_all (map _ _)) =>
      apply emits_only_emit_all_map; intro; close
  | |- emits_only _ (emit_all []) => apply emits_only_emit_all_nil
  | |- emits_only _ (emit_all (match ?x with _ => _ end)) => destruct x
  | |- emits_only _ (if ?b then _ else _) => destruct b
  | |- emits_only _ (match ?x with _ => _ end) => destruct x
  end.

(** For a PDF document SingleFile is never run and the client is never asked
    to store a SingleFile snapshot, whatever the client answers to
    [saveSnapshot]. *)
Theorem pdf_never_runs_SingleFile (w : World) (args : SaveAsWebpageArgs)
    (s : PageSaving) (ev : Event) :
  document_contentType w = "application/pdf" ->
  In ev (trace_of (saveAsWebpage w args s)) ->
  ~ is_SingleFile_event ev.
Proof.
  intro Hpdf. revert s ev.
  change (emits_only (fun ev => ~ is_SingleFile_event ev) (saveAsWebpage w args)).
  unfold saveAsWebpage, saveAsWebpage_try, saveAsWebpage_catch.
  rewrite Hpdf.
  change (String.eqb "application/pdf" "application/pdf") with true.
  cbv beta iota zeta. simpl negb. simpl andb.
  repeat emits_step_by ltac:(simpl; tauto).
Qed.

Lemma pdf_never_runs_SingleFile_witness :
  document_contentType
    (Pages.on_platform
       (Examples.page Examples.article_url true (Return [])
          (Return ([], JUndefined))
          (Return (Some {| res_saveSingleFile := true;
                           res_attachments := None |})))
       false false false true false "application/pdf")
  = "application/pdf"
  /\ ~ In SingleFile_retrievePageData
         (trace_of
            (saveAsWebpage
               (Pages.on_platform
                  (Examples.page Examples.article_url true (Return [])
                     (Return ([], JUndefined))
                     (Return (Some {| res_saveSingleFile := true;
                                      res_attachments := None |})))
                  false false false true false "application/pdf")
               (Pages.session_args "abcd1234") PageSaving_initial)).
Proof.
  split; [ reflexivity | ].
  intro Hin.
  exact (pdf_never_runs_SingleFile
           (Pages.on_platform
              (Examples.page Examples.article_url true (Return [])
                 (Return ([], JUndefined))
                 (Return (Some {| res_saveSingleFile := true;
                                  res_attachments := None |})))
              false false false true false "application/pdf")
           (Pages.session_args "abcd1234") PageSaving_initial
           SingleFile_retrievePageData eq_refl Hin I).
Defined.

Lemma try_catch_await_first {A B} (ev : Event) (answer : Outcome A)
    (k : A -> M B) (h : JSError -> M B) (s : PageSaving) :
  exists rest, trace_of (try_catch (bind (await ev answer) k) h s) = ev :: rest.
Proof.
  unfold try_catch, bind, await, trace_of.
  destruct answer as [a | e].
  - destruct (k a s) as [[[b | e] s1] t1].
    + eexists. reflexivity.
    + destruct (h e s1) as [[r s2] t2]. eexists. reflexivity.
  - destruct (h e s) as [[r s2] t2]. eexists. reflexivity.
Qed.

Lemma trace_bind_emit {A} (ev : Event) (k : unit -> M A) (s : PageSaving) :
  trace_of (bind (emit ev) k s) = ev :: trace_of (k tt s).
Proof.
  unfold bind, emit, trace_of. destruct (k tt s) as [[r s2] t2]. reflexivity.
Qed.

Lemma trace_bind_ret {A B} (a : A) (k : A -> M B) (s : PageSaving) :
  trace_of (bind (ret a) k s) = trace_of (k a s).
Proof.
  unfold bind, ret, trace_of. destruct (k a s) as [[r s2] t2]. reflexivity.
Qed.

Lemma trace_bind_await_return {A B} (ev : Event) (a : A) (k : A -> M B)
    (s : PageSaving) :
  trace_of (bind (await ev (Return a)) k s) = ev :: trace_of (k a s).
Proof.
  unfold bind, await, trace_of. destruct (k a s) as [[r s2] t2]. reflexivity.
Qed.

Lemma emits_only_bind_ret {A B} (P : Event -> Prop) (a : A) (k : A -> M B) :
  emits_only P (k a) -> emits_only P (bind (ret a) k).
Proof. intros Hk s ev. rewrite trace_bind_ret. apply Hk. Qed.

Lemma emits_only_bind_await_return {A B} (P : Event -> Prop) (ev : Event)
    (a : A) (k : A -> M B) :
  P ev -> emits_only P (k a) -> emits_only P (bind (await ev (Return a)) k).
Proof.
  intros HP Hk s ev'. rewrite trace_bind_await_return.
  intros [<- | Hin]; [ exact HP | exact (Hk s ev' Hin) ].
Qed.

(** With a session ID, [saveAsWebpage] asks the client to [saveSnapshot], and
    every request with cookies of the run is that one.  Its data name the
    session, the URL and the title of the page; [skipSnapshot] is the negation
    of the [snapshot] argument (which defaults to [true]); [singleFile] is
    [true] except in a Chromium incognito window, where it is absent; [pdf] is
    present only for a PDF document. *)
Theorem saveSnapshot_request (w : World) (args : SaveAsWebpageArgs)
    (s : PageSaving) (sessionID : string) :
  arg_sessionID args = Some sessionID ->
  sessionID <> "" ->
  exists data,
    In (Connector_callMethodWithCookies "saveSnapshot" (JObj data))
       (trace_of (saveAsWebpage w args s))
    /\ (forall method d,
          In (Connector_callMethodWithCookies method d)
             (trace_of (saveAsWebpage w args s)) ->
          method = "saveSnapshot" /\ d = JObj data)
    /\ property "sessionID" data = Some (JStr sessionID)
    /\ property "url" data = Some (JStr (location_href w))
    /\ property "title" data
       = Some (JStr (match arg_title args with
                     | Some t => t
                     | None => document_title w
                     end))
    /\ property "skipSnapshot" data
       = Some (JBool (negb (match arg_snapshot args with
                            | Some b => b
                            | None => true
                            end)))
    /\ property "singleFile" data
       = (if isChromium w && isIncognito w then None else Some (JBool true))
    /\ property "pdf" data
       = (if String.eqb (document_contentType w) "application/pdf"
          then Some (JBool true) else None).
Proof.
  intros Hid Htruthy. apply String.eqb_neq in Htruthy.
  exists (saveSnapshot_data w sessionID
            (match arg_title args with
             | Some t => t
             | None => document_title w
             end)
            (match arg_snapshot args with
             | Some b => b
             | None => true
             end)).
  split; [ | split ].
  - unfold saveAsWebpage, saveSnapshot_data.
    rewrite Hid. unfold truthy_string. rewrite Htruthy.
    change (negb (negb false)) with false. cbv iota zeta.
    destruct (isChromium w); [ destruct (isIncognito w) | ];
      destruct (String.eqb (document_contentType w) "application/pdf");
      simpl andb; cbv iota;
      rewrite ?trace_bind_await_return, ?trace_bind_ret; cbv iota;
      rewrite !trace_bind_emit;
      unfold saveAsWebpage_try;
      match goal with
      | |- context [ try_catch (bind (await ?ev ?ans) ?k) ?h ?s0 ] =>
          destruct (try_catch_await_first ev ans k h s0) as (rest & ->)
      end;
      repeat first [ left; reflexivity | right ].
  - intros method d. revert s.
    assert (Hall :
      emits_only
        (fun ev =>
           forall method d,
             ev = Connector_callMethodWithCookies method d ->
             method = "saveSnapshot"
             /\ d = JObj (saveSnapshot_data w sessionID
                            (match arg_title args with
                             | Some t => t
                             | None => document_title w
                             end)
                            (match arg_snapshot args with
                             | Some b => b
                             | None => true
                             end)))
        (saveAsWebpage w args)).
    { unfold saveAsWebpage, saveAsWebpage_try, saveAsWebpage_catch,
        saveSnapshot_data.
      rewrite Hid. unfold truthy_string. rewrite Htruthy.
      change (negb (negb false)) with false. cbv iota zeta.
      destruct (isChromium w);
        [ apply emits_only_bind_await_return;
          [ intros ? ? Heq; discriminate Heq | ];
          destruct (isIncognito w)
        | apply emits_only_bind_ret ];
        destruct (String.eqb (document_contentType w) "application/pdf");
        simpl andb; cbv iota;
        repeat emits_step_by
          ltac:(let Heq := fresh "Heq" in
                intros ? ? Heq;
                first [ discriminate Heq
                      | injection Heq as <- <-; split; reflexivity ]). }
    intros s Hin. exact (Hall s _ Hin method d eq_refl).
  - unfold saveSnapshot_data.
    destruct (isChromium w); [ destruct (isIncognito w) | ];
      destruct (String.eqb (document_contentType w) "application/pdf");
      repeat split.
Qed.

Lemma saveSnapshot_request_witness :
  arg_sessionID (Pages.session_args "abcd1234") = Some "abcd1234"
  /\ "abcd1234" <> ""
  /\ exists data,
       In (Connector_callMethodWithCookies "saveSnapshot" (JObj data))
          (trace_of
             (saveAsWebpage
                (Pages.on_platform Pages.article false false true true true
                   "text/html")
                (Pages.session_args "abcd1234") PageSaving_initial))
       /\ property "singleFile" data = None
       /\ property "skipSnapshot" data = Some (JBool false).
Proof.
  assert (Hid : "abcd1234" <> "") by discriminate.
  split; [ reflexivity | ]. split; [ exact Hid | ].
  destruct (saveSnapshot_request
              (Pages.on_platform Pages.article false false true true true
                 "text/html")
              (Pages.session_args "abcd1234") PageSaving_initial
              "abcd1234" eq_refl Hid)
    as (data & Hsent & _ & _ & _ & _ & Hskip & Hsingle & _).
  exists data. split; [ exact Hsent | ]. split; [ exact Hsingle | exact Hskip ].
Defined.

(** When the client asks for a SingleFile snapshot of a page that is no PDF,
    the client's [saveSingleFile] is called in any case: with the packed page
    data as [snapshotContent] when SingleFile delivers them, without that
    property when SingleFile throws, which is swallowed and shown as a snapshot
    without progress.  The call then returns what [saveSingleFile]
    answered. *)
Theorem singleFile_snapshot_content (w : World) (args : SaveAsWebpageArgs)
    (s : PageSaving) (sessionID : string) (r : SaveResult) :
  arg_sessionID args = Some sessionID ->
  sessionID <> "" ->
  document_contentType w <> "application/pdf" ->
  saveSnapshot w = Return (Some r) ->
  res_saveSingleFile r = true ->
  exists data,
    In (Connector_saveSingleFile
          (JObj [ ("method", JStr "saveSingleFile");
                  ("headers",
                   JObj [ ("Content-Type", JStr "application/json") ]) ])
          (JObj data))
       (trace_of (saveAsWebpage w args s))
    /\ property "sessionID" data = Some (JStr sessionID)
    /\ property "snapshotContent" data
       = match retrievePageData w with
         | Return content => Some (JStr (packString w content))
         | Throw _ => None
         end
    /\ (forall e, retrievePageData w = Throw e ->
        In (sendMessage "progressWindow.itemProgress"
              (progressItem w sessionID "Snapshot" (JBool false)))
           (trace_of (saveAsWebpage w args s)))
    /\ (forall r', saveSingleFile w = Return r' ->
        outcome_of (saveAsWebpage w args s) = Return (RetSnapshot r')).
Proof.
  intros Hid Htruthy Hhtml Hsaved Hsingle.
  apply String.eqb_neq in Htruthy. apply String.eqb_neq in Hhtml.
  unfold saveAsWebpage, saveAsWebpage_try, saveAsWebpage_catch.
  rewrite Hid. unfold truthy_string. rewrite Htruthy, Hhtml.
  change (negb (negb false)) with false. cbv iota zeta.
  unfold bind, try_catch, await, emit, emit_all, ret, throw, get,
    set_sessionDetails, outcome_of, state_of, trace_of.
  rewrite Hsaved, Hsingle.
  destruct (isChromium w); [ destruct (isIncognito w) | ];
    destruct (retrievePageData w) as [content | e1];
    destruct (saveSingleFile w) as [[[single [atts | ]] | ] | e2]; simpl.
  all: try (destruct (e_status e2) as [[ | p | p ] | ]; simpl;
            try (destruct (itemSaver_saveAsWebpage w) as [[ | i its ] | e3];
                 simpl);
            try (destruct (e_value e2) as [ | [[ | ] | ]]; simpl)).
  all: eexists; (split; [ repeat first [ left; reflexivity | right ] | ]);
    (split; [ reflexivity | ]);
    (split; [ reflexivity | ]);
    split;
    [ intros e He; try discriminate He;
      repeat first [ left; reflexivity | right ]
    | intros r' Hr; try discriminate Hr;
      injection Hr as <-; reflexivity ].
Qed.

Lemma singleFile_snapshot_content_witness :
  document_contentType Pages.singleFile_fails <> "application/pdf"
  /\ outcome_of
       (saveAsWebpage Pages.singleFile_fails (Pages.session_args "abcd1234")
          PageSaving_initial)
     = Return (RetSnapshot
                 (Some {| res_saveSingleFile := false;
                          res_attachments := Some [ "Snapshot" ] |}))
  /\ exists data,
       In (Connector_saveSingleFile
             (JObj [ ("method", JStr "saveSingleFile");
                     ("headers",
                      JObj [ ("Content-Type", JStr "application/json") ]) ])
             (JObj data))
          (trace_of
             (saveAsWebpage Pages.singleFile_fails
                (Pages.session_args "abcd1234") PageSaving_initial))
       /\ property "snapshotContent" data = None.
Proof.
  assert (Hhtml :
    document_contentType Pages.singleFile_fails <> "application/pdf")
    by discriminate.
  assert (Hid : "abcd1234" <> "") by discriminate.
  destruct (singleFile_snapshot_content Pages.singleFile_fails
              (Pages.session_args "abcd1234") PageSaving_initial "abcd1234"
              {| res_saveSingleFile := true; res_attachments := None |}
              eq_refl Hid Hhtml eq_refl eq_refl)
    as (data & Hsent & _ & Hcontent & _ & Hreturned).
  split; [ exact Hhtml | ].
  split; [ apply Hreturned; reflexivity | ].
  exists data. split; [ exact Hsent | exact Hcontent ].
Defined.
(** ** What [translateAndSave] does *)

(** Closes [handler_event sessionID ev] for an event that is written out. *)
Ltac handler_event_done :=
  simpl; first [ exact I | split; reflexivity | tauto ].

(** Closes [In ev l -> handler_event sessionID ev] for a list [l] that is
    written out. *)
Ltac handler_events_done :=
  let Hin := fresh "Hin" in
  let Heq := fresh "Heq" in
  intros Hin; simpl in Hin;
  repeat (destruct Hin as [Heq | Hin]; [ subst; handler_event_done | ]);
  destruct Hin.

Lemma onSelect_handler_events (w : World) (this : PageSaving) (c : Counters)
    (items : JSVal) (selectedCollection : Outcome (option bool))
    (returnItems : option (list (string * string))) (sessionID : string)
    (ev : Event) :
  In ev (fst (onSelect w this c items selectedCollection returnItems)) ->
  handler_event sessionID ev.
Proof.
  unfold onSelect.
  destruct selectedCollection as [[[ | ] | ] | e];
    destruct returnItems as [[ | chosen rest ] | ];
    destruct (isBrowserExt w);
    try (destruct (e_status e) as [[ | p | p ] | ]);
    handler_events_done.
Qed.

Lemma onItemsSaved_handler_events (w : World) (sessionID : string)
    (total : nat) (items : list Item) (ev : Event) :
  In ev (onItemsSaved w sessionID total items) -> handler_event sessionID ev.
Proof.
  induction items as [ | item rest IH ]; simpl; [ intros [] | ].
  intros [<- | Hin]; [ handler_event_done | ].
  destruct (item_notes item) as [ | notes | n ].
  - apply IH. exact Hin.
  - apply in_app_or in Hin. destruct Hin as [Hin | Hin].
    + apply in_map_iff in Hin. destruct Hin as (n & <- & _).
      handler_event_done.
    + apply IH. exact Hin.
  - destruct Hin.
Qed.

Lemma run_translate_callbacks_handler_events (w : World) (this : PageSaving)
    (sessionID : string) (cbs : list TranslateCallback) (c : Counters)
    (ev : Event) :
  In ev (fst (run_translate_callbacks w this sessionID c cbs)) ->
  handler_event sessionID ev.
Proof.
  revert c. induction cbs as [ | cb rest IH ]; intro c; simpl; [ intros [] | ].
  destruct cb as [items selectedCollection returnItems | item | oldT newT].
  - pose proof (onSelect_handler_events w this c items selectedCollection
                  returnItems sessionID ev) as Hhere.
    destruct (onSelect w this c items selectedCollection returnItems)
      as [evs c1].
    specialize (IH c1).
    destruct (run_translate_callbacks w this sessionID c1 rest) as [evs' c2].
    simpl in *. intro Hin. apply in_app_or in Hin. tauto.
  - specialize (IH {| itemsTotal := itemsTotal c;
                      itemsSaved := (itemsSaved c + 1)%Z |}).
    simpl.
    destruct (run_translate_callbacks w this sessionID _ rest) as [evs' c2].
    simpl in *.
    intros [<- | Hin]; [ handler_event_done | apply IH; exact Hin ].
  - specialize (IH c).
    destruct (run_translate_callbacks w this sessionID c rest) as [evs' c2].
    simpl in *.
    intros [<- | Hin]; [ handler_event_done | apply IH; exact Hin ].
Qed.

Lemma run_saver_callbacks_handler_events (w : World) (sessionID : string)
    (items : list Item) (cbs : list SaverCallback) (ev : Event) :
  In ev (run_saver_callbacks w sessionID items cbs) ->
  handler_event sessionID ev.
Proof.
  unfold run_saver_callbacks. rewrite in_flat_map.
  intros ([attachment progress | ] & _ & Hin).
  - revert Hin. unfold onAttachmentProgress. handler_events_done.
  - apply (onItemsSaved_handler_events w sessionID (length items) items).
    exact Hin.
Qed.

(** Takes a hypothesis [In ev trace] apart, down to the events that are
    written out and the events of the handlers. *)
Ltac in_trace H :=
  repeat match type of H with
         | False => destruct H
         | _ = _ \/ _ =>
             let Heq := fresh "Heq" in
             destruct H as [Heq | H];
             [ try discriminate Heq | ]
         | In _ [] => destruct H
         | In _ (_ :: _) =>
             let Heq := fresh "Heq" in
             destruct H as [Heq | H];
             [ try discriminate Heq | ]
         | In _ (_ ++ _)%list =>
             let H' := fresh "Hin" in
             apply in_app_or in H; destruct H as [H' | H];
             [ first [ apply run_translate_callbacks_handler_events in H'
                     | apply run_saver_callbacks_handler_events in H' ];
               try (exact H' || destruct H' || (simpl in H'; tauto))
             | ]
         end.

(** [ItemSaver.saveItems] is called only after the translate object was
    created, the translation returned and the note was added, and then for the
    session, the page and the items of this save: the session ID is the one
    [translateAndSave] was called with, the base URI is the document URL, and
    the items are those that [_processNote] returned. *)
Theorem saveItems_is_called_for_this_save (w : World) (sessionID : string)
    (ts : list Translator) (s : PageSaving) (sid base : string)
    (proxy : ProxyVal) (saved : list Item) :
  In (ItemSaver_saveItems sid base proxy saved)
     (trace_of (translateAndSave w sessionID ts s)) ->
  translate_is_created w
  /\ sid = sessionID
  /\ base = location_href w
  /\ exists items p,
       translate w = Return (items, p)
       /\ _processNote s items = Return saved.
Proof.
  unfold translate_is_created, translateAndSave, _initTranslate.
  unfold bind, try_catch, await, emit, emit_all, lift, ret, throw, get,
    trace_of.
  destruct (isManifestV3 w); [ destruct (offscreen_create w) as [e | ] | ];
    simpl;
    try (destruct (translate w) as [[items p] | e']; simpl;
         try (destruct (_processNote s items) as [items' | e''] eqn:Hnote;
              simpl));
    intro Hin; in_trace Hin;
    try (injection Heq as <- <- <- <-);
    repeat split; try reflexivity; try discriminate;
    try (eexists; eexists; split; [ reflexivity | exact Hnote ]).
Qed.

Lemma saveItems_is_called_for_this_save_witness :
  In (ItemSaver_saveItems "abcd1234" Examples.article_url (RawProxy JUndefined)
        [ Pages.book; Pages.annotated_book ])
     (trace_of
        (translateAndSave Pages.two_books "abcd1234" [ Examples.embedded ]
           Examples.saved_once))
  /\ translate_is_created Pages.two_books.
Proof.
  assert (Hcalled :
    In (ItemSaver_saveItems "abcd1234" Examples.article_url
          (RawProxy JUndefined) [ Pages.book; Pages.annotated_book ])
       (trace_of
          (translateAndSave Pages.two_books "abcd1234" [ Examples.embedded ]
             Examples.saved_once))).
  { cbv. do 5 right. left. reflexivity. }
  split; [ exact Hcalled | ].
  exact (proj1 (saveItems_is_called_for_this_save Pages.two_books "abcd1234"
                  [ Examples.embedded ] Examples.saved_once "abcd1234"
                  Examples.article_url (RawProxy JUndefined)
                  [ Pages.book; Pages.annotated_book ] Hcalled)).
Defined.

(** Every [itemProgress] message that [translateAndSave] sends carries the
    session ID it was called with. *)
Theorem itemProgress_carries_the_session (w : World) (sessionID : string)
    (ts : list Translator) (s : PageSaving) (props : list (string * JSVal)) :
  In (sendMessage "progressWindow.itemProgress" (JObj props))
     (trace_of (translateAndSave w sessionID ts s)) ->
  property "sessionID" props = Some (JStr sessionID).
Proof.
  unfold translateAndSave, _initTranslate.
  unfold bind, try_catch, await, emit, emit_all, lift, ret, throw, get,
    trace_of.
  destruct (isManifestV3 w); [ destruct (offscreen_create w) as [e | ] | ];
    simpl;
    try (destruct (translate w) as [[items p] | e']; simpl;
         try (destruct (_processNote s items) as [items' | e'']; simpl));
    intro Hin; in_trace Hin; assumption.
Qed.

Lemma itemProgress_carries_the_session_witness :
  In (sendMessage "progressWindow.itemProgress"
        (JObj [ ("sessionID", JStr "abcd1234");
                ("id", JStr "B1");
                ("iconSrc", JStr "images/book.png");
                ("title", JStr "A book");
                ("itemsLoaded", JNum 1);
                ("itemType", JStr "book") ]))
     (trace_of
        (translateAndSave Pages.two_books "abcd1234" [ Examples.embedded ]
           Examples.saved_once))
  /\ property "sessionID"
       [ ("sessionID", JStr "abcd1234");
         ("id", JStr "B1");
         ("iconSrc", JStr "images/book.png");
         ("title", JStr "A book");
         ("itemsLoaded", JNum 1);
         ("itemType", JStr "book") ]
     = Some (JStr "abcd1234").
Proof.
  assert (Hsent :
    In (sendMessage "progressWindow.itemProgress"
          (JObj [ ("sessionID", JStr "abcd1234");
                  ("id", JStr "B1");
                  ("iconSrc", JStr "images/book.png");
                  ("title", JStr "A book");
                  ("itemsLoaded", JNum 1);
                  ("itemType", JStr "book") ]))
       (trace_of
          (translateAndSave Pages.two_books "abcd1234" [ Examples.embedded ]
             Examples.saved_once))).
  { cbv. do 3 right. left. reflexivity. }
  split; [ exact Hsent | ].
  exact (itemProgress_carries_the_session Pages.two_books "abcd1234"
           [ Examples.embedded ] Examples.saved_once _ Hsent).
Defined.

Lemma done_messages_none (trace : list Event) :
  (forall ev, In ev trace -> translateAndSave_event ev) ->
  done_messages trace = [].
Proof.
  induction trace as [ | ev rest IH ]; intro Hall; [ reflexivity | ].
  assert (Hrest : done_messages rest = [])
    by (apply IH; intros ev' Hin; apply Hall; right; exact Hin).
  pose proof (Hall ev (or_introl eq_refl)) as Hev.
  destruct ev; simpl in *; try exact Hrest.
  apply String.eqb_neq in Hev. rewrite Hev. exact Hrest.
Qed.

(** [translateAndSave] leaves the reporting of the end of the save to its
    caller: it writes neither [sessionDetails] nor [translators], sends no
    [progressWindow.done] message and makes no request with cookies to the
    client. *)
Theorem translateAndSave_leaves_the_end_to_its_caller (w : World)
    (sessionID : string) (ts : list Translator) (s : PageSaving) :
  state_of (translateAndSave w sessionID ts s) = s
  /\ done_messages (trace_of (translateAndSave w sessionID ts s)) = []
  /\ forall method data,
       ~ In (Connector_callMethodWithCookies method data)
            (trace_of (translateAndSave w sessionID ts s)).
Proof.
  split; [ apply translateAndSave_keeps_state | ]. split.
  - apply done_messages_none. intros ev Hin.
    exact (translateAndSave_sends w sessionID ts s ev Hin).
  - intros method data Hin.
    exact (translateAndSave_sends w sessionID ts s _ Hin).
Qed.

(** ** The handlers of [translateAndSave] *)

(** While the engine saves one item after the other, the [k]-th message of
    [onItemSaving] reports [itemsLoaded: false] as long as fewer items were
    saved than were selected, and the number of items saved so far from then
    on; the counter of saved items grows by one per item. *)
Theorem onItemSaving_counts_items (w : World) (this : PageSaving)
    (sessionID : string) (items : list Item) (c : Counters) :
  map itemsLoaded_of
    (fst (run_translate_callbacks w this sessionID c (map CbItemSaving items)))
  = map (fun k =>
           Some (if (itemsTotal c <=? itemsSaved c + Z.of_nat k)%Z
                 then JNum (itemsSaved c + Z.of_nat k)
                 else JBool false))
        (seq 1 (length items))
  /\ snd (run_translate_callbacks w this sessionID c (map CbItemSaving items))
     = {| itemsTotal := itemsTotal c;
          itemsSaved := (itemsSaved c + Z.of_nat (length items))%Z |}.
Proof.
  revert c. induction items as [ | item rest IH ]; intro c.
  - simpl. split; [ reflexivity | ].
    rewrite Z.add_0_r. destruct c. reflexivity.
  - specialize (IH {| itemsTotal := itemsTotal c;
                      itemsSaved := (itemsSaved c + 1)%Z |}).
    destruct IH as [IHevents IHcounters].
    cbn [map run_translate_callbacks onItemSaving length seq].
    destruct (run_translate_callbacks w this sessionID _ (map CbItemSaving rest))
      as [evs c2].
    cbn [fst snd] in *. split.
    + cbn [app map itemsLoaded_of property]. simpl String.eqb. cbv iota.
      f_equal.
      rewrite IHevents, <- (seq_shift (length rest) 1), map_map.
      apply map_ext. intro k. cbn [itemsTotal itemsSaved].
      replace (itemsSaved c + 1 + Z.of_nat k)%Z
        with (itemsSaved c + Z.of_nat (S k))%Z by lia.
      reflexivity.
    + rewrite IHcounters. cbn [itemsTotal itemsSaved]. f_equal. lia.
Qed.

(** [onSelect] closes the progress window and asks the client for the
    selected collection.  When the client says that the library is not
    editable, nothing else happens: no dialog, and the counters are as they
    were.  Otherwise the select dialog of the platform is shown, once, after
    the client was asked (and its error logged) and before anything else;
    the progress window is then shown again, with the stored session ID,
    exactly when items were selected, and only then are the counters reset to
    the number of selected items and zero.  An error of the client is logged
    unless its status is 0. *)
Theorem onSelect_reopens_for_a_selection (w : World) (this : PageSaving)
    (c : Counters) (items : JSVal) (selectedCollection : Outcome (option bool))
    (returnItems : option (list (string * string))) :
  (selectedCollection = Return (Some false) ->
   onSelect w this c items selectedCollection returnItems
   = ([ sendMessage "progressWindow.close" JNull;
        Connector_callMethod "getSelectedCollection" (JObj []) ], c))
  /\ (selectedCollection <> Return (Some false) ->
      exists logged shown,
        fst (onSelect w this c items selectedCollection returnItems)
        = (sendMessage "progressWindow.close" JNull
           :: Connector_callMethod "getSelectedCollection" (JObj [])
           :: logged
           ++ (if isBrowserExt w then Connector_Browser_onSelect items
               else Inject_onSafariSelect items)
           :: shown)%list
        /\ (forall ev, In ev logged -> exists e, ev = logError e)
        /\ (forall ev, In ev shown ->
            exists payload, ev = sendMessage "progressWindow.show" payload))
  /\ (forall payload,
        In (sendMessage "progressWindow.show" payload)
           (fst (onSelect w this c items selectedCollection returnItems))
        <-> selectedCollection <> Return (Some false)
            /\ (exists selected,
                  returnItems = Some selected /\ selected <> [])
            /\ payload = JArr [ JS_of_opt_string (sd_id (sessionDetails this)) ])
  /\ snd (onSelect w this c items selectedCollection returnItems)
     = match selectedCollection, returnItems with
       | Return (Some false), _ => c
       | _, Some (first :: others) =>
           {| itemsTotal := Z.of_nat (length (first :: others));
              itemsSaved := 0 |}
       | _, _ => c
       end
  /\ (forall e,
        In (logError e)
           (fst (onSelect w this c items selectedCollection returnItems))
        <-> selectedCollection = Throw e /\ e_status e <> Some 0%Z).
Proof.
  split; [ intros ->; reflexivity | ].
  split; [ | split; [ | split ] ].
  - intro Heditable.
    exists (match selectedCollection with
            | Throw e =>
                match e_status e with
                | Some 0%Z => []
                | _ => [ logError e ]
                end
            | Return _ => []
            end),
      (match returnItems with
       | Some (_ :: _) =>
           [ sendMessage "progressWindow.show"
               (JArr [ JS_of_opt_string (sd_id (sessionDetails this)) ]) ]
       | _ => []
       end).
    unfold onSelect.
    destruct selectedCollection as [[[ | ] | ] | e'];
      try (contradiction Heditable; reflexivity);
      destruct returnItems as [[ | chosen rest ] | ];
      try (destruct (e_status e') as [[ | p | p ] | ]);
      (split; [ reflexivity | ]);
      (split; intros ev Hin; simpl in Hin;
       repeat (destruct Hin as [<- | Hin]; [ eexists; reflexivity | ]);
       destruct Hin).
  - intro payload. unfold onSelect.
    destruct selectedCollection as [[[ | ] | ] | e'];
      destruct returnItems as [[ | chosen rest ] | ];
      destruct (isBrowserExt w);
      try (destruct (e_status e') as [[ | p | p ] | ]);
      (split;
       [ intro Hin; simpl in Hin;
         repeat (destruct Hin as [Heq | Hin]; [ try discriminate Heq | ]);
         try destruct Hin;
         injection Heq as <-;
         (split; [ discriminate | ]);
         (split; [ eexists; split; [ reflexivity | discriminate ]
                 | reflexivity ])
       | intros (Hne & (sel & Hsel & Hnil) & ->);
         try (contradiction Hne; reflexivity);
         try discriminate Hsel;
         try (injection Hsel as <-; contradiction Hnil; reflexivity);
         simpl; repeat first [ left; reflexivity | right ] ]).
  - unfold onSelect.
    destruct selectedCollection as [[[ | ] | ] | e'];
      destruct returnItems as [[ | chosen rest ] | ];
      reflexivity.
  - intro e. unfold onSelect.
    destruct selectedCollection as [[[ | ] | ] | e'];
      destruct returnItems as [[ | chosen rest ] | ];
      destruct (isBrowserExt w);
      try (destruct (e_status e') as [[ | p | p ] | ] eqn:Hstatus);
      (split;
       [ intro Hin; simpl in Hin;
         repeat (destruct Hin as [Heq | Hin]; [ try discriminate Heq | ]);
         try destruct Hin;
         injection Heq as <-;
         (split; [ reflexivity | rewrite Hstatus; discriminate ])
       | intros [Hthrown Hst];
         try discriminate Hthrown;
         injection Hthrown as <-;
         try (contradiction Hst; exact Hstatus);
         simpl; repeat first [ left; reflexivity | right ] ]).
Qed.

Lemma onSelect_reopens_for_a_selection_witness :
  onSelect Pages.article Examples.saved_once
    {| itemsTotal := 2; itemsSaved := 1 |} JNull (Return (Some false))
    (Some [ ("0", "First title") ])
  = ([ sendMessage "progressWindow.close" JNull;
       Connector_callMethod "getSelectedCollection" (JObj []) ],
     {| itemsTotal := 2; itemsSaved := 1 |})
  /\ exists logged shown,
       fst (onSelect Pages.article Examples.saved_once
              {| itemsTotal := 2; itemsSaved := 1 |} JNull
              (Throw Examples.server_error) (Some [ ("0", "First title") ]))
       = (sendMessage "progressWindow.close" JNull
          :: Connector_callMethod "getSelectedCollection" (JObj [])
          :: logged
          ++ (if isBrowserExt Pages.article then Connector_Browser_onSelect JNull
              else Inject_onSafariSelect JNull)
          :: shown)%list
       /\ (forall ev, In ev logged -> exists e, ev = logError e)
       /\ (forall ev, In ev shown ->
           exists payload, ev = sendMessage "progressWindow.show" payload).
Proof.
  split.
  - apply (onSelect_reopens_for_a_selection Pages.article Examples.saved_once
             {| itemsTotal := 2; itemsSaved := 1 |} JNull (Return (Some false))
             (Some [ ("0", "First title") ])).
    reflexivity.
  - apply (onSelect_reopens_for_a_selection Pages.article Examples.saved_once
             {| itemsTotal := 2; itemsSaved := 1 |} JNull
             (Throw Examples.server_error) (Some [ ("0", "First title") ])).
    discriminate.
Defined.

(** ** The note of "Create Zotero Item and Note from Selection" *)

(** When [_processNote] returns, the items are the ones it was given, one by
    one with the same id, item type and title; they are the very same list
    unless the save options carry a note and there is exactly one item. *)
Theorem _processNote_keeps_the_items (s : PageSaving)
    (items items' : list Item) :
  _processNote s items = Return items' ->
  map item_id items' = map item_id items
  /\ map item_itemType items' = map item_itemType items
  /\ map item_title items' = map item_title items
  /\ (items' = items
      \/ exists saveOptions n item,
           sd_saveOptions (sessionDetails s) = Some saveOptions
           /\ note saveOptions = Some n /\ n <> "" /\ items = [ item ]).
Proof.
  unfold _processNote.
  destruct (sd_saveOptions (sessionDetails s)) as [saveOptions | ] eqn:Hoptions;
    [ | intro H; injection H as <-; repeat split; left; reflexivity ].
  destruct (note saveOptions) as [n | ] eqn:Hnote;
    [ | intro H; injection H as <-; repeat split; left; reflexivity ].
  destruct items as [ | item [ | second rest ] ];
    try (intro H; injection H as <-; repeat split; left; reflexivity).
  unfold truthy_string. destruct (String.eqb n "") eqn:Hn; simpl.
  - intro H; injection H as <-; repeat split; left; reflexivity.
  - apply String.eqb_neq in Hn.
    destruct (item_notes item) as [ | notes | n' ]; intro H;
      try discriminate H; injection H as <-;
      (split; [ reflexivity | ]);
      (split; [ reflexivity | ]);
      (split; [ reflexivity | ]);
      right; exists saveOptions, n, item; repeat split; assumption.
Qed.

Lemma _processNote_keeps_the_items_witness :
  _processNote Pages.noting [ Pages.annotated_book ]
  = Return [ {| item_id := JStr "B2"; item_itemType := "book";
                item_title := "Another book";
                item_notes := NotesArray [ "first note"; "selected text" ] |} ]
  /\ map item_title
       [ {| item_id := JStr "B2"; item_itemType := "book";
            item_title := "Another book";
            item_notes := NotesArray [ "first note"; "selected text" ] |} ]
     = map item_title [ Pages.annotated_book ].
Proof.
  split; [ reflexivity | ].
  apply (_processNote_keeps_the_items Pages.noting [ Pages.annotated_book ]).
  reflexivity.
Defined.

(** The note of the save options reaches the progress window only beside
    other notes.  For a single item with a notes array, [_processNote] appends
    the note and [onItemsSaved] sends a message for it under the item; for a
    single item without notes, [_processNote] stores the note as the object
    [{note: ...}], over which [onItemsSaved] cannot iterate, so that the
    item's own message is the only one. *)
Theorem note_is_shown_only_beside_other_notes (w : World) (s : PageSaving)
    (sessionID : string) (item : Item) (saveOptions : Options) (n : string) :
  sd_saveOptions (sessionDetails s) = Some saveOptions ->
  note saveOptions = Some n ->
  n <> "" ->
  match item_notes item with
  | NotesArray notes =>
      exists item',
        _processNote s [ item ] = Return [ item' ]
        /\ item_notes item' = NotesArray (notes ++ [ n ])
        /\ In (note_message w sessionID (item_id item) n)
              (onItemsSaved w sessionID 1 [ item' ])
        /\ length (onItemsSaved w sessionID 1 [ item' ]) = S (S (length notes))
  | NotesAbsent =>
      exists item',
        _processNote s [ item ] = Return [ item' ]
        /\ item_notes item' = NotesObject n
        /\ length (onItemsSaved w sessionID 1 [ item' ]) = 1%nat
        /\ forall ev,
             In ev (onItemsSaved w sessionID 1 [ item' ]) ->
             ~ is_child_message ev
  | NotesObject _ => exists e, _processNote s [ item ] = Throw e
  end.
Proof.
  intros Hoptions Hnote Hn. apply String.eqb_neq in Hn.
  unfold _processNote. rewrite Hoptions, Hnote.
  unfold truthy_string. rewrite Hn. simpl negb. cbv iota.
  destruct (item_notes item) as [ | notes | n' ].
  - eexists. split; [ reflexivity | ]. split; [ reflexivity | ].
    split; [ reflexivity | ].
    intros ev [<- | []]. simpl. intro H. apply H. reflexivity.
  - eexists. split; [ reflexivity | ]. split; [ reflexivity | ].
    simpl. split.
    + right. rewrite app_nil_r. apply in_map_iff.
      exists n. split; [ reflexivity | ].
      apply in_or_app. right. left. reflexivity.
    + rewrite app_nil_r, length_map, length_app. simpl. f_equal. lia.
  - eexists. reflexivity.
Qed.

Lemma note_is_shown_only_beside_other_notes_witness :
  sd_saveOptions (sessionDetails Pages.noting) = Some Pages.with_note
  /\ "selected text" <> ""
  /\ exists item',
       _processNote Pages.noting [ Pages.book ] = Return [ item' ]
       /\ item_notes item' = NotesObject "selected text"
       /\ length (onItemsSaved Pages.article "abcd1234" 1 [ item' ]) = 1%nat.
Proof.
  assert (Hn : "selected text" <> "") by discriminate.
  split; [ reflexivity | ]. split; [ exact Hn | ].
  destruct (note_is_shown_only_beside_other_notes Pages.article Pages.noting
              "abcd1234" Pages.book Pages.with_note "selected text"
              eq_refl eq_refl Hn)
    as (item' & Hprocessed & Hobject & Hone & _).
  exists item'. split; [ exact Hprocessed | ].
  split; [ exact Hobject | exact Hone ].
Defined.

(** ** Page loads *)

(** The run of [onPageLoad] on a page other than [about:blank], after the
    session is reset. *)
Lemma onPageLoad_run (w : World) (force : bool) (s : PageSaving) :
  location_href w <> "about:blank" ->
  onPageLoad w force s
  = bind
      (try_catch
         (this <- get ;;
          if is_nonempty (translators this) then
            if force then set_translators [] ;; onPageLoad_detect w
            else ret (Return RetUndefined)
          else onPageLoad_detect w)
         (fun e => emit (logError e) ;; ret (Return RetUndefined)))
      lift (with_session s empty_session).
Proof.
  intro Hpage. apply String.eqb_neq in Hpage.
  unfold onPageLoad. rewrite Hpage, bind_set_sessionDetails. reflexivity.
Qed.

(** [onPageLoad] catches whatever fails while the translate object is
    created or while translators are detected: the error is logged as the
    last thing the call does, and the call returns [undefined].  It throws in
    one case only: on Safari, for a PDF in a frame without translator, line
    118 returns the promise of [onPDFFrame] without awaiting it, so that a
    rejection of that promise is not caught; [onPageLoad] then rejects with
    the same error, and nothing is logged. *)
Theorem onPageLoad_catches_detection_errors (w : World) (force : bool)
    (s : PageSaving) :
  (forall e,
     outcome_of (onPageLoad w force s) = Throw e
     <-> hands_to_onPDFFrame w force s /\ onPDFFrame w = Throw e)
  /\ (forall e,
        outcome_of (onPageLoad w force s) = Throw e ->
        forall e', ~ In (logError e') (trace_of (onPageLoad w force s)))
  /\ (forall e,
        location_href w <> "about:blank" ->
        translators s = [] \/ force = true ->
        (translate_is_created w /\ detect w = Throw e)
        \/ (isManifestV3 w = true /\ offscreen_create w = Some e) ->
        outcome_of (onPageLoad w force s) = Return RetUndefined
        /\ last (trace_of (onPageLoad w force s)) Inject_checkActionToServer
           = logError e).
Proof.
  assert (Hthrows : forall e,
    outcome_of (onPageLoad w force s) = Throw e ->
    (hands_to_onPDFFrame w force s /\ onPDFFrame w = Throw e)
    /\ forall e', ~ In (logError e') (trace_of (onPageLoad w force s))).
  { intro e.
    destruct (String.eqb (location_href w) "about:blank") eqn:Hpage.
    { unfold onPageLoad. rewrite Hpage. intro H. discriminate H. }
    apply String.eqb_neq in Hpage. rewrite (onPageLoad_run w force s Hpage).
    unfold hands_to_onPDFFrame, translate_is_created.
    unfold onPageLoad_detect, _initTranslate, try_catch, bind, await, emit,
      lift, ret, throw, get, set_translators, with_session, outcome_of,
      trace_of.
    destruct s as [sd cached]. simpl.
    destruct cached as [ | t ts ]; [ | destruct force ]; simpl;
      try (intro H; discriminate H);
      (destruct (isManifestV3 w);
       [ destruct (offscreen_create w) as [e0 | ] | ]); simpl;
      try (intro H; discriminate H);
      (destruct (detect w) as [[ | d ds] | e0]); simpl;
      try (intro H; discriminate H);
      (destruct (isSafari w); simpl; try (intro H; discriminate H));
      (destruct (isTopWindow w); simpl; try (intro H; discriminate H));
      (destruct (String.eqb (document_contentType w) "application/pdf")
         eqn:Hpdf; simpl; try (intro H; discriminate H));
      apply String.eqb_eq in Hpdf;
      (destruct (onPDFFrame w) as [v | e0]; simpl;
       [ intro H; discriminate H | ]);
      intro H; injection H as ->;
      (split;
       [ repeat split; auto; discriminate
       | intros e' Hin;
         repeat (destruct Hin as [Hin | Hin]; [ discriminate Hin | ]);
         exact Hin ]). }
  split; [ | split ].
  - intro e. split; [ intro H; exact (proj1 (Hthrows e H)) | ].
    intros [(Hpage & Hruns & Hcreated & Hdetect & Hsafari & Hframe & Hpdf)
              Hrejects].
    rewrite (onPageLoad_run w force s Hpage).
    unfold translate_is_created in Hcreated.
    unfold onPageLoad_detect, _initTranslate, try_catch, bind, await, emit,
      lift, ret, throw, get, set_translators, with_session, outcome_of.
    destruct s as [sd cached]. simpl in Hruns. simpl.
    assert (Hforce : cached = [] \/ force = true)
      by (destruct Hruns as [-> | ->]; auto).
    rewrite Hdetect, Hsafari, Hframe, Hpdf, Hrejects.
    change (String.eqb "application/pdf" "application/pdf") with true.
    destruct cached as [ | t ts ];
      [ | destruct Hforce as [Hnil | ->]; [ discriminate Hnil | ] ];
      (destruct (isManifestV3 w); [ rewrite (Hcreated eq_refl) | ]);
      reflexivity.
  - intros e H. exact (proj2 (Hthrows e H)).
  - intros e Hpage Hruns Hfails.
    rewrite (onPageLoad_run w force s Hpage).
    unfold translate_is_created in Hfails.
    unfold onPageLoad_detect, _initTranslate, try_catch, bind, await, emit,
      lift, ret, throw, get, set_translators, with_session, outcome_of,
      trace_of.
    destruct s as [sd cached]. simpl in Hruns. simpl.
    assert (Hforce : cached = [] \/ force = true)
      by (destruct Hruns as [-> | ->]; auto).
    destruct Hfails as [[Hcreated Hdetect] | [Hv3 Hcreate]].
    + rewrite Hdetect.
      destruct cached as [ | t ts ];
        [ | destruct Hforce as [Hnil | ->]; [ discriminate Hnil | ] ];
        (destruct (isManifestV3 w); [ rewrite (Hcreated eq_refl) | ]);
        split; reflexivity.
    + rewrite Hv3, Hcreate.
      destruct cached as [ | t ts ];
        [ | destruct Hforce as [Hnil | ->]; [ discriminate Hnil | ] ];
        split; reflexivity.
Qed.

Lemma onPageLoad_catches_detection_errors_witness :
  outcome_of
    (onPageLoad (Pages.rejected_pdf_frame Examples.server_error) true
       Examples.saved_once)
  = Throw Examples.server_error
  /\ (outcome_of
        (onPageLoad
           (Examples.page Examples.article_url true
              (Throw Examples.server_error) (Return ([], JUndefined))
              (Return None))
           true Examples.saved_once)
      = Return RetUndefined
      /\ last
           (trace_of
              (onPageLoad
                 (Examples.page Examples.article_url true
                    (Throw Examples.server_error) (Return ([], JUndefined))
                    (Return None))
                 true Examples.saved_once))
           Inject_checkActionToServer
         = logError Examples.server_error).
Proof.
  split.
  - apply (proj1 (onPageLoad_catches_detection_errors
                    (Pages.rejected_pdf_frame Examples.server_error) true
                    Examples.saved_once)).
    split; [ | reflexivity ].
    unfold hands_to_onPDFFrame, translate_is_created.
    repeat split; try reflexivity; try discriminate.
    right. reflexivity.
  - apply (proj2 (proj2 (onPageLoad_catches_detection_errors
                           (Examples.page Examples.article_url true
                              (Throw Examples.server_error)
                              (Return ([], JUndefined)) (Return None))
                           true Examples.saved_once))).
    + discriminate.
    + right. reflexivity.
    + left. split; [ discriminate | reflexivity ].
Defined.

(** With an empty list stored, [onPageLoad] starts detection at once. *)
Lemma onPageLoad_starts_detection (w : World) (force : bool) (s : PageSaving) :
  location_href w <> "about:blank" ->
  translators s = [] ->
  exists rest,
    trace_of (onPageLoad w force s)
    = (if isManifestV3 w then VirtualOffscreenTranslate_create
       else new_Translate_Web) :: rest.
Proof.
  intros Hpage Hempty. apply String.eqb_neq in Hpage.
  unfold onPageLoad. rewrite Hpage, bind_set_sessionDetails.
  unfold onPageLoad_detect, _initTranslate, try_catch, bind, await, emit,
    ret, throw, get, set_translators, with_session, trace_of.
  destruct s as [sd cached]. simpl in Hempty. subst cached. simpl.
  destruct (isManifestV3 w).
  - destruct (offscreen_create w); simpl.
    + eexists. reflexivity.
    + destruct (detect w) as [ts | e]; simpl.
      * destruct (negb (is_nonempty ts) && isSafari w
                  && (negb (isTopWindow w)
                      && String.eqb (document_contentType w) "application/pdf"));
          eexists; reflexivity.
      * eexists. reflexivity.
  - destruct (detect w) as [ts | e]; simpl.
    + destruct (negb (is_nonempty ts) && isSafari w
                && (negb (isTopWindow w)
                    && String.eqb (document_contentType w) "application/pdf"));
        eexists; reflexivity.
    + eexists. reflexivity.
Qed.

Lemma onPageLoad_finds_nothing (w : World) (force : bool) (s : PageSaving) :
  location_href w <> "about:blank" ->
  translators s = [] \/ force = true ->
  detect w = Return [] \/ (exists e, detect w = Throw e)
  \/ (exists e, isManifestV3 w = true /\ offscreen_create w = Some e) ->
  translators (state_of (onPageLoad w force s)) = [].
Proof.
  intros Hpage Hruns Hnothing. apply String.eqb_neq in Hpage.
  unfold onPageLoad. rewrite Hpage, bind_set_sessionDetails.
  unfold onPageLoad_detect, _initTranslate, try_catch, bind, await, emit,
    ret, throw, get, set_translators, with_session, state_of.
  destruct s as [sd cached]. simpl in Hruns. simpl.
  assert (Hforce : cached = [] \/ force = true).
  { destruct Hruns as [-> | ->]; auto. }
  destruct Hnothing as [Hdetect | [[e Hdetect] | (e & Hv3 & Hcreate)]].
  - rewrite Hdetect.
    destruct cached as [ | t ts ];
      [ | destruct Hforce as [Hnil | ->]; [ discriminate Hnil | ] ];
      destruct (isManifestV3 w); simpl;
      try destruct (offscreen_create w); simpl;
      destruct (isSafari w); simpl;
      try (destruct (negb (isTopWindow w)
                     && String.eqb (document_contentType w) "application/pdf");
           simpl);
      reflexivity.
  - rewrite Hdetect.
    destruct cached as [ | t ts ];
      [ | destruct Hforce as [Hnil | ->]; [ discriminate Hnil | ] ];
      destruct (isManifestV3 w); simpl;
      try destruct (offscreen_create w); simpl;
      reflexivity.
  - rewrite Hv3, Hcreate.
    destruct cached as [ | t ts ];
      [ | destruct Hforce as [Hnil | ->]; [ discriminate Hnil | ] ];
      reflexivity.
Qed.

(** Only a non-empty list of translators is cached.  A page load whose
    detection found nothing, or failed, leaves the stored list empty, and the
    next page load runs detection again even without [force]. *)
Theorem empty_detection_is_repeated
    (w w' : World) (force force' : bool) (s : PageSaving) :
  location_href w <> "about:blank" ->
  location_href w' <> "about:blank" ->
  translators s = [] \/ force = true ->
  detect w = Return [] \/ (exists e, detect w = Throw e)
  \/ (exists e, isManifestV3 w = true /\ offscreen_create w = Some e) ->
  exists rest,
    trace_of (onPageLoad w' force' (state_of (onPageLoad w force s)))
    = (if isManifestV3 w' then VirtualOffscreenTranslate_create
       else new_Translate_Web) :: rest.
Proof.
  intros Hpage Hpage' Hruns Hnothing.
  apply onPageLoad_starts_detection; [ exact Hpage' | ].
  apply onPageLoad_finds_nothing; assumption.
Qed.

Lemma empty_detection_is_repeated_witness :
  exists rest,
    trace_of
      (onPageLoad
         (Examples.page Examples.article_url true
            (Return [ Examples.embedded ]) (Return ([], JUndefined))
            (Return None))
         false
         (state_of
            (onPageLoad
               (Examples.page Examples.article_url true
                  (Throw Examples.server_error) (Return ([], JUndefined))
                  (Return None))
               true Examples.saved_once)))
    = (if isManifestV3
            (Examples.page Examples.article_url true
               (Return [ Examples.embedded ]) (Return ([], JUndefined))
               (Return None))
       then VirtualOffscreenTranslate_create
       else new_Translate_Web) :: rest.
Proof.
  apply (empty_detection_is_repeated
           (Examples.page Examples.article_url true
              (Throw Examples.server_error) (Return ([], JUndefined))
              (Return None))
           (Examples.page Examples.article_url true
              (Return [ Examples.embedded ]) (Return ([], JUndefined))
              (Return None))
           true false Examples.saved_once).
  - discriminate.
  - discriminate.
  - right. reflexivity.
  - right. left. exists Examples.server_error. reflexivity.
Defined.

(** On Safari a frame that shows a PDF and has no translator is handed to
    [onPDFFrame]: the call settles as the promise that [onPDFFrame] returns
    (fulfilled with its value, or rejected with its error), no list of
    translators is reported and none is stored.  In every other case in
    which detection
    succeeds the detected list is stored and reported by [onTranslators],
    with the instance and the content type of the document. *)
Theorem onPageLoad_reports_detection
    (w : World) (force : bool) (s : PageSaving) (detected : list Translator) :
  location_href w <> "about:blank" ->
  translators s = [] \/ force = true ->
  translate_is_created w ->
  detect w = Return detected ->
  let pdf_frame :=
    negb (is_nonempty detected) && isSafari w
    && (negb (isTopWindow w)
        && String.eqb (document_contentType w) "application/pdf") in
  (pdf_frame = true ->
   outcome_of (onPageLoad w force s)
   = match onPDFFrame w with
     | Return v => Return (RetExternal v)
     | Throw e => Throw e
     end
   /\ translators (state_of (onPageLoad w force s)) = []
   /\ last (trace_of (onPageLoad w force s)) Inject_checkActionToServer
      = Connector_Browser_onPDFFrame (location_href w) (instanceID w)
   /\ forall ts i c,
        ~ In (Connector_Browser_onTranslators ts i c)
             (trace_of (onPageLoad w force s)))
  /\ (pdf_frame = false ->
      outcome_of (onPageLoad w force s) = Return RetUndefined
      /\ translators (state_of (onPageLoad w force s)) = detected
      /\ last (trace_of (onPageLoad w force s)) Inject_checkActionToServer
         = Connector_Browser_onTranslators detected (instanceID w)
             (document_contentType w)
      /\ forall u i,
           ~ In (Connector_Browser_onPDFFrame u i)
                (trace_of (onPageLoad w force s))).
Proof.
  intros Hpage Hruns Hcreated Hdetect pdf_frame. subst pdf_frame.
  apply String.eqb_neq in Hpage. unfold translate_is_created in Hcreated.
  unfold onPageLoad. rewrite Hpage, bind_set_sessionDetails.
  unfold onPageLoad_detect, _initTranslate, try_catch, bind, await, emit,
    lift, ret, throw, get, set_translators, with_session, outcome_of,
    state_of, trace_of.
  destruct s as [sd cached]. simpl in Hruns. simpl.
  assert (Hforce : cached = [] \/ force = true).
  { destruct Hruns as [-> | ->]; auto. }
  rewrite Hdetect.
  split; intro Hframe; rewrite Hframe;
    (destruct cached as [ | t ts ];
       [ | destruct Hforce as [Hnil | ->]; [ discriminate Hnil | ] ]);
    (destruct (isManifestV3 w); [ rewrite (Hcreated eq_refl) | ]); simpl;
    try (destruct (onPDFFrame w) as [v | e]; simpl);
    (split; [ reflexivity | split; [ reflexivity | split; [ reflexivity | ] ] ]);
    intros; intro Hin; simpl in Hin;
    repeat (destruct Hin as [Hin | Hin]; [ discriminate Hin | ]);
    exact Hin.
Qed.

Lemma onPageLoad_reports_detection_witness :
  outcome_of (onPageLoad Pages.safari_pdf_frame true Examples.saved_once)
  = match onPDFFrame Pages.safari_pdf_frame with
    | Return v => Return (RetExternal v)
    | Throw e => Throw e
    end
  /\ translators
       (state_of (onPageLoad Pages.safari_pdf_frame true Examples.saved_once))
     = []
  /\ last (trace_of (onPageLoad Pages.safari_pdf_frame true Examples.saved_once))
       Inject_checkActionToServer
     = Connector_Browser_onPDFFrame (location_href Pages.safari_pdf_frame)
         (instanceID Pages.safari_pdf_frame)
  /\ forall ts i c,
       ~ In (Connector_Browser_onTranslators ts i c)
            (trace_of
               (onPageLoad Pages.safari_pdf_frame true Examples.saved_once)).
Proof.
  assert (Hpage : location_href Pages.safari_pdf_frame <> "about:blank")
    by discriminate.
  assert (Hcreated : translate_is_created Pages.safari_pdf_frame)
    by (intro Hv3; discriminate Hv3).
  destruct (onPageLoad_reports_detection Pages.safari_pdf_frame true
              Examples.saved_once [] Hpage (or_intror eq_refl) Hcreated
              eq_refl) as [Hframe _].
  apply Hframe. reflexivity.
Defined.

(** ** Clicking a second time *)

Lemma saveAsWebpage_keeps_translators (w : World) (args : SaveAsWebpageArgs)
    (ts : list Translator) :
  preserves (fun s => translators s = ts) (saveAsWebpage w args).
Proof.
  unfold saveAsWebpage, saveAsWebpage_try, saveAsWebpage_catch.
  repeat first
    [ match goal with
      | |- preserves _ (set_sessionDetails _) => intros s0 H; exact H
      end
    | preserves_step ].
Qed.

Lemma onTranslate_keeps_translators (w : World) (tID : string)
    (options : Options) (s : PageSaving) :
  translators (state_of (onTranslate w tID options s)) = translators s.
Proof.
  assert (H : preserves (fun s' => translators s' = translators s)
                (onTranslate w tID options)).
  { unfold onTranslate, onTranslate_save, onTranslate_failed, _initSession,
      _clearSession.
    repeat first
      [ match goal with
        | |- preserves _ (set_sessionDetails _) => intros s0 H; exact H
        end
      | apply saveAsWebpage_keeps_translators
      | preserves_step ]. }
  apply H. reflexivity.
Qed.

Lemma onSaveAsWebpage_keeps_translators (w : World) (title : option string)
    (options : Options) (s : PageSaving) :
  translators (state_of (onSaveAsWebpage w title options s)) = translators s.
Proof.
  assert (H : preserves (fun s' => translators s' = translators s)
                (onSaveAsWebpage w title options)).
  { unfold onSaveAsWebpage, _initSession.
    repeat first
      [ match goal with
        | |- preserves _ (set_sessionDetails _) => intros s0 H; exact H
        end
      | apply saveAsWebpage_keeps_translators
      | preserves_step ]. }
  apply H. reflexivity.
Qed.

(** The translator list is written by [onPageLoad] alone: no save, however
    it ends, changes it. *)
Theorem saving_keeps_the_translators (w : World) (s : PageSaving) :
  (forall tID options,
     translators (state_of (onTranslate w tID options s)) = translators s)
  /\ (forall title options,
        translators (state_of (onSaveAsWebpage w title options s))
        = translators s)
  /\ (forall args,
        translators (state_of (saveAsWebpage w args s)) = translators s).
Proof.
  split; [ | split ].
  - intros tID options. apply onTranslate_keeps_translators.
  - intros title options. apply onSaveAsWebpage_keeps_translators.
  - intro args. apply (saveAsWebpage_keeps_translators w args). reflexivity.
Qed.

(** [findIndex] finds the first element that satisfies the test, or
    nothing. *)
Lemma findIndex_none {A} (p : A -> bool) (l : list A) :
  findIndex p l = None <-> forall x, In x l -> p x = false.
Proof.
  induction l as [ | a l IH ]; simpl.
  - split; [ intros _ x [] | reflexivity ].
  - destruct (p a) eqn:Ha.
    + split; [ discriminate | ].
      intro H. rewrite (H a (or_introl eq_refl)) in Ha. discriminate.
    + destruct (findIndex p l) as [i | ].
      * split; [ discriminate | ].
        intro H. assert (Hi : Some i = None); [ | discriminate Hi ].
        apply IH. intros x Hx. apply H. right. exact Hx.
      * split; [ | reflexivity ].
        intros _ x [<- | Hx]; [ exact Ha | ].
        apply IH; [ reflexivity | exact Hx ].
Qed.

Lemma findIndex_first {A} (p : A -> bool) (l : list A) (n : nat) :
  findIndex p l = Some n ->
  exists before x after,
    l = (before ++ x :: after)%list
    /\ length before = n
    /\ p x = true
    /\ forall y, In y before -> p y = false.
Proof.
  revert n. induction l as [ | a l IH ]; simpl; intros n Hfound.
  - discriminate.
  - destruct (p a) eqn:Ha.
    + injection Hfound as <-. exists [], a, l.
      repeat split; [ exact Ha | intros y [] ].
    + destruct (findIndex p l) as [i | ]; [ | discriminate ].
      injection Hfound as <-.
      destruct (IH i eq_refl) as (before & x & after & -> & Hlen & Hx & Hbefore).
      exists (a :: before), x, after. simpl.
      repeat split; [ congruence | exact Hx | ].
      intros y [<- | Hy]; [ exact Ha | apply Hbefore, Hy ].
Qed.

(** A translator ID that is not in the list: [translators[-1]] is
    [undefined], and reading its [itemType] throws.  The click is checked
    with the server and then fails; no session is created and nothing is sent
    to the progress window. *)
Theorem onTranslate_unknown_translator (w : World) (tID : string)
    (options : Options) (s : PageSaving) :
  checkActionToServer w = true ->
  (forall t, In t (translators s) -> translatorID t <> tID) ->
  (exists e, outcome_of (onTranslate w tID options s) = Throw e)
  /\ state_of (onTranslate w tID options s) = s
  /\ trace_of (onTranslate w tID options s) = [ Inject_checkActionToServer ].
Proof.
  intros Hcheck Hunknown.
  assert (Hnone :
    findIndex (fun t => String.eqb (translatorID t) tID) (translators s) = None).
  { apply findIndex_none. intros t Ht. apply String.eqb_neq.
    apply Hunknown, Ht. }
  assert (Hrun :
    onTranslate w tID options s
    = (Throw (TypeError "translator is undefined"), s,
       [ Inject_checkActionToServer ])).
  { unfold onTranslate, bind at 1, await. rewrite Hcheck. simpl.
    unfold bind at 1, get. simpl. rewrite Hnone. reflexivity. }
  rewrite Hrun.
  split; [ eexists; reflexivity | split; reflexivity ].
Qed.

Lemma onTranslate_unknown_translator_witness :
  (exists e,
     outcome_of
       (onTranslate Pages.article "no-such-translator" no_options
          Examples.saved_once) = Throw e)
  /\ state_of
       (onTranslate Pages.article "no-such-translator" no_options
          Examples.saved_once) = Examples.saved_once
  /\ trace_of
       (onTranslate Pages.article "no-such-translator" no_options
          Examples.saved_once) = [ Inject_checkActionToServer ].
Proof.
  apply (onTranslate_unknown_translator Pages.article "no-such-translator"
           no_options Examples.saved_once).
  - reflexivity.
  - intros t [<- | [<- | []]]; discriminate.
Defined.

Lemma trace_bind_return {A B} (m : M A) (k : A -> M B) (s s1 : PageSaving)
    (a : A) (t1 : list Event) :
  m s = (Return a, s1, t1) ->
  trace_of (bind m k s) = (t1 ++ trace_of (k a s1))%list.
Proof.
  intro Hm. unfold bind, trace_of. rewrite Hm.
  destruct (k a s1) as [[r s2] t2]. reflexivity.
Qed.

Lemma trace_bind_get {A} (k : PageSaving -> M A) (s : PageSaving) :
  trace_of (bind get k s) = trace_of (k s s).
Proof.
  unfold bind, get, trace_of. destruct (k s s) as [[r s2] t2]. reflexivity.
Qed.

Lemma _initTranslate_created (w : World) (itemType : option string)
    (s : PageSaving) :
  translate_is_created w ->
  exists t1, _initTranslate w itemType s = (Return tt, s, t1).
Proof.
  intro Hcreated. unfold translate_is_created in Hcreated.
  unfold _initTranslate, try_catch, bind, await, emit, ret.
  destruct (isManifestV3 w); [ rewrite (Hcreated eq_refl) | ]; simpl;
    eexists; reflexivity.
Qed.

Lemma translateAndSave_offers (w : World) (sessionID : string)
    (ts : list Translator) (s : PageSaving) :
  translate_is_created w ->
  In (TranslateWeb_translate ts) (trace_of (translateAndSave w sessionID ts s)).
Proof.
  intro Hcreated.
  destruct (_initTranslate_created w None s Hcreated) as [t1 Hinit].
  unfold translateAndSave.
  rewrite (trace_bind_return _ _ s s tt t1 Hinit).
  rewrite trace_bind_get, trace_bind_emit.
  apply in_or_app. right. left. reflexivity.
Qed.

(** [onTranslate] runs the first translator of the list with the requested
    ID.  Without [fallbackOnFailure] the translation is offered that
    translator alone; with it, that translator and all that follow it in the
    list, in their order. *)
Theorem onTranslate_offers_translators (w : World) (tID : string)
    (options : Options) (s : PageSaving) (translator : Translator) :
  checkActionToServer w = true ->
  translate_is_created w ->
  index (translators s)
    (findIndex (fun t => String.eqb (translatorID t) tID) (translators s))
  = Some translator ->
  _shouldReopenProgressWindow w s tID options (Some (itemType translator))
  = false ->
  exists before after,
    translators s = (before ++ translator :: after)%list
    /\ (forall t, In t before -> translatorID t <> tID)
    /\ translatorID translator = tID
    /\ In (TranslateWeb_translate
             (if fallbackOnFailure options then translator :: after
              else [ translator ]))
          (trace_of (onTranslate w tID options s)).
Proof.
  intros Hcheck Hcreated Hfound Hnew.
  destruct (findIndex (fun t => String.eqb (translatorID t) tID) (translators s))
    as [n | ] eqn:Hindex; [ | discriminate Hfound ].
  destruct (findIndex_first _ _ _ Hindex)
    as (before & x & after & Hlist & Hlen & Hx & Hbefore).
  simpl in Hfound. rewrite Hlist in Hfound.
  rewrite nth_error_app2 in Hfound by (rewrite Hlen; apply le_n).
  rewrite Hlen, PeanoNat.Nat.sub_diag in Hfound. simpl in Hfound.
  injection Hfound as ->.
  exists before, after.
  split; [ exact Hlist | ].
  split; [ intros t Ht; apply String.eqb_neq, Hbefore, Ht | ].
  split; [ apply String.eqb_eq, Hx | ].
  assert (Hselected :
    selected_translators (translators s) (Some n) options
    = if fallbackOnFailure options then translator :: after
      else [ translator ]).
  { unfold selected_translators, slice_from. rewrite Hlist, <- Hlen.
    rewrite skipn_app, skipn_all, PeanoNat.Nat.sub_diag. simpl.
    destruct (fallbackOnFailure options); reflexivity. }
  assert (Hfound :
    index (translators s)
      (findIndex (fun t => String.eqb (translatorID t) tID) (translators s))
    = Some translator).
  { rewrite Hindex. simpl. rewrite Hlist.
    rewrite nth_error_app2 by (rewrite Hlen; apply le_n).
    rewrite Hlen, PeanoNat.Nat.sub_diag. reflexivity. }
  rewrite (onTranslate_run w tID options s translator Hcheck Hfound), Hnew.
  rewrite Hindex, onTranslate_save_run. cbv zeta.
  change (translators (with_session s (created_session w tID options)))
    with (translators s).
  rewrite Hselected.
  pose proof (translateAndSave_offers w (randomString w)
                (if fallbackOnFailure options then translator :: after
                 else [ translator ])
                (with_session s (created_session w tID options)) Hcreated)
    as Hoffered.
  unfold after_event.
  destruct (outcome_of (translateAndSave w _ _ _)); unfold trace_of at 1; simpl;
    right; right; apply in_or_app; left; exact Hoffered.
Qed.

Lemma onTranslate_offers_translators_witness :
  exists before after,
    translators Examples.detected_only
    = (before ++ Examples.scholar :: after)%list
    /\ (forall t, In t before ->
        translatorID t <> translatorID Examples.scholar)
    /\ translatorID Examples.scholar = translatorID Examples.scholar
    /\ In (TranslateWeb_translate
             (if fallbackOnFailure Examples.fallback_options
              then Examples.scholar :: after
              else [ Examples.scholar ]))
          (trace_of
             (onTranslate Pages.article (translatorID Examples.scholar)
                Examples.fallback_options Examples.detected_only)).
Proof.
  apply (onTranslate_offers_translators Pages.article
           (translatorID Examples.scholar) Examples.fallback_options
           Examples.detected_only Examples.scholar).
  - reflexivity.
  - intro Hv3. discriminate Hv3.
  - reflexivity.
  - reflexivity.
Defined.

(** [saveAsWebpage] returns the client's answer or [undefined], never what
    the translation returned. *)
Lemma saveAsWebpage_returns (w : World) (args : SaveAsWebpageArgs)
    (s : PageSaving) (items : JSVal) :
  outcome_of (saveAsWebpage w args s) <> Return (RetExternal items).
Proof.
  assert (Hfinish :
    finishes s (saveAsWebpage w args)
      (fun o _ =>
         match o with
         | Return (RetExternal _) => False
         | _ => True
         end)).
  { unfold saveAsWebpage, saveAsWebpage_try, saveAsWebpage_catch.
    repeat first [ finishes_step | reflexivity | exact I ]. }
  unfold finishes in Hfinish. intro Hout. rewrite Hout in Hfinish.
  exact Hfinish.
Qed.

(** The session that a click on a translator leaves behind, by what the
    click returned. *)
Lemma onTranslate_session_after (w : World) (tID : string) (options : Options)
    (s : PageSaving) (translator : Translator) :
  checkActionToServer w = true ->
  index (translators s)
    (findIndex (fun t => String.eqb (translatorID t) tID) (translators s))
  = Some translator ->
  (forall items,
     outcome_of (onTranslate w tID options s) = Return (RetExternal items) ->
     sessionDetails (state_of (onTranslate w tID options s))
     = created_session w tID options)
  /\ (forall r,
        outcome_of (onTranslate w tID options s) = Return (RetSnapshot r) ->
        sessionDetails (state_of (onTranslate w tID options s))
        = {| sd_id := Some (randomString w);
             sd_url := Some (location_href w);
             sd_translatorID := Some "webpageWithSnapshot";
             sd_saveOptions := Some options |}).
Proof.
  intros Hcheck Hfound.
  rewrite (onTranslate_run w tID options s translator Hcheck Hfound).
  destruct (_shouldReopenProgressWindow w s tID options _);
    [ split; intros x H; discriminate H | ].
  rewrite onTranslate_save_run. cbv zeta.
  change (translators (with_session s (created_session w tID options)))
    with (translators s).
  destruct (outcome_of (translateAndSave w _ _ _)) as [saved | e].
  - split; [ reflexivity | intros r H; discriminate H ].
  - unfold onTranslate_catch_run.
    destruct (negb (String.eqb (itemType translator) "multiple")
              && fallbackOnFailure options).
    + change (translators (with_session s (created_session w tID options)))
        with (translators s).
      destruct (at_last (translators s)) as [last | ];
        [ | split; intros x H; discriminate H ].
      unfold after_event, outcome_of at 1 3, state_of at 1 3. simpl.
      unfold outcome_of at 1 3, state_of at 1 3. simpl.
      split.
      * intros items H. contradiction (saveAsWebpage_returns _ _ _ _ H).
      * intros r Hreturned.
        destruct (saveAsWebpage_on_return w
                    {| arg_sessionID := Some (randomString w);
                       arg_title := None;
                       arg_snapshot := Some true |}
                    (with_session s (created_session w tID options))
                    (with_session s (created_session w tID options))
                    (RetSnapshot r) eq_refl Hreturned r eq_refl)
          as (sessionID & Hid & Hstored).
        injection Hid as <-. exact Hstored.
    + rewrite onTranslate_failed_run.
      split; intros x H; discriminate H.
Qed.

(** After a translator has saved the page, a second click on it reopens the
    progress window of that save, unless the click carries a note or asks for
    a resave: then, and only then, the page is saved again. *)
Theorem second_click_reopens (w w' : World) (tID : string)
    (options options' : Options) (s : PageSaving) (translator : Translator)
    (items : JSVal) :
  checkActionToServer w = true ->
  checkActionToServer w' = true ->
  location_href w' = location_href w ->
  randomString w <> "" ->
  index (translators s)
    (findIndex (fun t => String.eqb (translatorID t) tID) (translators s))
  = Some translator ->
  itemType translator <> "multiple" ->
  outcome_of (onTranslate w tID options s) = Return (RetExternal items) ->
  let s1 := state_of (onTranslate w tID options s) in
  sd_id (sessionDetails s1) = Some (randomString w)
  /\ (onTranslate w' tID options' s1 = reopened s1
      <-> truthy_opt_string (note options') = false
          /\ resave options' = false).
Proof.
  intros Hcheck Hcheck' Hsame Hid Hfound Hsingle Hsaved s1.
  assert (Hsession : sessionDetails s1 = created_session w tID options).
  { exact (proj1 (onTranslate_session_after w tID options s translator
                    Hcheck Hfound) items Hsaved). }
  assert (Hlist : translators s1 = translators s).
  { apply onTranslate_keeps_translators. }
  split; [ rewrite Hsession; reflexivity | ].
  assert (Hfound' :
    index (translators s1)
      (findIndex (fun t => String.eqb (translatorID t) tID) (translators s1))
    = Some translator) by (rewrite Hlist; exact Hfound).
  rewrite (onTranslate_run w' tID options' s1 translator Hcheck' Hfound').
  assert (Hreopen :
    _shouldReopenProgressWindow w' s1 tID options' (Some (itemType translator))
    = negb (truthy_opt_string (note options')) && negb (resave options')).
  { unfold _shouldReopenProgressWindow. rewrite Hsession, Hsame. simpl.
    unfold truthy_string.
    apply String.eqb_neq in Hid. rewrite Hid.
    apply String.eqb_neq in Hsingle. rewrite Hsingle.
    rewrite !String.eqb_refl. reflexivity. }
  rewrite Hreopen.
  destruct (truthy_opt_string (note options')), (resave options'); simpl.
  all: try (split; [ | intros [H1 H2]; discriminate ]; intro Hrun; exfalso;
            destruct (onTranslate_save_first_event w' options'
                        (findIndex (fun t => String.eqb (translatorID t) tID)
                           (translators s1))
                        translator (randomString w')
                        (with_session s1 (created_session w' tID options')))
              as (delay & rest & Htrace);
            unfold after_event, reopened in Hrun; rewrite Htrace in Hrun;
            discriminate Hrun).
  split; [ intros _; split; reflexivity | reflexivity ].
Qed.

Lemma second_click_reopens_witness :
  sd_id
    (sessionDetails
       (state_of
          (onTranslate Pages.two_books (translatorID Examples.scholar)
             no_options Examples.detected_only)))
  = Some (randomString Pages.two_books)
  /\ onTranslate Pages.article (translatorID Examples.scholar) no_options
       (state_of
          (onTranslate Pages.two_books (translatorID Examples.scholar)
             no_options Examples.detected_only))
     = reopened
         (state_of
            (onTranslate Pages.two_books (translatorID Examples.scholar)
               no_options Examples.detected_only)).
Proof.
  destruct (second_click_reopens Pages.two_books Pages.article
              (translatorID Examples.scholar) no_options no_options
              Examples.detected_only Examples.scholar (JStr "saved"))
    as [Hid Hreopens].
  - reflexivity.
  - reflexivity.
  - reflexivity.
  - discriminate.
  - reflexivity.
  - discriminate.
  - reflexivity.
  - split; [ exact Hid | ].
    apply Hreopens. split; reflexivity.
Defined.

(** After the fallback to "Save as Webpage" has saved the page, the session
    is filed under 'webpageWithSnapshot': a second click on the translator
    does not reopen the progress window but runs the translator again under a
    new session, while "Save as Webpage" with a snapshot reopens it. *)
Theorem click_after_fallback (w w' : World) (tID : string)
    (options options' : Options) (s : PageSaving) (translator : Translator)
    (r : option SaveResult) :
  checkActionToServer w = true ->
  checkActionToServer w' = true ->
  location_href w' = location_href w ->
  randomString w <> "" ->
  index (translators s)
    (findIndex (fun t => String.eqb (translatorID t) tID) (translators s))
  = Some translator ->
  tID <> "webpageWithSnapshot" ->
  outcome_of (onTranslate w tID options s) = Return (RetSnapshot r) ->
  let s1 := state_of (onTranslate w tID options s) in
  onTranslate w' tID options' s1
  = after_event Inject_checkActionToServer
      (onTranslate_save w' options'
         (findIndex (fun t => String.eqb (translatorID t) tID) (translators s))
         translator (randomString w')
         (with_session s1 (created_session w' tID options')))
  /\ (snapshot options' = Some true ->
      truthy_opt_string (note options') = false ->
      resave options' = false ->
      forall title, onSaveAsWebpage w' title options' s1 = reopened s1).
Proof.
  intros Hcheck Hcheck' Hsame Hid Hfound Hother Hsaved s1.
  assert (Hsession :
    sessionDetails s1
    = {| sd_id := Some (randomString w);
         sd_url := Some (location_href w);
         sd_translatorID := Some "webpageWithSnapshot";
         sd_saveOptions := Some options |}).
  { exact (proj2 (onTranslate_session_after w tID options s translator
                    Hcheck Hfound) r Hsaved). }
  assert (Hlist : translators s1 = translators s).
  { apply onTranslate_keeps_translators. }
  split.
  - assert (Hfound' :
      index (translators s1)
        (findIndex (fun t => String.eqb (translatorID t) tID) (translators s1))
      = Some translator) by (rewrite Hlist; exact Hfound).
    rewrite (onTranslate_run w' tID options' s1 translator Hcheck' Hfound').
    assert (Hreopen :
      _shouldReopenProgressWindow w' s1 tID options'
        (Some (itemType translator)) = false).
    { unfold _shouldReopenProgressWindow. rewrite Hsession. simpl.
      apply String.eqb_neq in Hother. rewrite Hother.
      rewrite andb_false_r. reflexivity. }
    rewrite Hreopen, Hlist. reflexivity.
  - intros Hsnapshot Hnote Hresave title.
    rewrite (onSaveAsWebpage_run w' title options' s1 Hcheck'). cbv zeta.
    assert (Hreopen :
      _shouldReopenProgressWindow w' s1
        (webpage_translatorID (truthy_opt_bool (snapshot options')))
        options' None = true).
    { unfold _shouldReopenProgressWindow.
      rewrite Hsession, Hsame, Hsnapshot, Hnote, Hresave. simpl.
      unfold truthy_string.
      apply String.eqb_neq in Hid. rewrite Hid.
      rewrite String.eqb_refl. reflexivity. }
    rewrite Hreopen. reflexivity.
Qed.

Lemma click_after_fallback_witness :
  onTranslate Pages.article (translatorID Examples.scholar) no_options
    (state_of
       (onTranslate Pages.untranslatable (translatorID Examples.scholar)
          Examples.fallback_options Examples.detected_only))
  = after_event Inject_checkActionToServer
      (onTranslate_save Pages.article no_options
         (findIndex
            (fun t => String.eqb (translatorID t)
                        (translatorID Examples.scholar))
            (translators Examples.detected_only))
         Examples.scholar (randomString Pages.article)
         (with_session
            (state_of
               (onTranslate Pages.untranslatable
                  (translatorID Examples.scholar)
                  Examples.fallback_options Examples.detected_only))
            (created_session Pages.article (translatorID Examples.scholar)
               no_options))).
Proof.
  apply (click_after_fallback Pages.untranslatable Pages.article
           (translatorID Examples.scholar) Examples.fallback_options
           no_options Examples.detected_only Examples.scholar None).
  - reflexivity.
  - reflexivity.
  - reflexivity.
  - discriminate.
  - reflexivity.
  - discriminate.
  - reflexivity.
Defined.

(** A second "Save as Webpage" on a page that the client has saved reopens
    the progress window only if it asks for the kind of save that was stored.
    [saveAsWebpage] takes a snapshot unless told otherwise and stores
    'webpageWithSnapshot' then, whereas [onSaveAsWebpage] asks for 'webpage'
    unless [options.snapshot] is truthy: a repeated click with the same
    options reopens the window when the options say whether to take a
    snapshot, and saves the page again when they do not. *)
Theorem save_as_webpage_again (w w' : World) (title title' : option string)
    (options options' : Options) (s : PageSaving) (r : option SaveResult) :
  checkActionToServer w = true ->
  checkActionToServer w' = true ->
  location_href w' = location_href w ->
  randomString w <> "" ->
  outcome_of (onSaveAsWebpage w title options s) = Return (RetSnapshot r) ->
  truthy_opt_string (note options') = false ->
  resave options' = false ->
  let s1 := state_of (onSaveAsWebpage w title options s) in
  (onSaveAsWebpage w' title' options' s1 = reopened s1
   <-> truthy_opt_bool (snapshot options')
       = match snapshot options with
         | Some b => b
         | None => true
         end)
  /\ (options' = options ->
      (onSaveAsWebpage w' title' options' s1 = reopened s1
       <-> snapshot options <> None)).
Proof.
  intros Hcheck Hcheck' Hsame Hid Hsaved Hnote Hresave s1.
  assert (Hsession :
    sessionDetails s1
    = {| sd_id := Some (randomString w);
         sd_url := Some (location_href w);
         sd_translatorID :=
           Some (webpage_translatorID
                   (match snapshot options with
                    | Some b => b
                    | None => true
                    end));
         sd_saveOptions := Some options |}).
  { subst s1. revert Hsaved.
    rewrite (onSaveAsWebpage_run w title options s Hcheck). cbv zeta.
    destruct (_shouldReopenProgressWindow w s _ options None);
      [ intro H; discriminate H | ].
    unfold after_event, outcome_of at 1, state_of at 1. simpl.
    unfold outcome_of at 1, state_of at 1. simpl.
    intro Hreturned.
    destruct (saveAsWebpage_on_return w _ _ _ (RetSnapshot r) eq_refl
                Hreturned r eq_refl) as (sessionID & Hsid & Hstored).
    simpl in Hsid. injection Hsid as <-. exact Hstored. }
  assert (Hreopen :
    _shouldReopenProgressWindow w' s1
      (webpage_translatorID (truthy_opt_bool (snapshot options')))
      options' None
    = Bool.eqb (truthy_opt_bool (snapshot options'))
        (match snapshot options with
         | Some b => b
         | None => true
         end)).
  { unfold _shouldReopenProgressWindow.
    rewrite Hsession, Hsame, Hnote, Hresave. simpl.
    unfold truthy_string.
    apply String.eqb_neq in Hid. rewrite Hid.
    rewrite String.eqb_refl. simpl. rewrite !andb_true_r.
    destruct (truthy_opt_bool (snapshot options')),
      (match snapshot options with Some b => b | None => true end);
      reflexivity. }
  assert (Hrun :
    onSaveAsWebpage w' title' options' s1 = reopened s1
    <-> truthy_opt_bool (snapshot options')
        = match snapshot options with
          | Some b => b
          | None => true
          end).
  { rewrite (onSaveAsWebpage_run w' title' options' s1 Hcheck'). cbv zeta.
    rewrite Hreopen, <- Bool.eqb_true_iff.
    destruct (Bool.eqb _ _).
    - split; reflexivity.
    - split; [ | discriminate ].
      intro Hbare. exfalso.
      unfold after_event, reopened in Hbare.
      injection Hbare as Hout Hstate Htrace.
      eapply saveAsWebpage_is_not_reopen.
      rewrite (surjective_pairing (saveAsWebpage _ _ _)).
      rewrite (surjective_pairing (fst (saveAsWebpage _ _ _))).
      unfold outcome_of, state_of, trace_of in *.
      rewrite Hout, Htrace. reflexivity. }
  split; [ exact Hrun | ].
  intros ->. rewrite Hrun.
  destruct (snapshot options) as [[ | ] | ]; simpl.
  - split; [ discriminate | reflexivity ].
  - split; [ discriminate | reflexivity ].
  - split; [ discriminate | intro H; contradiction H; reflexivity ].
Qed.

Lemma save_as_webpage_again_witness :
  (onSaveAsWebpage Pages.article None no_options
     (state_of
        (onSaveAsWebpage Pages.article None no_options Examples.detected_only))
   = reopened
       (state_of
          (onSaveAsWebpage Pages.article None no_options
             Examples.detected_only))
   <-> snapshot no_options <> None).
Proof.
  destruct (save_as_webpage_again Pages.article Pages.article None None
              no_options no_options Examples.detected_only None)
    as [_ Hsame].
  - reflexivity.
  - reflexivity.
  - reflexivity.
  - discriminate.
  - reflexivity.
  - reflexivity.
  - reflexivity.
  - apply Hsame. reflexivity.
Defined.

(** ** A page load between two clicks *)

Lemma onPageLoad_session_after (w : World) (force : bool) (s : PageSaving) :
  location_href w <> "about:blank" ->
  sessionDetails (state_of (onPageLoad w force s)) = empty_session.
Proof.
  intro Hpage. apply String.eqb_neq in Hpage.
  unfold onPageLoad. rewrite Hpage, bind_set_sessionDetails.
  apply (@preserves_bind (Outcome Ret) Ret
           (fun s => sessionDetails s = empty_session)).
  - apply preserves_try_catch.
    + repeat first
        [ apply (onPageLoad_detect_preserves w (fun sd => sd = empty_session))
        | apply (preserves_set_translators (fun sd => sd = empty_session))
        | preserves_step ].
    + intro e. repeat preserves_step.
  - intro returned. repeat preserves_step.
  - reflexivity.
Qed.

(** Once a page load has been handled, no click reopens the progress window
    of an earlier save: a click on a translator of the list runs that
    translator, and "Save as Webpage" saves the page, each under a new
    session. *)
Theorem click_after_page_load_saves_again (w0 w : World) (force : bool)
    (s : PageSaving) :
  location_href w0 <> "about:blank" ->
  checkActionToServer w = true ->
  let s1 := state_of (onPageLoad w0 force s) in
  (forall tID options translator,
     index (translators s1)
       (findIndex (fun t => String.eqb (translatorID t) tID) (translators s1))
     = Some translator ->
     onTranslate w tID options s1
     = after_event Inject_checkActionToServer
         (onTranslate_save w options
            (findIndex (fun t => String.eqb (translatorID t) tID)
               (translators s1))
            translator (randomString w)
            (with_session s1 (created_session w tID options))))
  /\ (forall title options,
        onSaveAsWebpage w title options s1
        = after_event Inject_checkActionToServer
            (saveAsWebpage w
               {| arg_sessionID := Some (randomString w);
                  arg_title :=
                    Some (match title with
                          | Some t => t
                          | None => document_title w
                          end);
                  arg_snapshot := snapshot options |}
               (with_session s1
                  (created_session w
                     (webpage_translatorID (truthy_opt_bool (snapshot options)))
                     options)))).
Proof.
  intros Hpage Hcheck s1.
  assert (Hnew : forall tID options itemType,
    _shouldReopenProgressWindow w s1 tID options itemType = false).
  { intros tID options itemType. unfold _shouldReopenProgressWindow.
    subst s1. rewrite (onPageLoad_session_after w0 force s Hpage).
    reflexivity. }
  split.
  - intros tID options translator Hfound.
    rewrite (onTranslate_run w tID options s1 translator Hcheck Hfound), Hnew.
    reflexivity.
  - intros title options.
    rewrite (onSaveAsWebpage_run w title options s1 Hcheck). cbv zeta.
    rewrite Hnew. reflexivity.
Qed.

Lemma click_after_page_load_saves_again_witness :
  onSaveAsWebpage Pages.article None no_options
    (state_of (onPageLoad Pages.article false Examples.saved_once))
  = after_event Inject_checkActionToServer
      (saveAsWebpage Pages.article
         {| arg_sessionID := Some (randomString Pages.article);
            arg_title := Some (document_title Pages.article);
            arg_snapshot := snapshot no_options |}
         (with_session
            (state_of (onPageLoad Pages.article false Examples.saved_once))
            (created_session Pages.article
               (webpage_translatorID (truthy_opt_bool (snapshot no_options)))
               no_options))).
Proof.
  assert (Hpage : location_href Pages.article <> "about:blank")
    by discriminate.
  exact (proj2 (click_after_page_load_saves_again Pages.article Pages.article
                  false Examples.saved_once Hpage eq_refl) None no_options).
Defined.

(** ** The status code of a failure *)

Lemma strip_prefix_here (prefix rest : string) :
  strip_prefix prefix (prefix ++ rest) = Some rest.
Proof.
  induction prefix as [ | p prefix IH ]; simpl.
  - reflexivity.
  - rewrite Ascii.eqb_refl. exact IH.
Qed.

Lemma status_code_here_iff (s code : string) :
  status_code_here s = Some code
  <-> exists a b c after,
        is_digit a && is_digit b && is_digit c = true
        /\ code = String a (String b (String c ""))
        /\ s = "status code " ++ String a (String b (String c after)).
Proof.
  unfold status_code_here. split.
  - destruct (strip_prefix "status code " s) as [rest | ] eqn:Hpre;
      [ | discriminate ].
    apply strip_prefix_app in Hpre. subst s.
    unfold three_digits.
    destruct rest as [ | a [ | b [ | c after ] ] ]; try discriminate.
    destruct (is_digit a && is_digit b && is_digit c) eqn:Hdigits;
      [ | discriminate ].
    intro H. injection H as <-.
    exists a, b, c, after.
    split; [ exact Hdigits | split; reflexivity ].
  - intros (a & b & c & after & Hdigits & -> & ->).
    rewrite strip_prefix_here. unfold three_digits. rewrite Hdigits.
    reflexivity.
Qed.

Lemma match_status_code_none (msg : string) :
  match_status_code msg = None
  <-> forall before rest, msg = before ++ rest -> status_code_here rest = None.
Proof.
  induction msg as [ | ch msg IH ]; rewrite match_status_code_unfold.
  - split.
    + intros _ before rest Hsplit.
      destruct before; [ | discriminate Hsplit ].
      simpl in Hsplit. subst rest. reflexivity.
    + intro H. rewrite (H "" "" eq_refl). reflexivity.
  - split.
    + destruct (status_code_here (String ch msg)) as [code | ] eqn:Hhere;
        [ discriminate | ].
      intros Hrest before rest Hsplit.
      destruct before as [ | b before ]; simpl in Hsplit.
      * subst rest. exact Hhere.
      * injection Hsplit as _ Hsplit.
        exact (proj1 IH Hrest before rest Hsplit).
    + intro H. rewrite (H "" (String ch msg) eq_refl).
      apply IH. intros before rest Hsplit.
      apply (H (String ch before) rest). simpl. rewrite Hsplit. reflexivity.
Qed.

(** [statusCode] is what the pattern [/status code ([0-9]{3})/] captures:
    it stays empty exactly when the message of the error nowhere has the
    words "status code " followed by three digits, and otherwise it is three
    digits that stand after those words in the message. *)
Theorem statusCode_of_message (errorMessage : string) :
  (statusCode_of errorMessage = ""
   <-> ~ exists before a b c after,
           is_digit a && is_digit b && is_digit c = true
           /\ errorMessage
              = before ++ "status code " ++ String a (String b (String c after)))
  /\ (statusCode_of errorMessage <> "" ->
      exists before a b c after,
        is_digit a && is_digit b && is_digit c = true
        /\ statusCode_of errorMessage = String a (String b (String c ""))
        /\ errorMessage
           = before ++ "status code " ++ String a (String b (String c after))).
Proof.
  assert (Hfound : forall code,
    match_status_code errorMessage = Some code ->
    exists before a b c after,
      is_digit a && is_digit b && is_digit c = true
      /\ code = String a (String b (String c ""))
      /\ errorMessage
         = before ++ "status code " ++ String a (String b (String c after))).
  { induction errorMessage as [ | ch msg IH ]; intro code;
      rewrite match_status_code_unfold.
    - simpl. discriminate.
    - destruct (status_code_here (String ch msg)) as [here | ] eqn:Hhere.
      + intro H. injection H as ->.
        destruct (proj1 (status_code_here_iff _ _) Hhere)
          as (a & b & c & after & Hdigits & Hcode & Hmsg).
        exists "", a, b, c, after.
        split; [ exact Hdigits | split; [ exact Hcode | exact Hmsg ] ].
      + intro H.
        destruct (IH code H) as (before & a & b & c & after & Hd & Hc & Hm).
        exists (String ch before), a, b, c, after.
        split; [ exact Hd | split; [ exact Hc | ] ].
        simpl. rewrite Hm. reflexivity. }
  unfold statusCode_of.
  destruct (match_status_code errorMessage) as [code | ] eqn:Hmatch.
  - destruct (Hfound code eq_refl)
      as (before & a & b & c & after & Hdigits & Hcode & Hmsg).
    split.
    + split.
      * intro Hempty. rewrite Hcode in Hempty. discriminate Hempty.
      * intro Hnone. contradiction Hnone.
        exists before, a, b, c, after. split; assumption.
    + intros _. exists before, a, b, c, after.
      split; [ exact Hdigits | split; [ exact Hcode | exact Hmsg ] ].
  - split.
    + split; [ | reflexivity ].
      intros _ (before & a & b & c & after & Hdigits & Hmsg).
      pose proof (proj1 (match_status_code_none errorMessage) Hmatch
                    before _ Hmsg) as Hhere.
      assert (Hsome :
        status_code_here
          ("status code " ++ String a (String b (String c after)))
        = Some (String a (String b (String c "")))).
      { apply status_code_here_iff. exists a, b, c, after.
        split; [ exact Hdigits | split; reflexivity ]. }
      rewrite Hsome in Hhere. discriminate Hhere.
    + intro H. contradiction H. reflexivity.
Qed.

Lemma statusCode_of_message_witness :
  exists before a b c after,
    is_digit a && is_digit b && is_digit c = true
    /\ statusCode_of "Error: request failed with status code 429"
       = String a (String b (String c ""))
    /\ "Error: request failed with status code 429"
       = before ++ "status code " ++ String a (String b (String c after)).
Proof.
  apply (proj2 (statusCode_of_message
                  "Error: request failed with status code 429")).
  discriminate.
Defined.

(** ** Attachments in the progress window *)

(** The icon and the type shown for an attachment agree.  A linked URL gets
    the link icon and the link type whatever its content type is.  Otherwise
    the content type decides, and the MIME type only when the content type
    is missing or empty: a PDF gets the PDF icon and type, every other
    attachment the snapshot icon, with the type of an EPUB, of a snapshot
    (HTML) or, for the rest, which includes an attachment with neither
    content type nor MIME type, of a plain attachment.  Every attachment
    falls under one of these cases. *)
Theorem attachment_icon_and_type (w : World) (attachment : Attachment) :
  (att_linkMode attachment = Some "linked_url" ->
   determineAttachmentIcon w attachment = getImageSrc w "attachment-web-link"
   /\ determineAttachmentType w attachment = getString w "itemType_link")
  /\ (att_linkMode attachment <> Some "linked_url" ->
      forall contentType : option string,
        (exists given,
           att_contentType attachment = Some given /\ given <> ""
           /\ contentType = Some given)
        \/ ((att_contentType attachment = None
             \/ att_contentType attachment = Some "")
            /\ contentType = att_mimeType attachment) ->
        determineAttachmentIcon w attachment
        = getImageSrc w
            (if opt_string_eqb contentType "application/pdf"
             then "attachment-pdf" else "attachment-snapshot")
        /\ determineAttachmentType w attachment
           = getString w
               (if opt_string_eqb contentType "application/pdf"
                then "itemType_pdf"
                else if opt_string_eqb contentType "application/epub+zip"
                then "itemType_epub"
                else if opt_string_eqb contentType "text/html"
                then "itemType_snapshot"
                else "itemType_attachment"))
  /\ (att_linkMode attachment = Some "linked_url"
      \/ att_linkMode attachment <> Some "linked_url"
         /\ exists contentType : option string,
              (exists given,
                 att_contentType attachment = Some given /\ given <> ""
                 /\ contentType = Some given)
              \/ ((att_contentType attachment = None
                   \/ att_contentType attachment = Some "")
                  /\ contentType = att_mimeType attachment)).
Proof.
  unfold determineAttachmentIcon, determineAttachmentType.
  split; [ | split ].
  - intros ->. simpl. split; reflexivity.
  - intros Hmode contentType Hcontent.
    assert (Hlinked :
      opt_string_eqb (att_linkMode attachment) "linked_url" = false).
    { destruct (att_linkMode attachment) as [mode | ]; [ | reflexivity ].
      simpl. apply String.eqb_neq. intros ->. apply Hmode. reflexivity. }
    assert (Heffective : contentType_or_mimeType attachment = contentType).
    { unfold contentType_or_mimeType.
      destruct Hcontent as [(given & -> & Hne & ->) | [[-> | ->] ->]]; simpl;
        try reflexivity.
      unfold truthy_string. apply String.eqb_neq in Hne. rewrite Hne.
      reflexivity. }
    rewrite Hlinked, Heffective. cbv zeta.
    destruct (opt_string_eqb contentType "application/pdf");
      [ split; reflexivity | ].
    destruct (opt_string_eqb contentType "application/epub+zip");
      [ split; reflexivity | ].
    destruct (opt_string_eqb contentType "text/html"); split; reflexivity.
  - destruct (att_linkMode attachment) as [mode | ].
    + destruct (String.eqb mode "linked_url") eqn:Hmode.
      * left. apply String.eqb_eq in Hmode. rewrite Hmode. reflexivity.
      * right. apply String.eqb_neq in Hmode.
        split; [ intro H; injection H as H; contradiction | ].
        destruct (att_contentType attachment) as [given | ].
        -- destruct (String.eqb given "") eqn:Hgiven.
           ++ apply String.eqb_eq in Hgiven. subst given.
              exists (att_mimeType attachment). right.
              split; [ right | ]; reflexivity.
           ++ apply String.eqb_neq in Hgiven.
              exists (Some given). left. exists given.
              split; [ reflexivity | split; [ exact Hgiven | reflexivity ] ].
        -- exists (att_mimeType attachment). right.
           split; [ left | ]; reflexivity.
    + right. split; [ discriminate | ].
      destruct (att_contentType attachment) as [given | ].
      * destruct (String.eqb given "") eqn:Hgiven.
        -- apply String.eqb_eq in Hgiven. subst given.
           exists (att_mimeType attachment). right.
           split; [ right | ]; reflexivity.
        -- apply String.eqb_neq in Hgiven.
           exists (Some given). left. exists given.
           split; [ reflexivity | split; [ exact Hgiven | reflexivity ] ].
      * exists (att_mimeType attachment). right.
        split; [ left | ]; reflexivity.
Qed.

Lemma attachment_icon_and_type_witness :
  (determineAttachmentIcon Pages.article
     {| att_id := JStr "A1"; att_linkMode := Some "imported_url";
        att_contentType := Some ""; att_mimeType := Some "application/pdf";
        att_title := "Full Text"; att_parentItem := JStr "B1" |}
   = getImageSrc Pages.article "attachment-pdf"
   /\ determineAttachmentType Pages.article
        {| att_id := JStr "A1"; att_linkMode := Some "imported_url";
           att_contentType := Some ""; att_mimeType := Some "application/pdf";
           att_title := "Full Text"; att_parentItem := JStr "B1" |}
      = getString Pages.article "itemType_pdf")
  /\ (determineAttachmentIcon Pages.article
        {| att_id := JStr "A2"; att_linkMode := None;
           att_contentType := None; att_mimeType := None;
           att_title := "File"; att_parentItem := JStr "B1" |}
      = getImageSrc Pages.article "attachment-snapshot"
      /\ determineAttachmentType Pages.article
           {| att_id := JStr "A2"; att_linkMode := None;
              att_contentType := None; att_mimeType := None;
              att_title := "File"; att_parentItem := JStr "B1" |}
         = getString Pages.article "itemType_attachment").
Proof.
  assert (Hmode : Some "imported_url" <> Some "linked_url") by discriminate.
  assert (Hnone : @None string <> Some "linked_url") by discriminate.
  split.
  - exact (proj1 (proj2 (attachment_icon_and_type Pages.article
                           {| att_id := JStr "A1";
                              att_linkMode := Some "imported_url";
                              att_contentType := Some "";
                              att_mimeType := Some "application/pdf";
                              att_title := "Full Text";
                              att_parentItem := JStr "B1" |}))
             Hmode (Some "application/pdf")
             (or_intror (conj (or_intror eq_refl) eq_refl))).
  - exact (proj1 (proj2 (attachment_icon_and_type Pages.article
                           {| att_id := JStr "A2"; att_linkMode := None;
                              att_contentType := None; att_mimeType := None;
                              att_title := "File";
                              att_parentItem := JStr "B1" |}))
             Hnone None
             (or_intror (conj (or_introl eq_refl) eq_refl))).
Defined.

(** ** The end of a save is reported once *)

Lemma done_messages_app (t1 t2 : list Event) :
  done_messages (t1 ++ t2) = (done_messages t1 ++ done_messages t2)%list.
Proof.
  induction t1 as [ | ev t1 IH ]; [ reflexivity | ].
  destruct ev; simpl; try exact IH.
  destruct (String.eqb name "progressWindow.done"); simpl;
    [ rewrite IH; reflexivity | exact IH ].
Qed.

Lemma done_messages_quiet (trace : list Event) :
  (forall ev, In ev trace -> not_done ev) -> done_messages trace = [].
Proof.
  induction trace as [ | ev rest IH ]; intro Hall; [ reflexivity | ].
  assert (Hrest : done_messages rest = [])
    by (apply IH; intros ev' Hin; apply Hall; right; exact Hin).
  pose proof (Hall ev (or_introl eq_refl)) as Hev.
  destruct ev; simpl in *; try exact Hrest.
  apply String.eqb_neq in Hev. rewrite Hev. exact Hrest.
Qed.

Section ReportLemmas.

Context {A B : Type}.

Lemma reports_ret (a : A) (Q : Outcome A -> list JSVal -> Prop) :
  Q (Return a) [] -> reports (ret a) Q.
Proof. intros H s. exact H. Qed.

Lemma reports_throw (e : JSError) (Q : Outcome A -> list JSVal -> Prop) :
  Q (Throw e) [] -> reports (throw e) Q.
Proof. intros H s. exact H. Qed.

Lemma reports_weaken (m : M A) (Q Q' : Outcome A -> list JSVal -> Prop) :
  reports m Q -> (forall o d, Q o d -> Q' o d) -> reports m Q'.
Proof. intros Hm Himp s. apply Himp, Hm. Qed.

Lemma reports_bind_quiet (m : M A) (k : A -> M B)
    (Q : Outcome B -> list JSVal -> Prop) :
  emits_only not_done m ->
  (forall e, Q (Throw e) []) ->
  (forall a, reports (k a) Q) ->
  reports (bind m k) Q.
Proof.
  intros Hquiet Hthrow Hk s.
  pose proof (done_messages_quiet _ (Hquiet s)) as Hnone.
  unfold bind, outcome_of, trace_of in *.
  destruct (m s) as [[[a | e] s1] t1]; simpl in *.
  - specialize (Hk a s1). unfold outcome_of, trace_of in Hk.
    destruct (k a s1) as [[r s2] t2]; simpl in *.
    rewrite done_messages_app, Hnone. exact Hk.
  - rewrite Hnone. apply Hthrow.
Qed.

Lemma reports_bind_get (k : PageSaving -> M A)
    (Q : Outcome A -> list JSVal -> Prop) :
  (forall this, reports (k this) Q) -> reports (bind get k) Q.
Proof.
  intros Hk s. specialize (Hk s s).
  unfold bind, get, outcome_of, trace_of in *.
  destruct (k s s) as [[r s2] t2]; simpl in *. exact Hk.
Qed.

Lemma reports_bind_ret (a : A) (k : A -> M B)
    (Q : Outcome B -> list JSVal -> Prop) :
  reports (k a) Q -> reports (bind (ret a) k) Q.
Proof.
  intros Hk s. specialize (Hk s).
  unfold bind, ret, outcome_of, trace_of in *.
  destruct (k a s) as [[r s2] t2]; simpl in *. exact Hk.
Qed.

Lemma reports_try_catch (m : M A) (h : JSError -> M A)
    (Q : Outcome A -> list JSVal -> Prop) :
  reports m
    (fun o d =>
       match o with
       | Return a => Q (Return a) d
       | Throw _ => d = []
       end) ->
  (forall e, reports (h e) Q) ->
  reports (try_catch m h) Q.
Proof.
  intros Hm Hh s. specialize (Hm s).
  unfold try_catch, outcome_of, trace_of in *.
  destruct (m s) as [[[a | e] s1] t1]; simpl in *.
  - exact Hm.
  - specialize (Hh e s1). unfold outcome_of, trace_of in Hh.
    destruct (h e s1) as [[r s2] t2]; simpl in *.
    rewrite done_messages_app, Hm. exact Hh.
Qed.

End ReportLemmas.

Lemma reports_bind_emit {A} (ev : Event) (k : unit -> M A)
    (Q : Outcome A -> list JSVal -> Prop) :
  not_done ev -> reports (k tt) Q -> reports (bind (emit ev) k) Q.
Proof.
  intros Hev Hk s. specialize (Hk s).
  unfold bind, emit, outcome_of, trace_of in *.
  destruct (k tt s) as [[r s2] t2]; simpl in *.
  destruct ev; simpl in *; try exact Hk.
  apply String.eqb_neq in Hev. rewrite Hev. exact Hk.
Qed.

Lemma reports_bind_emit_all {A} (evs : list Event) (k : unit -> M A)
    (Q : Outcome A -> list JSVal -> Prop) :
  (forall ev, In ev evs -> not_done ev) ->
  reports (k tt) Q -> reports (bind (emit_all evs) k) Q.
Proof.
  intros Hevs Hk s. specialize (Hk s).
  unfold bind, emit_all, outcome_of, trace_of in *.
  destruct (k tt s) as [[r s2] t2]; simpl in *.
  rewrite done_messages_app, (done_messages_quiet _ Hevs). exact Hk.
Qed.

Lemma reports_bind_done {A} (payload : JSVal) (k : unit -> M A)
    (Q : Outcome A -> list JSVal -> Prop) :
  reports (k tt) (fun o d => Q o (payload :: d)) ->
  reports (bind (emit (sendMessage "progressWindow.done" payload)) k) Q.
Proof.
  intros Hk s. specialize (Hk s).
  unfold bind, emit, outcome_of, trace_of in *.
  destruct (k tt s) as [[r s2] t2]; simpl in *. exact Hk.
Qed.

Lemma reports_bind_set_sessionDetails {A} (sd : SessionDetails)
    (k : unit -> M A) (Q : Outcome A -> list JSVal -> Prop) :
  reports (k tt) Q -> reports (bind (set_sessionDetails sd) k) Q.
Proof.
  intros Hk s. rewrite bind_set_sessionDetails. apply Hk.
Qed.

(** Closes [not_done ev] for an event that is written out. *)
Ltac quiet_event := simpl; first [ exact I | discriminate ].

(** One step of a proof about the [done] messages of a method body. *)
Ltac reports_step :=
  match goal with
  | |- reports (throw _) _ => apply reports_throw
  | |- reports (ret _) _ => apply reports_ret
  | |- reports (try_catch _ _) _ => apply reports_try_catch; [ | intro ]
  | |- reports (bind get _) _ => apply reports_bind_get; intro
  | |- reports (bind (ret _) _) _ => apply reports_bind_ret
  | |- reports (bind (set_sessionDetails _) _) _ =>
      apply reports_bind_set_sessionDetails
  | |- reports (bind (emit (sendMessage "progressWindow.done" _)) _) _ =>
      apply reports_bind_done
  | |- reports (bind (emit _) _) _ =>
      apply reports_bind_emit; [ quiet_event | ]
  | |- reports (bind (if ?b then _ else _) _) _ => destruct b
  | |- reports (bind (match ?x with _ => _ end) _) _ => destruct x
  | |- reports (bind _ _) _ =>
      apply reports_bind_quiet;
      [ solve [ repeat emits_step_by quiet_event ] | intro | intro ]
  | |- reports (if ?b then _ else _) _ => destruct b
  | |- reports (match ?x with _ => _ end) _ => destruct x
  end.

Lemma saveAsWebpage_reports (w : World) (args : SaveAsWebpageArgs) :
  reports (saveAsWebpage w args) saved_or_failed.
Proof.
  unfold saveAsWebpage, saveAsWebpage_try, saveAsWebpage_catch.
  repeat first
    [ reports_step | reflexivity | progress (unfold saved_or_failed); tauto ].
Qed.

Lemma translateAndSave_quiet (w : World) (sessionID : string)
    (ts : list Translator) :
  emits_only not_done (translateAndSave w sessionID ts).
Proof.
  intros s ev Hin.
  pose proof (translateAndSave_sends w sessionID ts s ev Hin) as Hev.
  destruct ev; simpl in *; tauto.
Qed.

(** The end of a save is reported to the progress window at most once.  A
    call of [saveAsWebpage], [onSaveAsWebpage] or [onTranslate] sends at most
    one [progressWindow.done] message; when it returns what was saved, that
    message is [done [true]]; and when it throws, no [done [true]] was
    sent. *)
Theorem done_is_reported_once (w : World) (s : PageSaving) :
  let once (run : Outcome Ret * PageSaving * list Event) :=
    (length (done_messages (trace_of run)) <= 1)%nat
    /\ (forall r, outcome_of run = Return r -> r <> RetUndefined ->
        done_messages (trace_of run) = [ JArr [ JBool true ] ])
    /\ (forall e, outcome_of run = Throw e ->
        ~ In (JArr [ JBool true ]) (done_messages (trace_of run))) in
  (forall args, once (saveAsWebpage w args s))
  /\ (forall title options, once (onSaveAsWebpage w title options s))
  /\ (forall tID options, once (onTranslate w tID options s)).
Proof.
  intro once.
  assert (Hsaved : forall (o : Outcome Ret) d,
    saved_or_failed o d ->
    (length d <= 1)%nat
    /\ (forall r, o = Return r -> r <> RetUndefined -> d = [ JArr [ JBool true ] ])
    /\ (forall e, o = Throw e -> ~ In (JArr [ JBool true ]) d)).
  { intros o d Hd. destruct o as [r | e]; simpl in Hd.
    - subst d. split; [ apply le_n | ].
      split; [ reflexivity | intros e H; discriminate H ].
    - destruct Hd as [-> | [-> | ->]];
        (split; [ simpl; auto | ]);
        (split; [ intros r H; discriminate H | ]);
        intros _ _ Hin; simpl in Hin;
        repeat (destruct Hin as [Hin | Hin]; [ discriminate Hin | ]);
        exact Hin. }
  split; [ | split ].
  - intro args. apply Hsaved, saveAsWebpage_reports.
  - intros title options.
    assert (Hrun :
      reports (onSaveAsWebpage w title options)
        (fun o d => (o = Return RetUndefined /\ d = []) \/ saved_or_failed o d)).
    { unfold onSaveAsWebpage, _initSession.
      repeat first
        [ apply (reports_weaken (saveAsWebpage w _) saved_or_failed);
          [ apply saveAsWebpage_reports | intros o d Hd; right; exact Hd ]
        | reports_step
        | left; split; reflexivity
        | right; left; reflexivity ]. }
    destruct (Hrun s) as [[Hout Hnone] | Hd]; [ | exact (Hsaved _ _ Hd) ].
    unfold once. rewrite Hout, Hnone.
    split; [ apply le_0_n | ].
    split; [ intros r H Hr; injection H as <-; contradiction Hr; reflexivity
           | intros e H; discriminate H ].
  - intros tID options.
    assert (Hrun :
      reports (onTranslate w tID options)
        (fun o d =>
           (o = Return RetUndefined
            /\ (d = [] \/ exists reason, d = [ JArr (JBool false :: reason) ]))
           \/ saved_or_failed o d)).
    { unfold onTranslate, onTranslate_save, onTranslate_failed, _initSession,
        _clearSession.
      repeat first
        [ apply (reports_weaken (saveAsWebpage w _) saved_or_failed);
          [ apply saveAsWebpage_reports | intros o d Hd; right; exact Hd ]
        | apply reports_bind_quiet;
          [ apply translateAndSave_quiet | intro | intro ]
        | reports_step
        | reflexivity
        | left; split; [ reflexivity | left; reflexivity ]
        | left; split; [ reflexivity | right; eexists; reflexivity ]
        | right; reflexivity
        | right; left; reflexivity ]. }
    destruct (Hrun s) as [[Hout Hd] | Hd]; [ | exact (Hsaved _ _ Hd) ].
    unfold once. rewrite Hout.
    split; [ destruct Hd as [-> | [reason ->]]; simpl; auto | ].
    split; [ intros r H Hr; injection H as <-; contradiction Hr; reflexivity
           | intros e H; discriminate H ].
Qed.

Lemma done_is_reported_once_witness :
  done_messages
    (trace_of
       (onTranslate Pages.two_books (translatorID Examples.scholar) no_options
          Examples.detected_only))
  = [ JArr [ JBool true ] ].
Proof.
  destruct (done_is_reported_once Pages.two_books Examples.detected_only)
    as (_ & _ & Htranslate).
  destruct (Htranslate (translatorID Examples.scholar) no_options)
    as (_ & Hreturned & _).
  apply (Hreturned (RetExternal (JStr "saved"))).
  - reflexivity.
  - discriminate.
Defined.
